(** * libewf: the low level write functions (libewf_write_io_handle.c)

    A shallow embedding of the write engine of libewf: the capacity
    planner (chunks per segment, chunks per chunks section, the two
    "is it full" tests), the chunk processor, the handle initialisation
    and the two chunk writers.

    Conventions of the embedding.
    - C integers are [Z]; every conversion and every wrap-around of the
      C program is written out ([u8], [u16], [u32], [u64], [s64]).  The
      data model is LP64: [int] is 32 bits wide, [size_t] is an unsigned
      and [ssize_t], [off64_t], [ssize64_t] and [int64_t] a signed 64-bit
      integer.  [sizeof] yields a [size_t].
    - A pointer argument that the C code tests against [NULL] is an
      [option]: [None] is [NULL].
    - A function returns an [outcome]: a normal return, a [return( -1 )]
      together with the [liberror] it set, or [Undefined] where C leaves
      the behaviour undefined (division by zero, signed overflow, a read
      or write through [NULL] or outside a buffer). *)

From stdpp Require Import base numbers option list gmap.

Local Open Scope Z_scope.

(** ** C integers *)

Module CInt.

Definition wrap_unsigned (bits x : Z) : Z := x mod 2 ^ bits.

Definition wrap_signed (bits x : Z) : Z :=
  (x + 2 ^ (bits - 1)) mod 2 ^ bits - 2 ^ (bits - 1).

Definition u8 (x : Z) : Z := wrap_unsigned 8 x.
Definition u16 (x : Z) : Z := wrap_unsigned 16 x.
Definition u32 (x : Z) : Z := wrap_unsigned 32 x.
Definition u64 (x : Z) : Z := wrap_unsigned 64 x.
Definition s64 (x : Z) : Z := wrap_signed 64 x.

Definition UINT8_MAX : Z := 255.
Definition UINT16_MAX : Z := 65535.
Definition INT32_MAX : Z := 2147483647.
Definition UINT32_MAX : Z := 4294967295.
Definition INT64_MAX : Z := 9223372036854775807.
Definition INT64_MIN : Z := -9223372036854775808.
Definition UINT64_MAX : Z := 18446744073709551615.
(** [SSIZE_MAX] of an LP64 target. *)
Definition SSIZE_MAX : Z := INT64_MAX.

Definition is_uint8 (x : Z) : Prop := 0 <= x <= UINT8_MAX.
Definition is_uint16 (x : Z) : Prop := 0 <= x <= UINT16_MAX.
Definition is_uint32 (x : Z) : Prop := 0 <= x <= UINT32_MAX.
Definition is_uint64 (x : Z) : Prop := 0 <= x <= UINT64_MAX.
Definition is_int64 (x : Z) : Prop := INT64_MIN <= x <= INT64_MAX.

Definition in_int64 (x : Z) : bool := (INT64_MIN <=? x) && (x <=? INT64_MAX).

End CInt.

Export CInt.

(** ** Outcomes of a C function *)

(** The error codes of liberror this file sets (liberror.h is not part of
    the sources; only the names are used). *)
Inductive liberror : Type :=
  | LIBERROR_ARGUMENT_ERROR_INVALID_VALUE
  | LIBERROR_ARGUMENT_ERROR_VALUE_EXCEEDS_MAXIMUM
  | LIBERROR_ARGUMENT_ERROR_VALUE_TOO_LARGE
  | LIBERROR_ARGUMENT_ERROR_VALUE_ZERO_OR_LESS
  | LIBERROR_ARGUMENT_ERROR_VALUE_OUT_OF_RANGE
  | LIBERROR_ARGUMENT_ERROR_UNSUPPORTED_VALUE
  | LIBERROR_ARGUMENT_ERROR_CONFLICTING_VALUE
  | LIBERROR_MEMORY_ERROR_INSUFFICIENT
  | LIBERROR_MEMORY_ERROR_SET_FAILED
  | LIBERROR_MEMORY_ERROR_COPY_FAILED
  | LIBERROR_RUNTIME_ERROR_VALUE_MISSING
  | LIBERROR_RUNTIME_ERROR_VALUE_ALREADY_SET
  | LIBERROR_RUNTIME_ERROR_VALUE_OUT_OF_RANGE
  | LIBERROR_RUNTIME_ERROR_GET_FAILED
  | LIBERROR_RUNTIME_ERROR_RESIZE_FAILED
  | LIBERROR_RUNTIME_ERROR_INITIALIZE_FAILED
  | LIBERROR_RUNTIME_ERROR_REMOVE_FAILED
  | LIBERROR_RUNTIME_ERROR_FINALIZE_FAILED
  | LIBERROR_IO_ERROR_OPEN_FAILED
  | LIBERROR_IO_ERROR_SEEK_FAILED
  | LIBERROR_IO_ERROR_WRITE_FAILED
  | LIBERROR_COMPRESSION_ERROR_COMPRESS_FAILED.

(** [Returned a]: the function returned normally with [a].
    [Failed e]: the function executed [return( -1 )]; [e] is the error it
    set with [liberror_error_set] ([None] where it set none).
    [Undefined]: the C standard does not define what happens. *)
Inductive outcome (A : Type) : Type :=
  | Returned (a : A)
  | Failed (e : option liberror)
  | Undefined.

Arguments Returned {A} a.
Arguments Failed {A} e.
Arguments Undefined {A}.

#[global] Instance outcome_ret : MRet outcome := fun A a => Returned a.

#[global] Instance outcome_bind : MBind outcome := fun A B k m =>
  match m with
  | Returned a => k a
  | Failed e => Failed e
  | Undefined => Undefined
  end.

#[global] Instance outcome_fmap : FMap outcome := fun A B f m =>
  match m with
  | Returned a => Returned (f a)
  | Failed e => Failed e
  | Undefined => Undefined
  end.

(** [a / b] of two [int64_t]. *)
Definition div_int64 (a b : Z) : outcome Z :=
  if b =? 0 then Undefined
  else if (a =? INT64_MIN) && (b =? -1) then Undefined
  else Returned (Z.quot a b).

(** [a % b] of two [int64_t]. *)
Definition rem_int64 (a b : Z) : outcome Z :=
  if b =? 0 then Undefined
  else if (a =? INT64_MIN) && (b =? -1) then Undefined
  else Returned (Z.rem a b).

(** [a / b] of two [uint64_t]. *)
Definition div_uint64 (a b : Z) : outcome Z :=
  if b =? 0 then Undefined else Returned (a / b).

(** [a + b], [a - b] and [a * b] of two [int64_t]: an overflow is
    undefined. *)
Definition add_int64 (a b : Z) : outcome Z :=
  if in_int64 (a + b) then Returned (a + b) else Undefined.

Definition sub_int64 (a b : Z) : outcome Z :=
  if in_int64 (a - b) then Returned (a - b) else Undefined.

Definition mul_int64 (a b : Z) : outcome Z :=
  if in_int64 (a * b) then Returned (a * b) else Undefined.

(** ** Formats, sizes and media values *)

(** Modelled from the spec: ewf_definitions.h is absent from the
    sources; the spec gives [ewf_format] the values S01 and E01. *)
Inductive ewf_format_t : Type :=
  | EWF_FORMAT_S01
  | EWF_FORMAT_E01.

(** Modelled from the spec: libewf_definitions.h is absent from the
    sources; the spec lists the formats encase1 .. encase6, ewf, smart,
    ewfx, linen and ftk. *)
Inductive format_t : Type :=
  | LIBEWF_FORMAT_ENCASE1
  | LIBEWF_FORMAT_ENCASE2
  | LIBEWF_FORMAT_ENCASE3
  | LIBEWF_FORMAT_ENCASE4
  | LIBEWF_FORMAT_ENCASE5
  | LIBEWF_FORMAT_ENCASE6
  | LIBEWF_FORMAT_EWF
  | LIBEWF_FORMAT_SMART
  | LIBEWF_FORMAT_EWFX
  | LIBEWF_FORMAT_LINEN
  | LIBEWF_FORMAT_FTK.

(** Modelled from the spec: the compression levels none, default, fast
    and best of ewf_definitions.h. *)
Inductive compression_level_t : Type :=
  | EWF_COMPRESSION_NONE
  | EWF_COMPRESSION_DEFAULT
  | EWF_COMPRESSION_FAST
  | EWF_COMPRESSION_BEST.

#[global] Instance ewf_format_eq_dec : EqDecision ewf_format_t.
Proof. solve_decision. Defined.

#[global] Instance format_eq_dec : EqDecision format_t.
Proof. solve_decision. Defined.

#[global] Instance compression_level_eq_dec : EqDecision compression_level_t.
Proof. solve_decision. Defined.

#[global] Instance liberror_eq_dec : EqDecision liberror.
Proof. solve_decision. Defined.

(** Modelled from the spec: [sizeof( ewf_section_t )]; a section header
    is 76 bytes (ewf_section.h is absent from the sources). *)
Definition sizeof_ewf_section_t : Z := 76.

(** Modelled from the spec: [sizeof( ewf_crc_t )]; the CRC is a 32-bit
    value (ewf_crc.h is absent from the sources). *)
Definition sizeof_ewf_crc_t : Z := 4.

(** Modelled from the spec: [sizeof( ewf_table_offset_t )]; a table
    entry is a 4-byte offset (ewf_table.h is absent from the sources). *)
Definition sizeof_ewf_table_offset_t : Z := 4.

(** Modelled from the spec: the fields of [libewf_media_values_t] this
    file reads (libewf_media_values.h is absent from the sources):
    [media_size] is a [size64_t], [chunk_size] and [amount_of_chunks]
    are [uint32_t]. *)
Module MediaValues.

Record libewf_media_values_t : Type := {
  media_size : Z;
  chunk_size : Z;
  amount_of_chunks : Z
}.

End MediaValues.

Abbreviation libewf_media_values_t := MediaValues.libewf_media_values_t.

Definition media_values_typed (m : libewf_media_values_t) : Prop :=
  is_uint64 (MediaValues.media_size m)
  /\ is_uint32 (MediaValues.chunk_size m)
  /\ is_uint32 (MediaValues.amount_of_chunks m).

(** ** Mixed signed and unsigned arithmetic

    An [int64_t] that meets a [size_t] in an arithmetic operator is
    converted to [uint64_t] first (the usual arithmetic conversions on
    LP64); the result, stored back into the [int64_t], is converted
    again. *)

(** [a * b] for an [int64_t a] and a [size_t b]: a [size_t]. *)
Definition mul_int64_size_t (a b : Z) : Z := u64 (u64 a * b).

(** [a -= b] for an [int64_t a] and a [size_t b]: the new [a]. *)
Definition sub_assign_int64_size_t (a b : Z) : Z := s64 (u64 (u64 a - b)).

(** [a /= b] for an [int64_t a] and a [size_t b]: the new [a]. *)
Definition div_assign_int64_size_t (a b : Z) : outcome Z :=
  s64 <$> div_uint64 (u64 a) b.

(** ** The capacity planner *)

(** [libewf_write_io_handle_test_empty_block]: the loop
    [for( iterator = 1; iterator < size; iterator++ )], [steps]
    iterations from [iterator] on. *)
Fixpoint test_empty_block_loop (buffer : list Z) (iterator steps : nat)
  : outcome Z :=
  match steps with
  | O => Returned 1
  | S steps' =>
      match buffer !! 0%nat, buffer !! iterator with
      | Some first, Some current =>
          if first =? current
          then test_empty_block_loop buffer (S iterator) steps'
          else Returned 0
      | _, _ => Undefined
      end
  end.

(** Check for empty block, a block that contains the same value for
    every byte.  Returns 1 if block is empty, 0 if not or -1 on error.
    [buffer] is the content of the memory the pointer refers to. *)
Definition libewf_write_io_handle_test_empty_block
    (buffer : option (list Z)) (size : Z) : outcome Z :=
  match buffer with
  | None => Failed (Some LIBERROR_ARGUMENT_ERROR_INVALID_VALUE)
  | Some buffer =>
      if SSIZE_MAX <? size
      then Failed (Some LIBERROR_ARGUMENT_ERROR_VALUE_EXCEEDS_MAXIMUM)
      else test_empty_block_loop buffer 1 (Z.to_nat (size - 1))
  end.

(** Calculates an estimate of the amount of chunks that fit within a
    segment file.  [Returned (1, n)]: the function returned 1 and stored
    [n] in [*chunks_per_segment]. *)
Definition libewf_write_io_handle_calculate_chunks_per_segment
    (chunks_per_segment : option Z)
    (remaining_segment_file_size maximum_section_amount_of_chunks
     segment_amount_of_chunks amount_of_chunks : Z)
    (media_values : option libewf_media_values_t)
    (format : format_t) (ewf_format : ewf_format_t)
    (unrestrict_offset_amount : Z) : outcome (Z * Z) :=
  match chunks_per_segment with
  | None => Failed (Some LIBERROR_ARGUMENT_ERROR_INVALID_VALUE)
  | Some _ =>
  if maximum_section_amount_of_chunks =? 0
  then Failed (Some LIBERROR_ARGUMENT_ERROR_INVALID_VALUE)
  else
  match media_values with
  | None => Failed (Some LIBERROR_ARGUMENT_ERROR_INVALID_VALUE)
  | Some media_values =>
      (* Calculate the maximum amount of chunks within this segment *)
      let maximum_chunks_per_segment := s64 remaining_segment_file_size in
      maximum_chunks_per_segment ←
        (if decide (ewf_format = EWF_FORMAT_S01)
         then div_int64 maximum_chunks_per_segment
                (u32 (MediaValues.chunk_size media_values + 16))
         else div_assign_int64_size_t maximum_chunks_per_segment
                (u64 (MediaValues.chunk_size media_values + sizeof_ewf_crc_t)));
      (* Determine the amount of required chunk sections *)
      required_chunk_sections ←
        (if unrestrict_offset_amount =? 0
         then rem_int64 maximum_chunks_per_segment
                maximum_section_amount_of_chunks
         else mret 1);
      let calculated_chunks_per_segment := s64 remaining_segment_file_size in
      calculated_chunks_per_segment ←
        (if decide (ewf_format = EWF_FORMAT_S01)
         then
           let calculated_chunks_per_segment :=
             sub_assign_int64_size_t calculated_chunks_per_segment
               (mul_int64_size_t required_chunk_sections
                  sizeof_ewf_section_t) in
           mret (sub_assign_int64_size_t calculated_chunks_per_segment
                   (mul_int64_size_t maximum_chunks_per_segment
                      sizeof_ewf_table_offset_t))
         else if decide (format = LIBEWF_FORMAT_ENCASE1)
         then
           let calculated_chunks_per_segment :=
             sub_assign_int64_size_t calculated_chunks_per_segment
               (mul_int64_size_t required_chunk_sections
                  (u64 (sizeof_ewf_section_t + sizeof_ewf_crc_t))) in
           mret (sub_assign_int64_size_t calculated_chunks_per_segment
                   (mul_int64_size_t maximum_chunks_per_segment
                      sizeof_ewf_table_offset_t))
         else
           let calculated_chunks_per_segment :=
             sub_assign_int64_size_t calculated_chunks_per_segment
               (mul_int64_size_t required_chunk_sections
                  (u64 (u64 (3 * sizeof_ewf_section_t)
                        + u64 (2 * sizeof_ewf_crc_t)))) in
           twice ← mul_int64 2 maximum_chunks_per_segment;
           mret (sub_assign_int64_size_t calculated_chunks_per_segment
                   (mul_int64_size_t twice sizeof_ewf_table_offset_t)));
      (* Calculate the amount of chunks within this segment file *)
      calculated_chunks_per_segment ←
        (if decide (ewf_format = EWF_FORMAT_S01)
         then div_int64 calculated_chunks_per_segment
                (u32 (MediaValues.chunk_size media_values + 16))
         else div_assign_int64_size_t calculated_chunks_per_segment
                (u64 (MediaValues.chunk_size media_values + sizeof_ewf_crc_t)));
      (* If the input size is known determine the remaining amount of chunks *)
      calculated_chunks_per_segment ←
        (if 0 <? MediaValues.media_size media_values
         then
           remaining_amount_of_chunks ←
             sub_int64 (MediaValues.amount_of_chunks media_values) amount_of_chunks;
           mret (if remaining_amount_of_chunks <? calculated_chunks_per_segment
                 then remaining_amount_of_chunks
                 else calculated_chunks_per_segment)
         else mret calculated_chunks_per_segment);
      (* Make sure to return the total amount of chunks per segment *)
      calculated_chunks_per_segment ←
        (if 0 <? segment_amount_of_chunks
         then add_int64 calculated_chunks_per_segment segment_amount_of_chunks
         else mret calculated_chunks_per_segment);
      (* Fail safe no more than 2^32 values are allowed *)
      let calculated_chunks_per_segment :=
        if UINT32_MAX <? calculated_chunks_per_segment
        then UINT32_MAX else calculated_chunks_per_segment in
      mret (1, u32 calculated_chunks_per_segment)
  end
  end.

(** Calculates the amount of chunks that fit within a chunks section.
    [Returned (1, n)]: the function returned 1 and stored [n] in
    [*chunks_per_chunks_section]. *)
Definition libewf_write_io_handle_calculate_chunks_per_chunks_section
    (chunks_per_chunks_section : option Z)
    (maximum_section_amount_of_chunks chunks_per_segment
     chunks_section_number unrestrict_offset_amount : Z) : outcome (Z * Z) :=
  match chunks_per_chunks_section with
  | None => Failed (Some LIBERROR_ARGUMENT_ERROR_INVALID_VALUE)
  | Some _ =>
  if maximum_section_amount_of_chunks =? 0
  then Failed (Some LIBERROR_ARGUMENT_ERROR_INVALID_VALUE)
  else if chunks_section_number =? 0
  then Failed (Some LIBERROR_ARGUMENT_ERROR_UNSUPPORTED_VALUE)
  else
    let remaining_amount_of_chunks := chunks_per_segment in
    remaining_amount_of_chunks ←
      (if 1 <? chunks_section_number
       then
         (* ( uint8_t - 1 ) * uint32_t: a product of unsigned int *)
         sub_int64 remaining_amount_of_chunks
           (u32 ((chunks_section_number - 1)
                 * maximum_section_amount_of_chunks))
       else mret remaining_amount_of_chunks);
    if remaining_amount_of_chunks <=? 0
    then Failed None
    else
      let remaining_amount_of_chunks :=
        if (unrestrict_offset_amount =? 0)
           && (maximum_section_amount_of_chunks <? remaining_amount_of_chunks)
        then maximum_section_amount_of_chunks
        else remaining_amount_of_chunks in
      (* Fail safe no more than 2^31 values are allowed *)
      let remaining_amount_of_chunks :=
        if INT32_MAX <? remaining_amount_of_chunks
        then INT32_MAX else remaining_amount_of_chunks in
      mret (1, u32 remaining_amount_of_chunks)
  end.

(** Tests if the current segment file is full.
    Returns 1 if full, 0 if not or -1 on error. *)
Definition libewf_write_io_handle_test_segment_file_full
    (remaining_segment_file_size segment_amount_of_chunks : Z)
    (media_values : option libewf_media_values_t)
    (input_write_count chunks_per_segment current_amount_of_chunks : Z)
    (format : format_t) (ewf_format : ewf_format_t) : outcome Z :=
  match media_values with
  | None => Failed (Some LIBERROR_ARGUMENT_ERROR_INVALID_VALUE)
  | Some media_values =>
      (* Check if the maximum amount of chunks has been reached *)
      if negb (MediaValues.amount_of_chunks media_values =? 0)
         && (MediaValues.amount_of_chunks media_values =? current_amount_of_chunks)
      then Returned 1
      (* Check if the end of the input has been reached *)
      else if negb (MediaValues.media_size media_values =? 0)
              && (s64 (MediaValues.media_size media_values) <=? input_write_count)
      then Returned 1
      (* The EWF-S01 and EnCase1 format should use the pre calculated size *)
      else if bool_decide (ewf_format = EWF_FORMAT_S01)
              || bool_decide (format = LIBEWF_FORMAT_ENCASE1)
      then
        if chunks_per_segment <=? segment_amount_of_chunks
        then Returned 1 else Returned 0
      (* Determine if a chunk would fit in the segment file *)
      else if remaining_segment_file_size
              <? s64 (u64 (MediaValues.chunk_size media_values + sizeof_ewf_crc_t))
      then Returned 1
      else Returned 0
  end.

(** Tests if the current chunks section is full.
    Returns 1 if full, 0 if not or -1 on error. *)
Definition libewf_write_io_handle_test_chunks_section_full
    (chunks_section_offset remaining_segment_file_size : Z)
    (media_values : option libewf_media_values_t)
    (input_write_count segment_file_offset
     maximum_section_amount_of_chunks section_amount_of_chunks
     current_amount_of_chunks chunks_per_chunks_section : Z)
    (format : format_t) (ewf_format : ewf_format_t)
    (unrestrict_offset_amount : Z) : outcome Z :=
  match media_values with
  | None => Failed (Some LIBERROR_ARGUMENT_ERROR_INVALID_VALUE)
  | Some media_values =>
      if INT64_MAX <? segment_file_offset
      then Failed (Some LIBERROR_ARGUMENT_ERROR_VALUE_EXCEEDS_MAXIMUM)
      else if maximum_section_amount_of_chunks =? 0
      then Failed (Some LIBERROR_ARGUMENT_ERROR_INVALID_VALUE)
      (* Check if a chunks section has been opened *)
      else if chunks_section_offset =? 0
      then Returned 0
      (* Check if the maximum amount of chunks has been reached *)
      else if negb (MediaValues.amount_of_chunks media_values =? 0)
              && (MediaValues.amount_of_chunks media_values =? current_amount_of_chunks)
      then Returned 1
      (* Check if the end of the input has been reached *)
      else if negb (MediaValues.media_size media_values =? 0)
              && (s64 (MediaValues.media_size media_values) <=? input_write_count)
      then Returned 1
      (* Check if the maximum amount of chunks restriction should apply *)
      else if (unrestrict_offset_amount =? 0)
              && (maximum_section_amount_of_chunks
                  <=? section_amount_of_chunks)
      then Returned 1
      (* Fail safe no more than 2^31 chunk values are allowed *)
      else if u32 INT32_MAX <? section_amount_of_chunks
      then Returned 1
      else
        (* Prevent offset overflow *)
        distance ← sub_int64 segment_file_offset chunks_section_offset;
        if INT32_MAX <? distance
        then Returned 1
        (* The EWF-S01 and EnCase1 format do not allow for a growth of
           the offset table *)
        else if bool_decide (ewf_format = EWF_FORMAT_S01)
                || bool_decide (format = LIBEWF_FORMAT_ENCASE1)
        then
          if chunks_per_chunks_section <=? section_amount_of_chunks
          then Returned 1 else Returned 0
        (* Determine if a chunk would fit in the segment file *)
        else if remaining_segment_file_size
                <? s64 (u64 (MediaValues.chunk_size media_values + sizeof_ewf_crc_t))
        then Returned 1
        else Returned 0
  end.

(** The estimate of the chunks per segment as the specification words
    it, step by step, over the integers: no conversion and no
    wrap-around. *)
Section ChunksPerSegmentEstimate.

Variable remaining_segment_file_size maximum_section_amount_of_chunks : Z.
Variable segment_amount_of_chunks amount_of_chunks : Z.
Variable media_values : libewf_media_values_t.
Variable format : format_t.
Variable ewf_format : ewf_format_t.
Variable unrestrict_offset_amount : Z.

(** The chunk and what it costs besides: 16 bytes for S01, the CRC
    otherwise. *)
Definition per_chunk_size : Z :=
  MediaValues.chunk_size media_values
  + (if decide (ewf_format = EWF_FORMAT_S01) then 16 else sizeof_ewf_crc_t).

Definition maximum_chunks : Z :=
  remaining_segment_file_size `quot` per_chunk_size.

Definition required_sections : Z :=
  if unrestrict_offset_amount =? 0
  then maximum_chunks `rem` maximum_section_amount_of_chunks else 1.

(** The section starts and table offsets to leave space for. *)
Definition reserved_overhead : Z :=
  if decide (ewf_format = EWF_FORMAT_S01)
  then required_sections * sizeof_ewf_section_t
       + maximum_chunks * sizeof_ewf_table_offset_t
  else if decide (format = LIBEWF_FORMAT_ENCASE1)
  then required_sections * (sizeof_ewf_section_t + 4)
       + maximum_chunks * sizeof_ewf_table_offset_t
  else required_sections * (3 * sizeof_ewf_section_t + 8)
       + 2 * maximum_chunks * sizeof_ewf_table_offset_t.

Definition chunks_per_segment_estimate : Z :=
  let estimate :=
    (remaining_segment_file_size - reserved_overhead) `quot` per_chunk_size in
  let clamped :=
    if 0 <? MediaValues.media_size media_values
    then Z.min estimate
           (MediaValues.amount_of_chunks media_values - amount_of_chunks)
    else estimate in
  Z.min (clamped + segment_amount_of_chunks) UINT32_MAX.

End ChunksPerSegmentEstimate.

(** The amount of chunks of the next chunks section as the specification
    words it, over the integers: [None] is the error. *)
Definition chunks_per_chunks_section_estimate
    (maximum_section_amount_of_chunks chunks_per_segment
     chunks_section_number unrestrict_offset_amount : Z) : option Z :=
  let remaining :=
    chunks_per_segment
    - (chunks_section_number - 1) * maximum_section_amount_of_chunks in
  if remaining <=? 0 then None
  else
    let clamped :=
      if (unrestrict_offset_amount =? 0)
         && (maximum_section_amount_of_chunks <? remaining)
      then maximum_section_amount_of_chunks else remaining in
    Some (Z.min clamped INT32_MAX).

(** ** Memory and the chunk cache *)

(** A buffer is named by its block; a [uint8_t *] is the start of a
    block or [NULL].  The memory holds the bytes of every live block. *)
Definition block : Type := nat.
Definition pointer : Type := option block.
Abbreviation memory := (gmap nat (list Z)).

(** [size] bytes at [p + offset]; a read through [NULL], through a
    dangling pointer or past the end of the block is undefined. *)
Definition read_bytes (m : memory) (p : pointer) (offset size : Z)
  : outcome (list Z) :=
  match p with
  | None => Undefined
  | Some b =>
      match m !! b with
      | None => Undefined
      | Some content =>
          if (0 <=? offset) && (0 <=? size)
             && (offset + size <=? Z.of_nat (length content))
          then Returned (take (Z.to_nat size) (drop (Z.to_nat offset) content))
          else Undefined
      end
  end.

(** Store [bytes] at [p + offset]. *)
Definition write_bytes (m : memory) (p : pointer) (offset : Z) (bytes : list Z)
  : outcome memory :=
  match p with
  | None => Undefined
  | Some b =>
      match m !! b with
      | None => Undefined
      | Some content =>
          if (0 <=? offset)
             && (offset + Z.of_nat (length bytes) <=? Z.of_nat (length content))
          then Returned
                 (<[b := take (Z.to_nat offset) content ++ bytes
                         ++ drop (Z.to_nat offset + length bytes) content]> m)
          else Undefined
      end
  end.

(** The four bytes [endian_little_revert_32bit] stores for [value]. *)
Definition endian_little_revert_32bit (value : Z) : list Z :=
  [ value `mod` 256; (value ≫ 8) `mod` 256;
    (value ≫ 16) `mod` 256; (value ≫ 24) `mod` 256 ].

(** The [uint32_t] whose object representation is the four [bytes], on
    a little-endian and on a big-endian host. *)
Definition uint32_of_bytes (big_endian : bool) (bytes : list Z) : Z :=
  let combine (l : list Z) := foldr (fun b acc => b + 256 * acc) 0 l in
  if big_endian then combine (reverse bytes) else combine bytes.

(** Modelled from the spec: the two buffers of [libewf_chunk_cache_t]
    this file uses (libewf_chunk_cache.h is absent from the sources). *)
Module ChunkCache.

Record libewf_chunk_cache_t : Type := {
  compressed : pointer;
  data : pointer
}.

End ChunkCache.

Abbreviation libewf_chunk_cache_t := ChunkCache.libewf_chunk_cache_t.

(** What [libewf_compress] leaves behind: it returned 1 and produced
    [out], or it returned -1 and left [size_after] in
    [*compressed_size] (the size it asks for, when the buffer was too
    small). *)
Inductive compress_result : Type :=
  | CompressOk (out : list Z)
  | CompressFailed (size_after : Z).

(** The collaborators of the chunk processor, none of them part of the
    sources: the compression primitive (as a function of the
    uncompressed bytes, the level and the capacity of the output
    buffer), the resize of the chunk cache (which may move both of its
    buffers), the 32-bit checksum, and the byte order of the host. *)
Class ChunkProcessorEnv : Type := {
  libewf_compress : list Z -> compression_level_t -> Z -> compress_result;
  libewf_chunk_cache_resize :
    libewf_chunk_cache_t -> memory -> Z -> option (libewf_chunk_cache_t * memory);
  ewf_crc_calculate : list Z -> Z -> Z;
  host_big_endian : bool
}.

(** [Failed (Some e)] when [failing] holds. *)
Definition reject (failing : bool) (e : liberror) : outcome unit :=
  if failing then Failed (Some e) else Returned ().

(** What a call of the chunk processor leaves behind: the return value
    [data_write_size], what it stored through its output pointers, the
    final values of its locals [chunk_data] (the buffer the bytes to
    write are taken from) and [compressed_chunk_data], the chunk cache and
    the memory. *)
Module Processed.

Record processed_chunk : Type := {
  data_write_size : Z;
  is_compressed : Z;
  chunk_crc : Z;
  write_crc : Z;
  compressed_chunk_data_size : option Z;
  chunk_data : pointer;
  compressed_chunk_data : pointer;
  chunk_cache : libewf_chunk_cache_t;
  chunk_memory : memory
}.

End Processed.

Abbreviation processed_chunk := Processed.processed_chunk.

Section ChunkProcessor.

Context `{env : ChunkProcessorEnv}.

(** One call of [libewf_compress]: the return value, the new
    [*compressed_chunk_data_size] and the memory.  The primitive reads
    [chunk_data_size] bytes of [chunk_data] and stores its output at the
    start of [compressed_chunk_data]. *)
Definition call_libewf_compress (m : memory)
    (compressed_chunk_data : pointer) (capacity : Z)
    (chunk_data : pointer) (chunk_data_size : Z)
    (chunk_compression_level : compression_level_t)
  : outcome (Z * Z * memory) :=
  match compressed_chunk_data with
  | None => Returned (-1, capacity, m)
  | Some _ =>
      uncompressed ← read_bytes m chunk_data 0 chunk_data_size;
      match libewf_compress uncompressed chunk_compression_level capacity with
      | CompressOk out =>
          m' ← write_bytes m compressed_chunk_data 0 out;
          mret (1, Z.of_nat (length out), m')
      | CompressFailed size_after => mret (-1, size_after, m)
      end
  end.

(** Compress empty blocks if necessary: the compression level to use. *)
Definition determine_compression_level (m : memory)
    (compression_level : compression_level_t) (compress_empty_block : Z)
    (chunk_data : pointer) (chunk_data_size : Z)
  : outcome compression_level_t :=
  let chunk_compression_level := compression_level in
  if bool_decide (chunk_compression_level = EWF_COMPRESSION_NONE)
     && (compress_empty_block =? 1)
  then
    match libewf_write_io_handle_test_empty_block
            ((fun b => default [] (m !! b)) <$> chunk_data)
            chunk_data_size with
    | Returned result =>
        if result =? 1 then mret EWF_COMPRESSION_DEFAULT
        else mret chunk_compression_level
    | Failed _ => Failed (Some LIBERROR_RUNTIME_ERROR_GET_FAILED)
    | Undefined => Undefined
    end
  else mret chunk_compression_level.

(** The memory, the chunk cache, the locals [chunk_data] and
    [compressed_chunk_data] and the content of
    [*compressed_chunk_data_size] on the way through the function. *)
Definition processing : Type :=
  memory * libewf_chunk_cache_t * pointer * pointer * option Z.

(** The compression: for EWF-S01 and for every level but none.  The
    compressed data size contains the maximum allowed buffer size on
    entry. *)
Definition compress_chunk (m : memory) (chunk_cache : libewf_chunk_cache_t)
    (ewf_format : ewf_format_t)
    (chunk_compression_level : compression_level_t)
    (chunk_data : pointer) (chunk_data_size : Z)
    (compressed_chunk_data : pointer)
    (compressed_chunk_data_size : option Z) : outcome processing :=
  if bool_decide (ewf_format = EWF_FORMAT_S01)
     || negb (bool_decide (chunk_compression_level = EWF_COMPRESSION_NONE))
  then
    _ ← reject (bool_decide (compressed_chunk_data = None))
          LIBERROR_ARGUMENT_ERROR_INVALID_VALUE;
    _ ← reject (bool_decide (chunk_data = compressed_chunk_data))
          LIBERROR_ARGUMENT_ERROR_INVALID_VALUE;
    match compressed_chunk_data_size with
    | None => Failed (Some LIBERROR_ARGUMENT_ERROR_INVALID_VALUE)
    | Some capacity =>
        _ ← reject (SSIZE_MAX <? capacity)
              LIBERROR_ARGUMENT_ERROR_VALUE_EXCEEDS_MAXIMUM;
        '(result, size, m) ←
          call_libewf_compress m compressed_chunk_data capacity
            chunk_data chunk_data_size chunk_compression_level;
        (* Check if the compressed buffer was too small and the chunk
           cache is used to store the compressed chunk and a new
           compressed data size buffer was passed back *)
        '(result, size, m, chunk_cache, chunk_data,
          compressed_chunk_data) ←
          (if (result =? -1)
              && bool_decide (compressed_chunk_data
                              = ChunkCache.compressed chunk_cache)
              && (0 <? size)
           then
             let chunk_cache_data_used :=
               bool_decide (chunk_data = ChunkCache.data chunk_cache) in
             match libewf_chunk_cache_resize chunk_cache m size with
             | None => Failed (Some LIBERROR_RUNTIME_ERROR_RESIZE_FAILED)
             | Some (chunk_cache, m) =>
                 (* Make sure the pointer refers to the reallocated
                    buffer *)
                 let compressed_chunk_data :=
                   ChunkCache.compressed chunk_cache in
                 let chunk_data :=
                   if chunk_cache_data_used
                      && negb (bool_decide
                                 (chunk_data = ChunkCache.data chunk_cache))
                   then ChunkCache.data chunk_cache else chunk_data in
                 '(result, size, m) ←
                   call_libewf_compress m compressed_chunk_data size
                     chunk_data chunk_data_size chunk_compression_level;
                 mret (result, size, m, chunk_cache, chunk_data,
                       compressed_chunk_data)
             end
           else mret (result, size, m, chunk_cache, chunk_data,
                      compressed_chunk_data));
        _ ← reject (negb (result =? 1))
              LIBERROR_COMPRESSION_ERROR_COMPRESS_FAILED;
        mret (m, chunk_cache, chunk_data, compressed_chunk_data, Some size)
    end
  else mret (m, chunk_cache, chunk_data, compressed_chunk_data,
             compressed_chunk_data_size).

(** The choice between the compressed and the raw chunk, and the CRC. *)
Definition store_chunk (media_values : libewf_media_values_t)
    (ewf_format : ewf_format_t) (chunk_data_size write_crc : Z)
    (state : processing) : outcome processed_chunk :=
  let '(m, chunk_cache, chunk_data, compressed_chunk_data,
        compressed_chunk_data_size) := state in
  store_compressed ←
    (if bool_decide (ewf_format = EWF_FORMAT_S01) then mret true
     else
       match compressed_chunk_data_size with
       | None => Undefined
       | Some size =>
           mret ((0 <? size) && (size <? MediaValues.chunk_size media_values))
       end);
  if store_compressed : bool
  then
    match compressed_chunk_data_size with
    | None => Undefined
    | Some size =>
        let data_write_size := size in
        let chunk_data := compressed_chunk_data in
        (* Zlib creates its own CRC *)
        crc_bytes ←
          (if size <? sizeof_ewf_crc_t then Undefined
           else read_bytes m chunk_data (size - sizeof_ewf_crc_t)
                  sizeof_ewf_crc_t);
        mret {| Processed.data_write_size := s64 data_write_size;
                Processed.is_compressed := 1;
                Processed.chunk_crc := uint32_of_bytes host_big_endian crc_bytes;
                Processed.write_crc := write_crc;
                Processed.compressed_chunk_data_size := compressed_chunk_data_size;
                Processed.chunk_data := chunk_data;
                Processed.compressed_chunk_data := compressed_chunk_data;
                Processed.chunk_cache := chunk_cache;
                Processed.chunk_memory := m |}
    end
  else
    chunk_bytes ← read_bytes m chunk_data 0 chunk_data_size;
    let chunk_crc := ewf_crc_calculate chunk_bytes 1 in
    let data_write_size := chunk_data_size in
    (* If the chunk cache data is used add the CRC *)
    if bool_decide (chunk_data = ChunkCache.data chunk_cache)
    then
      m ← write_bytes m chunk_data chunk_data_size
            (endian_little_revert_32bit chunk_crc);
      mret {| Processed.data_write_size :=
                s64 (u64 (data_write_size + sizeof_ewf_crc_t));
              Processed.is_compressed := 0;
              Processed.chunk_crc := chunk_crc;
              Processed.write_crc := write_crc;
              Processed.compressed_chunk_data_size := compressed_chunk_data_size;
              Processed.chunk_data := chunk_data;
              Processed.compressed_chunk_data := compressed_chunk_data;
              Processed.chunk_cache := chunk_cache;
              Processed.chunk_memory := m |}
    else
      mret {| Processed.data_write_size := s64 data_write_size;
              Processed.is_compressed := 0;
              Processed.chunk_crc := chunk_crc;
              Processed.write_crc := 1;
              Processed.compressed_chunk_data_size := compressed_chunk_data_size;
              Processed.chunk_data := chunk_data;
              Processed.compressed_chunk_data := compressed_chunk_data;
              Processed.chunk_cache := chunk_cache;
              Processed.chunk_memory := m |}.

(** Processes the chunk data, applies compression if necessary and
    calculates the CRC.  Returns the amount of bytes of the processed
    chunk data or -1 on error. *)
Definition libewf_write_io_handle_process_chunk
    (m : memory)
    (chunk_cache : option libewf_chunk_cache_t)
    (media_values : option libewf_media_values_t)
    (compression_level : compression_level_t)
    (compress_empty_block : Z)
    (ewf_format : ewf_format_t)
    (chunk_data : pointer) (chunk_data_size : Z)
    (compressed_chunk_data : pointer)
    (compressed_chunk_data_size : option Z)
    (is_compressed chunk_crc write_crc : option Z)
  : outcome processed_chunk :=
  match chunk_cache, media_values with
  | None, _ | _, None => Failed (Some LIBERROR_ARGUMENT_ERROR_INVALID_VALUE)
  | Some chunk_cache, Some media_values =>
  _ ← reject (bool_decide (chunk_data = None))
        LIBERROR_ARGUMENT_ERROR_INVALID_VALUE;
  _ ← reject (bool_decide (chunk_data = ChunkCache.compressed chunk_cache))
        LIBERROR_ARGUMENT_ERROR_INVALID_VALUE;
  _ ← reject (SSIZE_MAX <? chunk_data_size)
        LIBERROR_ARGUMENT_ERROR_VALUE_EXCEEDS_MAXIMUM;
  _ ← reject (MediaValues.chunk_size media_values <? chunk_data_size)
        LIBERROR_ARGUMENT_ERROR_VALUE_TOO_LARGE;
  _ ← reject (bool_decide (chunk_crc = None))
        LIBERROR_ARGUMENT_ERROR_INVALID_VALUE;
  _ ← reject (bool_decide (is_compressed = None))
        LIBERROR_ARGUMENT_ERROR_INVALID_VALUE;
  _ ← reject (bool_decide (write_crc = None))
        LIBERROR_ARGUMENT_ERROR_INVALID_VALUE;
  let write_crc := 0 in
  (* Determine the compression level *)
  chunk_compression_level ←
    determine_compression_level m compression_level compress_empty_block
      chunk_data chunk_data_size;
  state ←
    compress_chunk m chunk_cache ewf_format chunk_compression_level
      chunk_data chunk_data_size compressed_chunk_data
      compressed_chunk_data_size;
  store_chunk media_values ewf_format chunk_data_size write_crc state
  end.

End ChunkProcessor.

(** ** The write io handle *)

(** Modelled from the spec: the fields of [libewf_write_io_handle_t]
    (libewf_write_io_handle.h is absent from the sources), with the types
    the functions of this file use them at: the sizes are [size64_t], the
    remaining size and the write counts [ssize64_t], the offset an
    [off64_t], the amounts of chunks [uint32_t], the flags and the section
    number [uint8_t]; [table_offsets] and [data_section] are pointers. *)
Module WriteIoHandle.

Record libewf_write_io_handle_t : Type := {
  maximum_segment_file_size : Z;
  segment_file_size : Z;
  remaining_segment_file_size : Z;
  delta_segment_file_size : Z;
  maximum_section_amount_of_chunks : Z;
  maximum_amount_of_segments : Z;
  input_write_count : Z;
  write_count : Z;
  chunks_section_write_count : Z;
  chunks_section_offset : Z;
  amount_of_chunks : Z;
  chunks_per_segment : Z;
  chunks_per_chunks_section : Z;
  segment_amount_of_chunks : Z;
  section_amount_of_chunks : Z;
  amount_of_table_offsets : Z;
  table_offsets : option nat;
  data_section : option nat;
  chunks_section_number : Z;
  unrestrict_offset_amount : Z;
  create_chunks_section : Z;
  write_finalized : Z
}.

Definition set_remaining_segment_file_size (v : Z)
    (h : libewf_write_io_handle_t) : libewf_write_io_handle_t :=
  Build_libewf_write_io_handle_t
    (maximum_segment_file_size h) (segment_file_size h) v
    (delta_segment_file_size h) (maximum_section_amount_of_chunks h)
    (maximum_amount_of_segments h) (input_write_count h) (write_count h)
    (chunks_section_write_count h) (chunks_section_offset h)
    (amount_of_chunks h) (chunks_per_segment h) (chunks_per_chunks_section h)
    (segment_amount_of_chunks h) (section_amount_of_chunks h)
    (amount_of_table_offsets h) (table_offsets h) (data_section h)
    (chunks_section_number h) (unrestrict_offset_amount h)
    (create_chunks_section h) (write_finalized h).

Definition set_input_write_count (v : Z)
    (h : libewf_write_io_handle_t) : libewf_write_io_handle_t :=
  Build_libewf_write_io_handle_t
    (maximum_segment_file_size h) (segment_file_size h)
    (remaining_segment_file_size h) (delta_segment_file_size h)
    (maximum_section_amount_of_chunks h) (maximum_amount_of_segments h) v
    (write_count h) (chunks_section_write_count h) (chunks_section_offset h)
    (amount_of_chunks h) (chunks_per_segment h) (chunks_per_chunks_section h)
    (segment_amount_of_chunks h) (section_amount_of_chunks h)
    (amount_of_table_offsets h) (table_offsets h) (data_section h)
    (chunks_section_number h) (unrestrict_offset_amount h)
    (create_chunks_section h) (write_finalized h).

Definition set_write_count (v : Z)
    (h : libewf_write_io_handle_t) : libewf_write_io_handle_t :=
  Build_libewf_write_io_handle_t
    (maximum_segment_file_size h) (segment_file_size h)
    (remaining_segment_file_size h) (delta_segment_file_size h)
    (maximum_section_amount_of_chunks h) (maximum_amount_of_segments h)
    (input_write_count h) v (chunks_section_write_count h)
    (chunks_section_offset h) (amount_of_chunks h) (chunks_per_segment h)
    (chunks_per_chunks_section h) (segment_amount_of_chunks h)
    (section_amount_of_chunks h) (amount_of_table_offsets h) (table_offsets h)
    (data_section h) (chunks_section_number h) (unrestrict_offset_amount h)
    (create_chunks_section h) (write_finalized h).

Definition set_chunks_section_write_count (v : Z)
    (h : libewf_write_io_handle_t) : libewf_write_io_handle_t :=
  Build_libewf_write_io_handle_t
    (maximum_segment_file_size h) (segment_file_size h)
    (remaining_segment_file_size h) (delta_segment_file_size h)
    (maximum_section_amount_of_chunks h) (maximum_amount_of_segments h)
    (input_write_count h) (write_count h) v (chunks_section_offset h)
    (amount_of_chunks h) (chunks_per_segment h) (chunks_per_chunks_section h)
    (segment_amount_of_chunks h) (section_amount_of_chunks h)
    (amount_of_table_offsets h) (table_offsets h) (data_section h)
    (chunks_section_number h) (unrestrict_offset_amount h)
    (create_chunks_section h) (write_finalized h).

Definition set_chunks_section_offset (v : Z)
    (h : libewf_write_io_handle_t) : libewf_write_io_handle_t :=
  Build_libewf_write_io_handle_t
    (maximum_segment_file_size h) (segment_file_size h)
    (remaining_segment_file_size h) (delta_segment_file_size h)
    (maximum_section_amount_of_chunks h) (maximum_amount_of_segments h)
    (input_write_count h) (write_count h) (chunks_section_write_count h) v
    (amount_of_chunks h) (chunks_per_segment h) (chunks_per_chunks_section h)
    (segment_amount_of_chunks h) (section_amount_of_chunks h)
    (amount_of_table_offsets h) (table_offsets h) (data_section h)
    (chunks_section_number h) (unrestrict_offset_amount h)
    (create_chunks_section h) (write_finalized h).

Definition set_amount_of_chunks (v : Z)
    (h : libewf_write_io_handle_t) : libewf_write_io_handle_t :=
  Build_libewf_write_io_handle_t
    (maximum_segment_file_size h) (segment_file_size h)
    (remaining_segment_file_size h) (delta_segment_file_size h)
    (maximum_section_amount_of_chunks h) (maximum_amount_of_segments h)
    (input_write_count h) (write_count h) (chunks_section_write_count h)
    (chunks_section_offset h) v (chunks_per_segment h)
    (chunks_per_chunks_section h) (segment_amount_of_chunks h)
    (section_amount_of_chunks h) (amount_of_table_offsets h) (table_offsets h)
    (data_section h) (chunks_section_number h) (unrestrict_offset_amount h)
    (create_chunks_section h) (write_finalized h).

Definition set_chunks_per_segment (v : Z)
    (h : libewf_write_io_handle_t) : libewf_write_io_handle_t :=
  Build_libewf_write_io_handle_t
    (maximum_segment_file_size h) (segment_file_size h)
    (remaining_segment_file_size h) (delta_segment_file_size h)
    (maximum_section_amount_of_chunks h) (maximum_amount_of_segments h)
    (input_write_count h) (write_count h) (chunks_section_write_count h)
    (chunks_section_offset h) (amount_of_chunks h) v
    (chunks_per_chunks_section h) (segment_amount_of_chunks h)
    (section_amount_of_chunks h) (amount_of_table_offsets h) (table_offsets h)
    (data_section h) (chunks_section_number h) (unrestrict_offset_amount h)
    (create_chunks_section h) (write_finalized h).

Definition set_chunks_per_chunks_section (v : Z)
    (h : libewf_write_io_handle_t) : libewf_write_io_handle_t :=
  Build_libewf_write_io_handle_t
    (maximum_segment_file_size h) (segment_file_size h)
    (remaining_segment_file_size h) (delta_segment_file_size h)
    (maximum_section_amount_of_chunks h) (maximum_amount_of_segments h)
    (input_write_count h) (write_count h) (chunks_section_write_count h)
    (chunks_section_offset h) (amount_of_chunks h) (chunks_per_segment h) v
    (segment_amount_of_chunks h) (section_amount_of_chunks h)
    (amount_of_table_offsets h) (table_offsets h) (data_section h)
    (chunks_section_number h) (unrestrict_offset_amount h)
    (create_chunks_section h) (write_finalized h).

Definition set_segment_amount_of_chunks (v : Z)
    (h : libewf_write_io_handle_t) : libewf_write_io_handle_t :=
  Build_libewf_write_io_handle_t
    (maximum_segment_file_size h) (segment_file_size h)
    (remaining_segment_file_size h) (delta_segment_file_size h)
    (maximum_section_amount_of_chunks h) (maximum_amount_of_segments h)
    (input_write_count h) (write_count h) (chunks_section_write_count h)
    (chunks_section_offset h) (amount_of_chunks h) (chunks_per_segment h)
    (chunks_per_chunks_section h) v (section_amount_of_chunks h)
    (amount_of_table_offsets h) (table_offsets h) (data_section h)
    (chunks_section_number h) (unrestrict_offset_amount h)
    (create_chunks_section h) (write_finalized h).

Definition set_section_amount_of_chunks (v : Z)
    (h : libewf_write_io_handle_t) : libewf_write_io_handle_t :=
  Build_libewf_write_io_handle_t
    (maximum_segment_file_size h) (segment_file_size h)
    (remaining_segment_file_size h) (delta_segment_file_size h)
    (maximum_section_amount_of_chunks h) (maximum_amount_of_segments h)
    (input_write_count h) (write_count h) (chunks_section_write_count h)
    (chunks_section_offset h) (amount_of_chunks h) (chunks_per_segment h)
    (chunks_per_chunks_section h) (segment_amount_of_chunks h) v
    (amount_of_table_offsets h) (table_offsets h) (data_section h)
    (chunks_section_number h) (unrestrict_offset_amount h)
    (create_chunks_section h) (write_finalized h).

Definition set_amount_of_table_offsets (v : Z)
    (h : libewf_write_io_handle_t) : libewf_write_io_handle_t :=
  Build_libewf_write_io_handle_t
    (maximum_segment_file_size h) (segment_file_size h)
    (remaining_segment_file_size h) (delta_segment_file_size h)
    (maximum_section_amount_of_chunks h) (maximum_amount_of_segments h)
    (input_write_count h) (write_count h) (chunks_section_write_count h)
    (chunks_section_offset h) (amount_of_chunks h) (chunks_per_segment h)
    (chunks_per_chunks_section h) (segment_amount_of_chunks h)
    (section_amount_of_chunks h) v (table_offsets h) (data_section h)
    (chunks_section_number h) (unrestrict_offset_amount h)
    (create_chunks_section h) (write_finalized h).

Definition set_table_offsets (v : option nat)
    (h : libewf_write_io_handle_t) : libewf_write_io_handle_t :=
  Build_libewf_write_io_handle_t
    (maximum_segment_file_size h) (segment_file_size h)
    (remaining_segment_file_size h) (delta_segment_file_size h)
    (maximum_section_amount_of_chunks h) (maximum_amount_of_segments h)
    (input_write_count h) (write_count h) (chunks_section_write_count h)
    (chunks_section_offset h) (amount_of_chunks h) (chunks_per_segment h)
    (chunks_per_chunks_section h) (segment_amount_of_chunks h)
    (section_amount_of_chunks h) (amount_of_table_offsets h) v
    (data_section h) (chunks_section_number h) (unrestrict_offset_amount h)
    (create_chunks_section h) (write_finalized h).

Definition set_data_section (v : option nat)
    (h : libewf_write_io_handle_t) : libewf_write_io_handle_t :=
  Build_libewf_write_io_handle_t
    (maximum_segment_file_size h) (segment_file_size h)
    (remaining_segment_file_size h) (delta_segment_file_size h)
    (maximum_section_amount_of_chunks h) (maximum_amount_of_segments h)
    (input_write_count h) (write_count h) (chunks_section_write_count h)
    (chunks_section_offset h) (amount_of_chunks h) (chunks_per_segment h)
    (chunks_per_chunks_section h) (segment_amount_of_chunks h)
    (section_amount_of_chunks h) (amount_of_table_offsets h) (table_offsets h)
    v (chunks_section_number h) (unrestrict_offset_amount h)
    (create_chunks_section h) (write_finalized h).

Definition set_chunks_section_number (v : Z)
    (h : libewf_write_io_handle_t) : libewf_write_io_handle_t :=
  Build_libewf_write_io_handle_t
    (maximum_segment_file_size h) (segment_file_size h)
    (remaining_segment_file_size h) (delta_segment_file_size h)
    (maximum_section_amount_of_chunks h) (maximum_amount_of_segments h)
    (input_write_count h) (write_count h) (chunks_section_write_count h)
    (chunks_section_offset h) (amount_of_chunks h) (chunks_per_segment h)
    (chunks_per_chunks_section h) (segment_amount_of_chunks h)
    (section_amount_of_chunks h) (amount_of_table_offsets h) (table_offsets h)
    (data_section h) v (unrestrict_offset_amount h) (create_chunks_section h)
    (write_finalized h).

Definition set_create_chunks_section (v : Z)
    (h : libewf_write_io_handle_t) : libewf_write_io_handle_t :=
  Build_libewf_write_io_handle_t
    (maximum_segment_file_size h) (segment_file_size h)
    (remaining_segment_file_size h) (delta_segment_file_size h)
    (maximum_section_amount_of_chunks h) (maximum_amount_of_segments h)
    (input_write_count h) (write_count h) (chunks_section_write_count h)
    (chunks_section_offset h) (amount_of_chunks h) (chunks_per_segment h)
    (chunks_per_chunks_section h) (segment_amount_of_chunks h)
    (section_amount_of_chunks h) (amount_of_table_offsets h) (table_offsets h)
    (data_section h) (chunks_section_number h) (unrestrict_offset_amount h) v
    (write_finalized h).

End WriteIoHandle.

Abbreviation libewf_write_io_handle_t := WriteIoHandle.libewf_write_io_handle_t.

(** Modelled from the spec: the defaults [libewf_write_io_handle_initialize]
    installs (libewf_definitions.h and ewf_definitions.h are absent from the
    sources): a default segment file of 1440 MiB and 16 375 offsets in a
    table. *)
Definition LIBEWF_DEFAULT_SEGMENT_FILE_SIZE : Z := 1440 * 1024 * 1024.
Definition EWF_MAXIMUM_OFFSETS_IN_TABLE : Z := 16375.

(** ** The structures the writers read *)

(** Modelled from the spec: a section descriptor of a segment file (the
    start offset is the field read here), the list that holds them and a
    segment file handle with its file type, pool entry, section list,
    amount of chunks and write-open flag (libewf_list_type.h,
    libewf_section_list.h and libewf_segment_file_handle.h are absent from
    the sources). *)
Inductive segment_file_type_t : Type :=
  | LIBEWF_SEGMENT_FILE_TYPE_EWF
  | LIBEWF_SEGMENT_FILE_TYPE_DWF
  | LIBEWF_SEGMENT_FILE_TYPE_LWF.

#[global] Instance segment_file_type_eq_dec : EqDecision segment_file_type_t.
Proof. solve_decision. Defined.

Module SectionList.

Record libewf_section_list_values_t : Type := {
  start_offset : Z
}.

Record libewf_list_element_t : Type := {
  value : option libewf_section_list_values_t
}.

Record libewf_list_t : Type := {
  last : option libewf_list_element_t
}.

End SectionList.

Module SegmentFileHandle.

Record libewf_segment_file_handle_t : Type := {
  file_type : segment_file_type_t;
  file_io_pool_entry : Z;
  section_list : option SectionList.libewf_list_t;
  amount_of_chunks : Z;
  write_open : Z
}.

End SegmentFileHandle.

Abbreviation libewf_segment_file_handle_t :=
  SegmentFileHandle.libewf_segment_file_handle_t.

(** Modelled from the spec: the segment table (an array of segment file
    handles, entry 0 unused, and their [uint16_t] amount), an entry of the
    offset table and the offset table (libewf_segment_table.h and
    libewf_offset_table.h are absent from the sources). *)
Module SegmentTable.

Record libewf_segment_table_t : Type := {
  segment_file_handle : option (list (option libewf_segment_file_handle_t));
  amount : Z
}.

End SegmentTable.

Abbreviation libewf_segment_table_t := SegmentTable.libewf_segment_table_t.

Module OffsetTable.

Record libewf_chunk_offset_t : Type := {
  segment_file_handle : option libewf_segment_file_handle_t;
  file_offset : Z
}.

Record libewf_offset_table_t : Type := {
  amount_of_chunk_offsets : Z;
  chunk_offset : option (list libewf_chunk_offset_t)
}.

End OffsetTable.

Abbreviation libewf_offset_table_t := OffsetTable.libewf_offset_table_t.

(** Modelled from the spec: the settings of [libewf_io_handle_t] read
    here and the three cached headers of [libewf_header_sections_t]
    (libewf_io_handle.h and libewf_header_sections.h are absent from the
    sources). *)
Module IoHandle.

Record libewf_io_handle_t : Type := {
  file_io_pool : option nat;
  compression_level : compression_level_t;
  format : format_t;
  ewf_format : ewf_format_t
}.

End IoHandle.

Abbreviation libewf_io_handle_t := IoHandle.libewf_io_handle_t.

Module HeaderSections.

Record libewf_header_sections_t : Type := {
  header : option nat;
  header2 : option nat;
  xheader : option nat
}.

End HeaderSections.

Abbreviation libewf_header_sections_t :=
  HeaderSections.libewf_header_sections_t.

(** ** Calls into the collaborators *)

(** What is handed to [memory_allocate], [memory_set] and [memory_free]. *)
Inductive c_size : Type :=
  | sizeof_libewf_write_io_handle_t.

Inductive c_object : Type :=
  | write_io_handle_object (address : option nat)
  | list_element_object (element : SectionList.libewf_list_element_t).

(** The functions this file calls and does not define, each with what it
    is handed; the index is what the call answers: its return value and,
    where the function stores through a pointer it is handed and the
    caller reads that back, the value stored.  A structure is handed over
    as the caller last read it. *)
Inductive call : Type -> Type :=
  | memory_allocate (size : c_size) : call (option nat)
  | memory_set (destination : option nat) (value : Z) (size : c_size)
      : call (option nat)
  | memory_free (object : c_object) : call unit
  | memory_reallocate (buffer : option nat) (size : Z) : call (option nat)
  | libewf_offset_table_resize (offset_table : libewf_offset_table_t)
      (amount : Z) : call Z
  | libewf_values_table_initialize : call (Z * option nat)
  | libewf_header_values_initialize (header_values : option nat) : call Z
  | libewf_header_sections_create
      (header_sections : libewf_header_sections_t)
      (header_values : option nat)
      (compression_level : compression_level_t) (format : format_t) : call Z
  | libewf_segment_table_create_segment_file
      (segment_table : libewf_segment_table_t) (segment_number : Z)
      (io_handle : libewf_io_handle_t) (maximum_amount_of_segments : Z)
      (segment_file_type : segment_file_type_t)
      : call (Z * option libewf_segment_file_handle_t)
  | libewf_segment_file_write_start
      (segment_file_handle : option libewf_segment_file_handle_t)
      (io_handle : libewf_io_handle_t) (segment_number : Z)
      (segment_file_type : segment_file_type_t)
      (media_values : libewf_media_values_t)
      (header_sections : option libewf_header_sections_t)
      (data_section : option nat) : call (Z * option nat)
  | libbfio_pool_get_offset (file_io_pool : option nat) (entry : Z)
      : call (Z * Z)
  | libbfio_pool_seek_offset (file_io_pool : option nat) (entry : Z)
      (offset : Z) : call Z
  | libewf_segment_file_write_chunks_section_start
      (segment_file_handle : option libewf_segment_file_handle_t)
      (io_handle : libewf_io_handle_t) (offset_table : libewf_offset_table_t)
      (table_offsets : option nat)
      (amount_of_table_offsets chunk_size amount_of_chunks
       chunks_per_chunks_section : Z) : call Z
  | libewf_segment_file_write_chunks_data
      (segment_file_handle : option libewf_segment_file_handle_t)
      (io_handle : libewf_io_handle_t) (offset_table : libewf_offset_table_t)
      (chunk : Z) (chunk_buffer : pointer)
      (chunk_size is_compressed chunk_crc write_crc : Z) : call Z
  | libewf_segment_file_write_chunks_correction
      (segment_file_handle : option libewf_segment_file_handle_t)
      (io_handle : libewf_io_handle_t) (offset_table : libewf_offset_table_t)
      (table_offsets : option nat)
      (amount_of_table_offsets chunks_section_offset chunks_section_size
       amount_of_chunks section_amount_of_chunks : Z) : call Z
  | libewf_segment_file_write_close
      (segment_file_handle : option libewf_segment_file_handle_t)
      (io_handle : libewf_io_handle_t)
      (segment_number segment_amount_of_chunks last_segment_file : Z)
      (hash_sections hash_values : option nat)
      (media_values : libewf_media_values_t)
      (sessions acquiry_errors data_section : option nat)
      : call (Z * option nat)
  | libewf_segment_file_write_delta_chunk
      (segment_file_handle : option libewf_segment_file_handle_t)
      (io_handle : libewf_io_handle_t) (offset_table : libewf_offset_table_t)
      (chunk : Z) (chunk_buffer : pointer)
      (chunk_size chunk_crc write_crc no_section_append : Z) : call Z
  | libewf_segment_file_write_last_section
      (segment_file_handle : option libewf_segment_file_handle_t)
      (io_handle : libewf_io_handle_t) (last_segment_file : Z) : call Z
  | libewf_list_remove_element (list : SectionList.libewf_list_t)
      (element : SectionList.libewf_list_element_t) : call Z
  | libewf_section_list_values_free
      (values : option SectionList.libewf_section_list_values_t) : call Z.

(** A function that calls collaborators and keeps a state of type [St] (the
    content of the structure it updates): it stops with an outcome and the
    state, or makes a call and goes on with the answer. *)
Inductive program (St A : Type) : Type :=
  | Stop (r : outcome A) (s : St)
  | Call {X : Type} (c : call X) (k : X -> program St A).

Arguments Stop {St A} r s.
Arguments Call {St A X} c k.

Definition writer (St A : Type) : Type := St -> program St A.

Fixpoint then_program {St A B : Type} (p : program St A)
    (k : A -> St -> program St B) : program St B :=
  match p with
  | Stop (Returned a) s => k a s
  | Stop (Failed e) s => Stop (Failed e) s
  | Stop Undefined s => Stop Undefined s
  | Call c continue => Call c (fun x => then_program (continue x) k)
  end.

#[global] Instance writer_ret {St} : MRet (writer St) :=
  fun A a s => Stop (Returned a) s.

#[global] Instance writer_bind {St} : MBind (writer St) :=
  fun A B k m s => then_program (m s) k.

Definition fail {St A} (e : liberror) : writer St A :=
  fun s => Stop (Failed (Some e)) s.

Definition fail_silently {St A} : writer St A :=
  fun s => Stop (Failed None) s.

Definition lift {St A} (r : outcome A) : writer St A := fun s => Stop r s.

Definition do_call {St X} (c : call X) : writer St X :=
  fun s => Call c (fun x => Stop (Returned x) s).

Definition get {St} : writer St St := fun s => Stop (Returned s) s.

Definition modify {St} (f : St -> St) : writer St unit :=
  fun s => Stop (Returned ()) (f s).

(** [p] when the pointer is not [NULL], the error [e] otherwise. *)
Definition require {St A} (p : option A) (e : liberror) : writer St A :=
  match p with
  | Some a => mret a
  | None => fail e
  end.

(** One step of a run: the call made and the answer it got. *)
Inductive event : Type :=
  | Event {X : Type} (c : call X) (answer : X).

(** The collaborators as a whole: what the [n]-th call of a run answers. *)
Definition world : Type := nat -> forall X : Type, call X -> X.

(** The run of a program against a world, from its [n]-th call on: the
    calls made with their answers, the outcome and the final state. *)
Fixpoint run {St A : Type} (w : world) (n : nat) (p : program St A)
  : list event * outcome A * St :=
  match p with
  | Stop r s => ([], r, s)
  | Call c k =>
      let answer := w n _ c in
      let '(trace, r, s) := run w (S n) (k answer) in
      (Event c answer :: trace, r, s)
  end.

Definition run_trace {St A : Type} (w : world) (p : program St A)
  : list event := (run w 0 p).1.1.

Definition run_outcome {St A : Type} (w : world) (p : program St A)
  : outcome A := (run w 0 p).1.2.

Definition run_state {St A : Type} (w : world) (p : program St A) : St :=
  (run w 0 p).2.

(** ** Initialising the write io handle *)

Definition is_null {A : Type} (p : option A) : bool :=
  match p with
  | None => true
  | Some _ => false
  end.

(** The structure after [memory_set( ..., 0, sizeof( ... ) )]. *)
Definition cleared_write_io_handle : libewf_write_io_handle_t :=
  {| WriteIoHandle.maximum_segment_file_size := 0;
     WriteIoHandle.segment_file_size := 0;
     WriteIoHandle.remaining_segment_file_size := 0;
     WriteIoHandle.delta_segment_file_size := 0;
     WriteIoHandle.maximum_section_amount_of_chunks := 0;
     WriteIoHandle.maximum_amount_of_segments := 0;
     WriteIoHandle.input_write_count := 0;
     WriteIoHandle.write_count := 0;
     WriteIoHandle.chunks_section_write_count := 0;
     WriteIoHandle.chunks_section_offset := 0;
     WriteIoHandle.amount_of_chunks := 0;
     WriteIoHandle.chunks_per_segment := 0;
     WriteIoHandle.chunks_per_chunks_section := 0;
     WriteIoHandle.segment_amount_of_chunks := 0;
     WriteIoHandle.section_amount_of_chunks := 0;
     WriteIoHandle.amount_of_table_offsets := 0;
     WriteIoHandle.table_offsets := None;
     WriteIoHandle.data_section := None;
     WriteIoHandle.chunks_section_number := 0;
     WriteIoHandle.unrestrict_offset_amount := 0;
     WriteIoHandle.create_chunks_section := 0;
     WriteIoHandle.write_finalized := 0 |}.

(** The five assignments that follow the [memory_set]. *)
Definition initial_write_io_handle : libewf_write_io_handle_t :=
  {| WriteIoHandle.maximum_segment_file_size := INT32_MAX;
     WriteIoHandle.segment_file_size := LIBEWF_DEFAULT_SEGMENT_FILE_SIZE;
     WriteIoHandle.remaining_segment_file_size :=
       LIBEWF_DEFAULT_SEGMENT_FILE_SIZE;
     WriteIoHandle.delta_segment_file_size := INT64_MAX;
     WriteIoHandle.maximum_section_amount_of_chunks :=
       EWF_MAXIMUM_OFFSETS_IN_TABLE;
     WriteIoHandle.maximum_amount_of_segments := 0;
     WriteIoHandle.input_write_count := 0;
     WriteIoHandle.write_count := 0;
     WriteIoHandle.chunks_section_write_count := 0;
     WriteIoHandle.chunks_section_offset := 0;
     WriteIoHandle.amount_of_chunks := 0;
     WriteIoHandle.chunks_per_segment := 0;
     WriteIoHandle.chunks_per_chunks_section := 0;
     WriteIoHandle.segment_amount_of_chunks := 0;
     WriteIoHandle.section_amount_of_chunks := 0;
     WriteIoHandle.amount_of_table_offsets := 0;
     WriteIoHandle.table_offsets := None;
     WriteIoHandle.data_section := None;
     WriteIoHandle.chunks_section_number := 0;
     WriteIoHandle.unrestrict_offset_amount := 0;
     WriteIoHandle.create_chunks_section := 0;
     WriteIoHandle.write_finalized := 0 |}.

(** Initialize the write io handle.  Returns 1 if successful or -1 on
    error.  [write_io_handle] is the [libewf_write_io_handle_t **]: [None]
    when it is [NULL], [Some p] when [*write_io_handle] is [p].  The
    function returns its value, the new [*write_io_handle] and, when it
    created the handle, the content it gave it. *)
Definition libewf_write_io_handle_initialize
    (write_io_handle : option (option nat))
  : writer unit (Z * option nat * option libewf_write_io_handle_t) :=
  match write_io_handle with
  | None => fail LIBERROR_ARGUMENT_ERROR_INVALID_VALUE
  | Some pointee =>
      if is_null pointee
      then
        allocated ← do_call (memory_allocate sizeof_libewf_write_io_handle_t);
        (* if( write_io_handle == NULL ) *)
        if is_null write_io_handle
        then fail LIBERROR_MEMORY_ERROR_INSUFFICIENT
        else
          cleared ← do_call (memory_set allocated 0
                               sizeof_libewf_write_io_handle_t);
          if is_null cleared
          then
            _ ← do_call (memory_free (write_io_handle_object allocated));
            fail LIBERROR_MEMORY_ERROR_SET_FAILED
          else
            (* ( *write_io_handle )->maximum_segment_file_size = ... *)
            match allocated with
            | None => lift Undefined
            | Some _ => mret (1, allocated, Some initial_write_io_handle)
            end
      else mret (1, pointee, None)
  end.

(** ** Writing a new chunk *)

(** An internal function called from a writer: its failure becomes the
    error [e] of the caller. *)
Definition call_internal {St A} (r : outcome A) (e : liberror) : writer St A :=
  match r with
  | Returned a => mret a
  | Failed _ => fail e
  | Undefined => lift Undefined
  end.

(** [array[ index ]]: a read outside the array is undefined. *)
Definition array_read {St A} (array : list A) (index : Z) : writer St A :=
  match array !! Z.to_nat index with
  | Some a => mret a
  | None => lift Undefined
  end.

(** [pointer->field]: a read through [NULL] is undefined. *)
Definition dereference {St A} (p : option A) : writer St A :=
  match p with
  | Some a => mret a
  | None => lift Undefined
  end.

(** [a += b] for an [ssize64_t a] and a [size_t b]: the new [a]. *)
Definition add_assign_int64_size_t (a b : Z) : Z := s64 (u64 (u64 a + b)).

Section WriteNewChunk.

Variable io_handle : libewf_io_handle_t.
Variable media_values : libewf_media_values_t.
Variable offset_table : libewf_offset_table_t.
Variable segment_table : libewf_segment_table_t.
Variable segment_file_handles : list (option libewf_segment_file_handle_t).
Variable header_values : option nat.
Variable hash_values : option nat.
Variable header_sections : option libewf_header_sections_t.
Variable hash_sections sessions acquiry_errors : option nat.
Variable chunk : Z.
Variable chunk_buffer : pointer.
Variable chunk_size chunk_data_size is_compressed chunk_crc write_crc : Z.

(** The amount of chunks per segment: calculated, or the amount the
    segment file already holds. *)
Definition determine_chunks_per_segment
    (segment_file_handle : option libewf_segment_file_handle_t)
  : writer libewf_write_io_handle_t unit :=
  handle ← dereference segment_file_handle;
  if SegmentFileHandle.amount_of_chunks handle =? 0
  then
    write_io_handle ← get;
    '(result, chunks_per_segment) ←
      call_internal
        (libewf_write_io_handle_calculate_chunks_per_segment
           (Some (WriteIoHandle.chunks_per_segment write_io_handle))
           (u64 (WriteIoHandle.remaining_segment_file_size write_io_handle))
           (WriteIoHandle.maximum_section_amount_of_chunks write_io_handle)
           (WriteIoHandle.segment_amount_of_chunks write_io_handle)
           (WriteIoHandle.amount_of_chunks write_io_handle)
           (Some media_values)
           (IoHandle.format io_handle) (IoHandle.ewf_format io_handle)
           (WriteIoHandle.unrestrict_offset_amount write_io_handle))
        LIBERROR_RUNTIME_ERROR_GET_FAILED;
    modify (WriteIoHandle.set_chunks_per_segment chunks_per_segment)
  else
    modify (WriteIoHandle.set_chunks_per_segment
              (SegmentFileHandle.amount_of_chunks handle)).

(** [total_write_count], [write_io_handle->write_count] and the
    remaining segment file size after [write_count] more bytes. *)
Definition account_write (total_write_count write_count : Z)
  : writer libewf_write_io_handle_t Z :=
  total_write_count ← lift (add_int64 total_write_count write_count);
  write_io_handle ← get;
  written ← lift (add_int64 (WriteIoHandle.write_count write_io_handle)
                    write_count);
  remaining ← lift (sub_int64
                      (WriteIoHandle.remaining_segment_file_size
                         write_io_handle) write_count);
  _ ← modify (WriteIoHandle.set_write_count written);
  _ ← modify (WriteIoHandle.set_remaining_segment_file_size remaining);
  mret total_write_count.

(** Check if a new segment file should be created, and create it: the
    segment number, its segment file handle and the bytes written. *)
Definition open_segment_file (segment_number : Z)
  : writer libewf_write_io_handle_t
      (Z * option libewf_segment_file_handle_t * Z) :=
  create ←
    (if segment_number =? 0 then mret true
     else
       entry ← array_read segment_file_handles segment_number;
       handle ← dereference entry;
       mret (SegmentFileHandle.write_open handle =? 0));
  if create : bool
  then
    (* Create the headers if required *)
    sections ← require header_sections LIBERROR_ARGUMENT_ERROR_INVALID_VALUE;
    _ ← (if is_null (HeaderSections.header sections)
            && is_null (HeaderSections.header2 sections)
            && is_null (HeaderSections.xheader sections)
         then
           header_values ←
             (if is_null header_values
              then
                '(result, created) ← do_call libewf_values_table_initialize;
                if negb (result =? 1)
                then fail LIBERROR_RUNTIME_ERROR_INITIALIZE_FAILED
                else
                  result ← do_call (libewf_header_values_initialize created);
                  if negb (result =? 1)
                  then fail LIBERROR_RUNTIME_ERROR_INITIALIZE_FAILED
                  else mret created
              else mret header_values);
           result ← do_call (libewf_header_sections_create sections
                               header_values
                               (IoHandle.compression_level io_handle)
                               (IoHandle.format io_handle));
           if result =? -1
           then fail LIBERROR_RUNTIME_ERROR_INITIALIZE_FAILED
           else mret ()
         else mret ());
    _ ← modify (WriteIoHandle.set_create_chunks_section 1);
    _ ← modify (WriteIoHandle.set_chunks_section_number 0);
    _ ← modify (WriteIoHandle.set_chunks_per_chunks_section 0);
    _ ← modify (WriteIoHandle.set_segment_amount_of_chunks 0);
    let segment_number := u16 (segment_number + 1) in
    (* Create a new segment file *)
    write_io_handle ← get;
    '(result, segment_file_handle) ←
      do_call (libewf_segment_table_create_segment_file segment_table
                 segment_number io_handle
                 (WriteIoHandle.maximum_amount_of_segments write_io_handle)
                 LIBEWF_SEGMENT_FILE_TYPE_EWF);
    if negb (result =? 1)
    then fail LIBERROR_IO_ERROR_OPEN_FAILED
    else
      _ ← modify (WriteIoHandle.set_remaining_segment_file_size
                    (s64 (WriteIoHandle.segment_file_size write_io_handle)));
      (* Leave space for the done or next section *)
      _ ← modify (fun h =>
                    WriteIoHandle.set_remaining_segment_file_size
                      (sub_assign_int64_size_t
                         (WriteIoHandle.remaining_segment_file_size h)
                         sizeof_ewf_section_t) h);
      (* Write the start of the segment file *)
      '(write_count, data_section) ←
        do_call (libewf_segment_file_write_start segment_file_handle
                   io_handle segment_number LIBEWF_SEGMENT_FILE_TYPE_EWF
                   media_values header_sections
                   (WriteIoHandle.data_section write_io_handle));
      _ ← modify (WriteIoHandle.set_data_section data_section);
      if write_count =? -1
      then fail LIBERROR_IO_ERROR_WRITE_FAILED
      else
        total_write_count ← account_write 0 write_count;
        (* Determine the amount of chunks per segment *)
        _ ← determine_chunks_per_segment segment_file_handle;
        mret (segment_number, segment_file_handle, total_write_count)
  else
    entry ← array_read segment_file_handles segment_number;
    mret (segment_number, entry, 0).

(** [memory_reallocate] of the table offsets when fewer than [needed]
    are allocated. *)
Definition grow_table_offsets (needed : Z)
  : writer libewf_write_io_handle_t unit :=
  write_io_handle ← get;
  if WriteIoHandle.amount_of_table_offsets write_io_handle <? needed
  then
    reallocation ←
      do_call (memory_reallocate
                 (WriteIoHandle.table_offsets write_io_handle)
                 (u64 (sizeof_ewf_table_offset_t * needed)));
    if is_null reallocation
    then fail LIBERROR_MEMORY_ERROR_INSUFFICIENT
    else
      _ ← modify (WriteIoHandle.set_table_offsets reallocation);
      modify (WriteIoHandle.set_amount_of_table_offsets needed)
  else mret ().

(** Check if a chunk section should be created, and create it: the new
    total of the bytes written. *)
Definition open_chunks_section
    (segment_file_handle : option libewf_segment_file_handle_t)
    (total_write_count : Z) : writer libewf_write_io_handle_t Z :=
  write_io_handle ← get;
  if WriteIoHandle.create_chunks_section write_io_handle =? 1
  then
    _ ← modify (WriteIoHandle.set_create_chunks_section 0);
    _ ← modify (WriteIoHandle.set_section_amount_of_chunks 0);
    _ ← modify (WriteIoHandle.set_chunks_section_write_count 0);
    let framing :=
      if decide (IoHandle.ewf_format io_handle = EWF_FORMAT_S01)
      then sizeof_ewf_section_t
      else if decide (IoHandle.format io_handle = LIBEWF_FORMAT_ENCASE1)
      then u64 (sizeof_ewf_section_t + sizeof_ewf_crc_t)
      else u64 (u64 (3 * sizeof_ewf_section_t) + u64 (2 * sizeof_ewf_crc_t)) in
    _ ← modify (fun h =>
                  WriteIoHandle.set_remaining_segment_file_size
                    (sub_assign_int64_size_t
                       (WriteIoHandle.remaining_segment_file_size h)
                       framing) h);
    handle ← dereference segment_file_handle;
    '(result, offset) ←
      do_call (libbfio_pool_get_offset (IoHandle.file_io_pool io_handle)
                 (SegmentFileHandle.file_io_pool_entry handle));
    _ ← modify (WriteIoHandle.set_chunks_section_offset offset);
    if negb (result =? 1)
    then fail LIBERROR_RUNTIME_ERROR_GET_FAILED
    else
      (* Start with chunks section number number 1, value is initialized
         with 0 *)
      _ ← modify (fun h =>
                    WriteIoHandle.set_chunks_section_number
                      (u8 (WriteIoHandle.chunks_section_number h + 1)) h);
      (* Recalculate the amount of chunks per segment for a better
         segment file fill when compression is used *)
      _ ← determine_chunks_per_segment segment_file_handle;
      write_io_handle ← get;
      '(result, chunks_per_chunks_section) ←
        call_internal
          (libewf_write_io_handle_calculate_chunks_per_chunks_section
             (Some (WriteIoHandle.chunks_per_chunks_section write_io_handle))
             (WriteIoHandle.maximum_section_amount_of_chunks write_io_handle)
             (WriteIoHandle.chunks_per_segment write_io_handle)
             (WriteIoHandle.chunks_section_number write_io_handle)
             (WriteIoHandle.unrestrict_offset_amount write_io_handle))
          LIBERROR_RUNTIME_ERROR_GET_FAILED;
      _ ← modify (WriteIoHandle.set_chunks_per_chunks_section
                    chunks_per_chunks_section);
      _ ← grow_table_offsets chunks_per_chunks_section;
      (* Write the section start of the chunks section *)
      write_io_handle ← get;
      write_count ←
        do_call (libewf_segment_file_write_chunks_section_start
                   segment_file_handle io_handle offset_table
                   (WriteIoHandle.table_offsets write_io_handle)
                   (WriteIoHandle.amount_of_table_offsets write_io_handle)
                   (MediaValues.chunk_size media_values)
                   (WriteIoHandle.amount_of_chunks write_io_handle)
                   (WriteIoHandle.chunks_per_chunks_section write_io_handle));
      if write_count =? -1
      then fail_silently
      else account_write total_write_count write_count
  else mret total_write_count.

(** Check if the current segment file is full, if so close the current
    segment file: the new total of the bytes written. *)
Definition close_segment_file_if_full
    (segment_file_handle : option libewf_segment_file_handle_t)
    (segment_number total_write_count : Z)
  : writer libewf_write_io_handle_t Z :=
  write_io_handle ← get;
  result ←
    call_internal
      (libewf_write_io_handle_test_segment_file_full
         (WriteIoHandle.remaining_segment_file_size write_io_handle)
         (WriteIoHandle.segment_amount_of_chunks write_io_handle)
         (Some media_values)
         (WriteIoHandle.input_write_count write_io_handle)
         (WriteIoHandle.chunks_per_segment write_io_handle)
         (WriteIoHandle.amount_of_chunks write_io_handle)
         (IoHandle.format io_handle) (IoHandle.ewf_format io_handle))
      LIBERROR_RUNTIME_ERROR_GET_FAILED;
  if (result =? 1)
     (* Check if this is not the last segment file *)
     && ((MediaValues.media_size media_values =? 0)
         || (WriteIoHandle.input_write_count write_io_handle
             <? s64 (MediaValues.media_size media_values)))
  then
    (* Finish and close the segment file *)
    '(write_count, data_section) ←
      do_call (libewf_segment_file_write_close segment_file_handle io_handle
                 segment_number
                 (WriteIoHandle.segment_amount_of_chunks write_io_handle) 0
                 hash_sections hash_values media_values sessions
                 acquiry_errors
                 (WriteIoHandle.data_section write_io_handle));
    _ ← modify (WriteIoHandle.set_data_section data_section);
    if write_count =? -1
    then fail LIBERROR_IO_ERROR_WRITE_FAILED
    else
      total_write_count ← lift (add_int64 total_write_count write_count);
      write_io_handle ← get;
      written ← lift (add_int64 (WriteIoHandle.write_count write_io_handle)
                        write_count);
      _ ← modify (WriteIoHandle.set_write_count written);
      mret total_write_count
  else mret total_write_count.

(** Check if the current chunks section is full, if so close the current
    section: the new total of the bytes written. *)
Definition close_chunks_section_if_full
    (segment_file_handle : option libewf_segment_file_handle_t)
    (segment_number segment_file_offset total_write_count : Z)
  : writer libewf_write_io_handle_t Z :=
  write_io_handle ← get;
  result ←
    call_internal
      (libewf_write_io_handle_test_chunks_section_full
         (WriteIoHandle.chunks_section_offset write_io_handle)
         (WriteIoHandle.remaining_segment_file_size write_io_handle)
         (Some media_values)
         (WriteIoHandle.input_write_count write_io_handle)
         segment_file_offset
         (WriteIoHandle.maximum_section_amount_of_chunks write_io_handle)
         (WriteIoHandle.section_amount_of_chunks write_io_handle)
         (WriteIoHandle.amount_of_chunks write_io_handle)
         (WriteIoHandle.chunks_per_chunks_section write_io_handle)
         (IoHandle.format io_handle) (IoHandle.ewf_format io_handle)
         (WriteIoHandle.unrestrict_offset_amount write_io_handle))
      LIBERROR_RUNTIME_ERROR_GET_FAILED;
  if result =? 1
  then
    _ ← grow_table_offsets
          (WriteIoHandle.section_amount_of_chunks write_io_handle);
    (* Correct the offset, size in the chunks section *)
    write_io_handle ← get;
    write_count ←
      do_call (libewf_segment_file_write_chunks_correction
                 segment_file_handle io_handle offset_table
                 (WriteIoHandle.table_offsets write_io_handle)
                 (WriteIoHandle.amount_of_table_offsets write_io_handle)
                 (WriteIoHandle.chunks_section_offset write_io_handle)
                 (u64 (WriteIoHandle.chunks_section_write_count
                         write_io_handle))
                 (WriteIoHandle.amount_of_chunks write_io_handle)
                 (WriteIoHandle.section_amount_of_chunks write_io_handle));
    if write_count =? -1
    then fail LIBERROR_IO_ERROR_WRITE_FAILED
    else
      total_write_count ← lift (add_int64 total_write_count write_count);
      written ← lift (add_int64 (WriteIoHandle.write_count write_io_handle)
                        write_count);
      _ ← modify (WriteIoHandle.set_write_count written);
      _ ← modify (WriteIoHandle.set_create_chunks_section 1);
      _ ← modify (WriteIoHandle.set_chunks_section_offset 0);
      close_segment_file_if_full segment_file_handle segment_number
        total_write_count
  else mret total_write_count.

(** Write the chunk data and update the counters: the new total of the
    bytes written. *)
Definition append_chunk_data
    (segment_file_handle : option libewf_segment_file_handle_t)
    (total_write_count : Z) : writer libewf_write_io_handle_t Z :=
  write_count ←
    do_call (libewf_segment_file_write_chunks_data segment_file_handle
               io_handle offset_table chunk chunk_buffer chunk_size
               is_compressed chunk_crc write_crc);
  if write_count <=? -1
  then fail LIBERROR_IO_ERROR_WRITE_FAILED
  else
    total_write_count ← lift (add_int64 total_write_count write_count);
    _ ← modify (fun h =>
                  WriteIoHandle.set_input_write_count
                    (add_assign_int64_size_t
                       (WriteIoHandle.input_write_count h) chunk_data_size) h);
    write_io_handle ← get;
    written ← lift (add_int64 (WriteIoHandle.write_count write_io_handle)
                      write_count);
    _ ← modify (WriteIoHandle.set_write_count written);
    section_written ←
      lift (add_int64
              (WriteIoHandle.chunks_section_write_count write_io_handle)
              write_count);
    _ ← modify (WriteIoHandle.set_chunks_section_write_count section_written);
    remaining ← lift (sub_int64
                        (WriteIoHandle.remaining_segment_file_size
                           write_io_handle) write_count);
    _ ← modify (WriteIoHandle.set_remaining_segment_file_size remaining);
    _ ← modify (fun h =>
                  WriteIoHandle.set_segment_amount_of_chunks
                    (u32 (WriteIoHandle.segment_amount_of_chunks h + 1)) h);
    _ ← modify (fun h =>
                  WriteIoHandle.set_section_amount_of_chunks
                    (u32 (WriteIoHandle.section_amount_of_chunks h + 1)) h);
    _ ← modify (fun h =>
                  WriteIoHandle.set_amount_of_chunks
                    (u32 (WriteIoHandle.amount_of_chunks h + 1)) h);
    (* Leave space for the chunk offset in the offset table; both
       branches of the source subtract the same amount *)
    _ ← modify (fun h =>
                  WriteIoHandle.set_remaining_segment_file_size
                    (sub_assign_int64_size_t
                       (WriteIoHandle.remaining_segment_file_size h)
                       (u64 (2 * sizeof_ewf_table_offset_t))) h);
    mret total_write_count.

(** [( chunk < offset_table->amount_of_chunk_offsets )
    && ( offset_table->chunk_offset != NULL )
    && ( offset_table->chunk_offset[ chunk ].segment_file_handle != NULL )]:
    the offset table holds a segment file handle for the chunk. *)
Definition chunk_is_set : outcome bool :=
  if chunk <? OffsetTable.amount_of_chunk_offsets offset_table
  then
    match OffsetTable.chunk_offset offset_table with
    | None => Returned false
    | Some chunk_offset =>
        match chunk_offset !! Z.to_nat chunk with
        | Some entry =>
            Returned (negb (is_null (OffsetTable.segment_file_handle entry)))
        | None => Undefined
        end
    end
  else Returned false.

(** The function from the test for a chunk that is already set on. *)
Definition write_new_chunk_checked
  : writer libewf_write_io_handle_t Z :=
  already_set ← lift chunk_is_set;
  if already_set : bool
  then fail LIBERROR_RUNTIME_ERROR_VALUE_ALREADY_SET
  else
    write_io_handle ← get;
    (* Check if the write was already finalized *)
    if WriteIoHandle.write_finalized write_io_handle =? 1
    then mret 0
    else
      (* Allocate the necessary amount of chunk offsets this reduces the
         amount of reallocations *)
      _ ← (if OffsetTable.amount_of_chunk_offsets offset_table
              <? MediaValues.amount_of_chunks media_values
           then
             result ← do_call (libewf_offset_table_resize offset_table
                                 (MediaValues.amount_of_chunks media_values));
             if negb (result =? 1)
             then fail LIBERROR_RUNTIME_ERROR_RESIZE_FAILED
             else mret ()
           else mret ());
      if is_null chunk_buffer
      then fail LIBERROR_ARGUMENT_ERROR_INVALID_VALUE
      else if chunk_size =? 0
      then fail LIBERROR_ARGUMENT_ERROR_VALUE_ZERO_OR_LESS
      else if SSIZE_MAX <? chunk_size
      then fail LIBERROR_ARGUMENT_ERROR_VALUE_EXCEEDS_MAXIMUM
      (* Check if the amount of bytes as specified have been written *)
      else if negb (MediaValues.media_size media_values =? 0)
              && (s64 (MediaValues.media_size media_values)
                  <=? WriteIoHandle.input_write_count write_io_handle)
      then mret 0
      else
        let segment_number := u16 (SegmentTable.amount segment_table - 1) in
        (* Check if a segment number is valid *)
        if SegmentTable.amount segment_table <? segment_number
        then fail LIBERROR_ARGUMENT_ERROR_VALUE_OUT_OF_RANGE
        else
          '(segment_number, segment_file_handle, total_write_count) ←
            open_segment_file segment_number;
          total_write_count ←
            open_chunks_section segment_file_handle total_write_count;
          total_write_count ←
            append_chunk_data segment_file_handle total_write_count;
          handle ← dereference segment_file_handle;
          '(result, segment_file_offset) ←
            do_call (libbfio_pool_get_offset
                       (IoHandle.file_io_pool io_handle)
                       (SegmentFileHandle.file_io_pool_entry handle));
          if negb (result =? 1)
          then fail LIBERROR_RUNTIME_ERROR_GET_FAILED
          else
            close_chunks_section_if_full segment_file_handle segment_number
              segment_file_offset total_write_count.

End WriteNewChunk.

(** The program over the content of [*write_io_handle], for a
    [write_io_handle] that may be [NULL]. *)
Fixpoint map_state {St St' A : Type} (f : St -> St') (p : program St A)
  : program St' A :=
  match p with
  | Stop r s => Stop r (f s)
  | Call c k => Call c (fun x => map_state f (k x))
  end.

Definition with_write_io_handle {A : Type}
    (write_io_handle : option libewf_write_io_handle_t)
    (body : writer libewf_write_io_handle_t A)
  : program (option libewf_write_io_handle_t) A :=
  match write_io_handle with
  | None => Stop (Failed (Some LIBERROR_ARGUMENT_ERROR_INVALID_VALUE)) None
  | Some content => map_state Some (body content)
  end.

(** Writes a new chunk of data in EWF format from a buffer at the
    current offset.  Returns the amount of bytes written, 0 when no longer
    bytes can be written or -1 on error.  The state of the program is the
    content of [*write_io_handle]. *)
Definition libewf_write_io_handle_write_new_chunk
    (write_io_handle : option libewf_write_io_handle_t)
    (io_handle : option libewf_io_handle_t)
    (media_values : option libewf_media_values_t)
    (offset_table : option libewf_offset_table_t)
    (segment_table : option libewf_segment_table_t)
    (header_values : option (option nat))
    (hash_values : option nat)
    (header_sections : option libewf_header_sections_t)
    (hash_sections sessions acquiry_errors : option nat)
    (chunk : Z) (chunk_buffer : pointer)
    (chunk_size chunk_data_size is_compressed chunk_crc write_crc : Z)
  : program (option libewf_write_io_handle_t) Z :=
  with_write_io_handle write_io_handle (
    io_handle ← require io_handle LIBERROR_ARGUMENT_ERROR_INVALID_VALUE;
    media_values ← require media_values LIBERROR_ARGUMENT_ERROR_INVALID_VALUE;
    offset_table ← require offset_table LIBERROR_ARGUMENT_ERROR_INVALID_VALUE;
    segment_table ←
      require segment_table LIBERROR_ARGUMENT_ERROR_INVALID_VALUE;
    segment_file_handles ←
      require (SegmentTable.segment_file_handle segment_table)
        LIBERROR_RUNTIME_ERROR_VALUE_MISSING;
    header_values ←
      require header_values LIBERROR_ARGUMENT_ERROR_INVALID_VALUE;
    write_new_chunk_checked io_handle media_values offset_table
      segment_table segment_file_handles header_values hash_values
      header_sections hash_sections sessions acquiry_errors chunk
      chunk_buffer chunk_size chunk_data_size is_compressed chunk_crc
      write_crc).

(** ** Writing an existing chunk *)

Section WriteExistingChunk.

(** [sizeof( ewfx_delta_chunk_header_t )]: ewfx_delta_chunk.h is absent
    from the sources and the specification does not give the size. *)
Variable sizeof_ewfx_delta_chunk_header_t : Z.

Variable io_handle : libewf_io_handle_t.
Variable media_values : libewf_media_values_t.
Variable offset_table : libewf_offset_table_t.
Variable delta_segment_table : libewf_segment_table_t.
Variable delta_segment_file_handles
  : list (option libewf_segment_file_handle_t).
Variable header_sections : option libewf_header_sections_t.
Variable chunk : Z.
Variable chunk_buffer : pointer.
Variable chunk_size chunk_data_size is_compressed chunk_crc write_crc : Z.

(** [last_section_start_offset + chunk_size + sizeof( ewf_crc_t )
    + sizeof( ewf_section_t )], stored in an [off64_t]. *)
Definition delta_chunk_end_offset (last_section_start_offset : Z) : Z :=
  s64 (u64 (u64 (u64 (u64 last_section_start_offset + chunk_size)
                 + sizeof_ewf_crc_t)
            + sizeof_ewf_section_t)).

(** The last delta segment file exists: make room for the chunk in it.
    The answer is [result] (1: the chunk goes into this segment file,
    0: a new one is needed) and the bytes written. *)
Definition reuse_last_delta_segment_file
    (segment_file_handle : libewf_segment_file_handle_t)
  : writer libewf_write_io_handle_t (Z * Z) :=
  section_list ←
    require (SegmentFileHandle.section_list segment_file_handle)
      LIBERROR_RUNTIME_ERROR_VALUE_MISSING;
  last_list_element ←
    require (SectionList.last section_list)
      LIBERROR_RUNTIME_ERROR_VALUE_MISSING;
  last_values ←
    require (SectionList.value last_list_element)
      LIBERROR_RUNTIME_ERROR_VALUE_MISSING;
  let last_section_start_offset := SectionList.start_offset last_values in
  '(result, segment_file_offset) ←
    do_call (libbfio_pool_get_offset (IoHandle.file_io_pool io_handle)
               (SegmentFileHandle.file_io_pool_entry segment_file_handle));
  if negb (result =? 1)
  then fail LIBERROR_RUNTIME_ERROR_GET_FAILED
  else
    (* Make sure the current segment file offset points to the start of
       the last section *)
    sought ←
      (if negb (segment_file_offset =? last_section_start_offset)
       then do_call (libbfio_pool_seek_offset
                       (IoHandle.file_io_pool io_handle)
                       (SegmentFileHandle.file_io_pool_entry
                          segment_file_handle)
                       last_section_start_offset)
       else mret 0);
    if sought =? -1
    then fail LIBERROR_IO_ERROR_SEEK_FAILED
    else
      let segment_file_offset :=
        delta_chunk_end_offset last_section_start_offset in
      write_io_handle ← get;
      (* Check if chunk fits in exisiting delta segment file *)
      if s64 (WriteIoHandle.segment_file_size write_io_handle)
         <? segment_file_offset
      then
        (* Make sure to write a next section in the the previous delta
           segment file *)
        write_count ←
          do_call (libewf_segment_file_write_last_section
                     (Some segment_file_handle) io_handle 0);
        if write_count =? -1
        then fail LIBERROR_IO_ERROR_WRITE_FAILED
        else
          total_write_count ← lift (add_int64 0 write_count);
          mret (0, total_write_count)
      else
        result ← do_call (libewf_list_remove_element section_list
                            last_list_element);
        if negb (result =? 1)
        then fail LIBERROR_RUNTIME_ERROR_REMOVE_FAILED
        else
          result ← do_call (libewf_section_list_values_free
                              (SectionList.value last_list_element));
          _ ← do_call (memory_free (list_element_object last_list_element));
          if negb (result =? 1)
          then fail LIBERROR_RUNTIME_ERROR_FINALIZE_FAILED
          else mret (1, 0).

(** Write the chunk to the last delta segment file: the segment file to
    write to and the bytes written so far. *)
Definition append_to_delta_segment_files
  : writer libewf_write_io_handle_t
      (option libewf_segment_file_handle_t * Z) :=
  let segment_number := u16 (SegmentTable.amount delta_segment_table - 1) in
  (* Check if a segment number is valid *)
  if SegmentTable.amount delta_segment_table <? segment_number
  then fail LIBERROR_RUNTIME_ERROR_VALUE_OUT_OF_RANGE
  else
    (* Check if a new delta segment file should be created *)
    '(result, segment_file_handle, total_write_count) ←
      (if negb (segment_number =? 0)
       then
         entry ← array_read delta_segment_file_handles segment_number;
         segment_file_handle ←
           require entry LIBERROR_RUNTIME_ERROR_VALUE_MISSING;
         '(result, total_write_count) ←
           reuse_last_delta_segment_file segment_file_handle;
         mret (result, Some segment_file_handle, total_write_count)
       else mret (0, None, 0));
    if result =? 0
    then
      let segment_number := u16 (segment_number + 1) in
      (* Create a new delta segment file *)
      write_io_handle ← get;
      '(result, segment_file_handle) ←
        do_call (libewf_segment_table_create_segment_file
                   delta_segment_table segment_number io_handle
                   (WriteIoHandle.maximum_amount_of_segments write_io_handle)
                   LIBEWF_SEGMENT_FILE_TYPE_DWF);
      if negb (result =? 1)
      then fail LIBERROR_IO_ERROR_OPEN_FAILED
      else
        (* Write the start of the segment file *)
        '(write_count, data_section) ←
          do_call (libewf_segment_file_write_start segment_file_handle
                     io_handle segment_number LIBEWF_SEGMENT_FILE_TYPE_DWF
                     media_values header_sections
                     (WriteIoHandle.data_section write_io_handle));
        _ ← modify (WriteIoHandle.set_data_section data_section);
        if write_count =? -1
        then fail LIBERROR_IO_ERROR_WRITE_FAILED
        else
          total_write_count ← lift (add_int64 total_write_count write_count);
          mret (segment_file_handle, total_write_count)
    else mret (segment_file_handle, total_write_count).

(** The function from the look-up of the chunk in the offset table on. *)
Definition write_existing_chunk_checked
    (chunk_offset : list OffsetTable.libewf_chunk_offset_t)
  : writer libewf_write_io_handle_t Z :=
  _ ← (if OffsetTable.amount_of_chunk_offsets offset_table <=? chunk
       then fail LIBERROR_ARGUMENT_ERROR_VALUE_OUT_OF_RANGE else mret ());
  _ ← (if is_null chunk_buffer
       then fail LIBERROR_ARGUMENT_ERROR_INVALID_VALUE else mret ());
  _ ← (if chunk_size =? 0
       then fail LIBERROR_ARGUMENT_ERROR_VALUE_ZERO_OR_LESS else mret ());
  _ ← (if SSIZE_MAX <? chunk_size
       then fail LIBERROR_ARGUMENT_ERROR_VALUE_EXCEEDS_MAXIMUM else mret ());
  _ ← (if negb (is_compressed =? 0)
       then fail LIBERROR_ARGUMENT_ERROR_CONFLICTING_VALUE else mret ());
  entry ← array_read chunk_offset chunk;
  segment_file_handle ←
    require (OffsetTable.segment_file_handle entry)
      LIBERROR_RUNTIME_ERROR_VALUE_MISSING;
  let segment_file_type := SegmentFileHandle.file_type segment_file_handle in
  (* Check if the chunk already exists in a delta segment file *)
  '(segment_file_handle, total_write_count, no_section_append) ←
    (if negb (bool_decide (segment_file_type = LIBEWF_SEGMENT_FILE_TYPE_DWF))
     then
       '(segment_file_handle, total_write_count) ←
         append_to_delta_segment_files;
       mret (segment_file_handle, total_write_count, 0)
     else
       let segment_file_offset :=
         sub_assign_int64_size_t
           (sub_assign_int64_size_t (OffsetTable.file_offset entry)
              sizeof_ewfx_delta_chunk_header_t)
           sizeof_ewf_section_t in
       sought ←
         do_call (libbfio_pool_seek_offset (IoHandle.file_io_pool io_handle)
                    (SegmentFileHandle.file_io_pool_entry segment_file_handle)
                    segment_file_offset);
       if sought =? -1
       then fail LIBERROR_IO_ERROR_SEEK_FAILED
       else mret (Some segment_file_handle, 0, 1));
  (* Write the chunk in the delta segment file *)
  write_count ←
    do_call (libewf_segment_file_write_delta_chunk segment_file_handle
               io_handle offset_table chunk chunk_buffer chunk_size
               chunk_crc write_crc no_section_append);
  if write_count =? -1
  then fail LIBERROR_IO_ERROR_WRITE_FAILED
  else
    total_write_count ← lift (add_int64 total_write_count write_count);
    if no_section_append =? 0
    then
      (* Write the last section *)
      write_count ←
        do_call (libewf_segment_file_write_last_section segment_file_handle
                   io_handle 1);
      if write_count =? -1
      then fail LIBERROR_IO_ERROR_WRITE_FAILED
      else lift (add_int64 total_write_count write_count)
    else mret total_write_count.

End WriteExistingChunk.

(** Writes an existing chunk of data in EWF format from a buffer at the
    current offset.  Returns the amount of data bytes written, 0 when no
    longer bytes can be written or -1 on error. *)
Definition libewf_write_io_handle_write_existing_chunk
    (sizeof_ewfx_delta_chunk_header_t : Z)
    (write_io_handle : option libewf_write_io_handle_t)
    (io_handle : option libewf_io_handle_t)
    (media_values : option libewf_media_values_t)
    (offset_table : option libewf_offset_table_t)
    (delta_segment_table : option libewf_segment_table_t)
    (header_sections : option libewf_header_sections_t)
    (chunk : Z) (chunk_buffer : pointer)
    (chunk_size chunk_data_size is_compressed chunk_crc write_crc : Z)
  : program (option libewf_write_io_handle_t) Z :=
  with_write_io_handle write_io_handle (
    io_handle ← require io_handle LIBERROR_ARGUMENT_ERROR_INVALID_VALUE;
    media_values ← require media_values LIBERROR_ARGUMENT_ERROR_INVALID_VALUE;
    offset_table ← require offset_table LIBERROR_ARGUMENT_ERROR_INVALID_VALUE;
    chunk_offset ←
      require (OffsetTable.chunk_offset offset_table)
        LIBERROR_RUNTIME_ERROR_VALUE_MISSING;
    delta_segment_table ←
      require delta_segment_table LIBERROR_ARGUMENT_ERROR_INVALID_VALUE;
    delta_segment_file_handles ←
      require (SegmentTable.segment_file_handle delta_segment_table)
        LIBERROR_RUNTIME_ERROR_VALUE_MISSING;
    write_existing_chunk_checked sizeof_ewfx_delta_chunk_header_t io_handle
      media_values offset_table delta_segment_table
      delta_segment_file_handles header_sections chunk chunk_buffer
      chunk_size is_compressed chunk_crc write_crc chunk_offset).

(** ** The conditions of the specification *)

(** The segment file is full, as the specification lists the cases: the
    last case (no room for one more chunk and its CRC) stands beside the
    others. *)
Definition segment_file_full_as_specified
    (remaining_segment_file_size segment_amount_of_chunks : Z)
    (media_values : libewf_media_values_t)
    (input_write_count chunks_per_segment current_amount_of_chunks : Z)
    (format : format_t) (ewf_format : ewf_format_t) : Prop :=
  (MediaValues.amount_of_chunks media_values <> 0
   /\ MediaValues.amount_of_chunks media_values = current_amount_of_chunks)
  \/ (MediaValues.media_size media_values <> 0
      /\ MediaValues.media_size media_values <= input_write_count)
  \/ ((ewf_format = EWF_FORMAT_S01 \/ format = LIBEWF_FORMAT_ENCASE1)
      /\ chunks_per_segment <= segment_amount_of_chunks)
  \/ remaining_segment_file_size
     < MediaValues.chunk_size media_values + sizeof_ewf_crc_t.

(** The segment file is full, as the code decides it: the last case
    applies to the formats other than EWF-S01 and EnCase1 only, and the
    media size is compared as an [ssize64_t]. *)
Definition segment_file_full
    (remaining_segment_file_size segment_amount_of_chunks : Z)
    (media_values : libewf_media_values_t)
    (input_write_count chunks_per_segment current_amount_of_chunks : Z)
    (format : format_t) (ewf_format : ewf_format_t) : Prop :=
  (MediaValues.amount_of_chunks media_values <> 0
   /\ MediaValues.amount_of_chunks media_values = current_amount_of_chunks)
  \/ (MediaValues.media_size media_values <> 0
      /\ s64 (MediaValues.media_size media_values) <= input_write_count)
  \/ ((ewf_format = EWF_FORMAT_S01 \/ format = LIBEWF_FORMAT_ENCASE1)
      /\ chunks_per_segment <= segment_amount_of_chunks)
  \/ (~ (ewf_format = EWF_FORMAT_S01 \/ format = LIBEWF_FORMAT_ENCASE1)
      /\ remaining_segment_file_size
         < MediaValues.chunk_size media_values + sizeof_ewf_crc_t).

(** The open chunks section is full, as the specification lists the
    cases. *)
Definition chunks_section_full_as_specified
    (chunks_section_offset remaining_segment_file_size : Z)
    (media_values : libewf_media_values_t)
    (input_write_count segment_file_offset
     maximum_section_amount_of_chunks section_amount_of_chunks
     current_amount_of_chunks chunks_per_chunks_section : Z)
    (format : format_t) (ewf_format : ewf_format_t)
    (unrestrict_offset_amount : Z) : Prop :=
  (MediaValues.amount_of_chunks media_values <> 0
   /\ MediaValues.amount_of_chunks media_values = current_amount_of_chunks)
  \/ (MediaValues.media_size media_values <> 0
      /\ MediaValues.media_size media_values <= input_write_count)
  \/ (unrestrict_offset_amount = 0
      /\ maximum_section_amount_of_chunks <= section_amount_of_chunks)
  \/ INT32_MAX < section_amount_of_chunks
  \/ INT32_MAX < segment_file_offset - chunks_section_offset
  \/ ((ewf_format = EWF_FORMAT_S01 \/ format = LIBEWF_FORMAT_ENCASE1)
      /\ chunks_per_chunks_section <= section_amount_of_chunks)
  \/ remaining_segment_file_size
     < MediaValues.chunk_size media_values + sizeof_ewf_crc_t.

(** The open chunks section is full, as the code decides it. *)
Definition chunks_section_full
    (chunks_section_offset remaining_segment_file_size : Z)
    (media_values : libewf_media_values_t)
    (input_write_count segment_file_offset
     maximum_section_amount_of_chunks section_amount_of_chunks
     current_amount_of_chunks chunks_per_chunks_section : Z)
    (format : format_t) (ewf_format : ewf_format_t)
    (unrestrict_offset_amount : Z) : Prop :=
  (MediaValues.amount_of_chunks media_values <> 0
   /\ MediaValues.amount_of_chunks media_values = current_amount_of_chunks)
  \/ (MediaValues.media_size media_values <> 0
      /\ s64 (MediaValues.media_size media_values) <= input_write_count)
  \/ (unrestrict_offset_amount = 0
      /\ maximum_section_amount_of_chunks <= section_amount_of_chunks)
  \/ INT32_MAX < section_amount_of_chunks
  \/ INT32_MAX < segment_file_offset - chunks_section_offset
  \/ ((ewf_format = EWF_FORMAT_S01 \/ format = LIBEWF_FORMAT_ENCASE1)
      /\ chunks_per_chunks_section <= section_amount_of_chunks)
  \/ (~ (ewf_format = EWF_FORMAT_S01 \/ format = LIBEWF_FORMAT_ENCASE1)
      /\ remaining_segment_file_size
         < MediaValues.chunk_size media_values + sizeof_ewf_crc_t).

(** The chunk is stored compressed, as the specification decides it,
    from the size of the compressed form of the chunk: [None] when the
    chunk was not compressed (the specification compresses for EWF-S01
    and for the levels other than none). *)
Definition stored_compressed_as_specified
    (ewf_format : ewf_format_t) (compressed_size : option Z) (chunk_size : Z)
  : Prop :=
  ewf_format = EWF_FORMAT_S01
  \/ exists size, compressed_size = Some size /\ size < chunk_size.

(** The chunk is stored compressed, as the code decides it from what
    [*compressed_chunk_data_size] holds: a size of 0 never counts. *)
Definition stored_compressed
    (ewf_format : ewf_format_t) (compressed_size : option Z) (chunk_size : Z)
  : Prop :=
  ewf_format = EWF_FORMAT_S01
  \/ exists size, compressed_size = Some size /\ 0 < size < chunk_size.

(** Every one of the first [size] bytes of the buffer equals its first
    byte. *)
Definition empty_block (buffer : list Z) (size : Z) : Prop :=
  forall i b first, (0 < i < Z.to_nat size)%nat ->
    buffer !! i = Some b -> buffer !! 0%nat = Some first -> b = first.

(** ** Expected runs *)

(** The error [e] and the state [s] a call leaves when [failed] holds. *)
Definition failing {St : Type} (failed : bool) (e : liberror) (s : St)
  : option (liberror * St) :=
  if failed then Some (e, s) else None.

(** The run expected of a function that makes the call [c] as its [n]-th
    call: the answer of the world is recorded; when [failure] has an
    error for the answer the function fails with it and makes no further
    call, otherwise the run goes on as [rest] has it. *)
Definition expect {St A X : Type} (w : world) (n : nat) (c : call X)
    (failure : X -> option (liberror * St))
    (rest : X -> list event * outcome A * St) : list event * outcome A * St :=
  let answer := w n X c in
  match failure answer with
  | Some (e, s) => ([Event c answer], Failed (Some e), s)
  | None =>
      let '(trace, r, s) := rest answer in (Event c answer :: trace, r, s)
  end.

(** [total_write_count += write_count] in an expected run: the sum of two
    [ssize_t] that does not fit is undefined, and nothing is expected
    after it. *)
Definition counting {St A : Type} (total_write_count write_count : Z) (s : St)
    (rest : Z -> list event * outcome A * St) : list event * outcome A * St :=
  match add_int64 total_write_count write_count with
  | Returned total_write_count => rest total_write_count
  | Failed e => ([], Failed e, s)
  | Undefined => ([], Undefined, s)
  end.

Section ExpectedDeltaRuns.

Variable w : world.
Variable write_io_handle : libewf_write_io_handle_t.
Variable io_handle : libewf_io_handle_t.
Variable media_values : libewf_media_values_t.
Variable offset_table : libewf_offset_table_t.
Variable delta_segment_table : libewf_segment_table_t.
Variable header_sections : option libewf_header_sections_t.
Variable chunk : Z.
Variable chunk_buffer : pointer.
Variable chunk_size chunk_crc write_crc : Z.

(** The delta chunk and the last section "done" after it, written into
    [segment_file_handle] as the calls [n] and [n + 1]; the function
    returns the bytes written. *)
Definition expected_delta_chunk (n : nat)
    (segment_file_handle : option libewf_segment_file_handle_t)
    (total_write_count : Z) (s : option libewf_write_io_handle_t)
  : list event * outcome Z * option libewf_write_io_handle_t :=
  expect w n
    (libewf_segment_file_write_delta_chunk segment_file_handle io_handle
       offset_table chunk chunk_buffer chunk_size chunk_crc write_crc 0)
    (fun write_count =>
       failing (write_count =? -1) LIBERROR_IO_ERROR_WRITE_FAILED s)
    (fun write_count =>
  counting total_write_count write_count s (fun total_write_count =>
  expect w (S n)
    (libewf_segment_file_write_last_section segment_file_handle io_handle 1)
    (fun write_count =>
       failing (write_count =? -1) LIBERROR_IO_ERROR_WRITE_FAILED s)
    (fun write_count =>
       ([], add_int64 total_write_count write_count, s)))).

(** A new delta segment file [segment_number] is created as the call [n];
    its start, the delta chunk and the last section "done" are written
    into the segment file handle that the creation answered.  The write
    of the start stores the data section in the write io handle. *)
Definition expected_new_delta_segment_file (n : nat) (segment_number : Z)
    (total_write_count : Z)
  : list event * outcome Z * option libewf_write_io_handle_t :=
  expect w n
    (libewf_segment_table_create_segment_file delta_segment_table
       segment_number io_handle
       (WriteIoHandle.maximum_amount_of_segments write_io_handle)
       LIBEWF_SEGMENT_FILE_TYPE_DWF)
    (fun created =>
       failing (negb (created.1 =? 1)) LIBERROR_IO_ERROR_OPEN_FAILED
         (Some write_io_handle))
    (fun created =>
  let segment_file_handle := created.2 in
  expect w (S n)
    (libewf_segment_file_write_start segment_file_handle io_handle
       segment_number LIBEWF_SEGMENT_FILE_TYPE_DWF media_values
       header_sections (WriteIoHandle.data_section write_io_handle))
    (fun started =>
       failing (started.1 =? -1) LIBERROR_IO_ERROR_WRITE_FAILED
         (Some (WriteIoHandle.set_data_section started.2 write_io_handle)))
    (fun started =>
  let s := Some (WriteIoHandle.set_data_section started.2 write_io_handle) in
  counting total_write_count started.1 s (fun total_write_count =>
  expected_delta_chunk (S (S n)) segment_file_handle total_write_count s))).

(** The delta append path, for the last delta segment file
    [segment_file_handle] of number [segment_number], whose section list
    [section_list] ends with the descriptor [last_list_element] of the
    terminator, which starts at [last_section_start_offset].  The offset
    in the file is asked for, and the start of the terminator sought when
    the answer differs.  When the chunk does not fit, a last section
    "next" is written into the existing file and the chunk goes into a
    new delta segment file.  When it fits, the descriptor of the
    terminator is removed from the section list and freed, and the chunk
    and a last section "done" are written into the existing file, where
    the terminator was. *)
Definition expected_delta_append
    (segment_file_handle : libewf_segment_file_handle_t) (segment_number : Z)
    (section_list : SectionList.libewf_list_t)
    (last_list_element : SectionList.libewf_list_element_t)
    (last_section_start_offset : Z)
  : list event * outcome Z * option libewf_write_io_handle_t :=
  let s := Some write_io_handle in
  let file_io_pool := IoHandle.file_io_pool io_handle in
  let entry := SegmentFileHandle.file_io_pool_entry segment_file_handle in
  let place (n : nat) :=
    if WriteIoHandle.segment_file_size write_io_handle
       <? last_section_start_offset + chunk_size + sizeof_ewf_crc_t
          + sizeof_ewf_section_t
    then
      expect w n
        (libewf_segment_file_write_last_section (Some segment_file_handle)
           io_handle 0)
        (fun write_count =>
           failing (write_count =? -1) LIBERROR_IO_ERROR_WRITE_FAILED s)
        (fun write_count =>
      counting 0 write_count s (fun total_write_count =>
      expected_new_delta_segment_file (S n) (segment_number + 1)
        total_write_count))
    else
      expect w n (libewf_list_remove_element section_list last_list_element)
        (fun result =>
           failing (negb (result =? 1)) LIBERROR_RUNTIME_ERROR_REMOVE_FAILED s)
        (fun _ =>
      expect w (S n)
        (libewf_section_list_values_free
           (SectionList.value last_list_element))
        (fun _ => None)
        (fun freed =>
      expect w (S (S n)) (memory_free (list_element_object last_list_element))
        (fun _ =>
           failing (negb (freed =? 1)) LIBERROR_RUNTIME_ERROR_FINALIZE_FAILED
             s)
        (fun _ =>
      expected_delta_chunk (S (S (S n))) (Some segment_file_handle) 0 s))) in
  expect w 0 (libbfio_pool_get_offset file_io_pool entry)
    (fun answer =>
       failing (negb (answer.1 =? 1)) LIBERROR_RUNTIME_ERROR_GET_FAILED s)
    (fun answer =>
  if answer.2 =? last_section_start_offset
  then place 1%nat
  else
    expect w 1
      (libbfio_pool_seek_offset file_io_pool entry last_section_start_offset)
      (fun sought =>
         failing (sought =? -1) LIBERROR_IO_ERROR_SEEK_FAILED s)
      (fun _ => place 2%nat)).

End ExpectedDeltaRuns.


(** ** Instances of the collaborators, for worked examples *)

(** Adler-32 continued from [previous_key], the checksum zlib appends. *)
Definition adler32 (bytes : list Z) (previous_key : Z) : Z :=
  let step (acc : Z * Z) (byte : Z) :=
    let a := (acc.1 + byte) `mod` 65521 in
    (a, (acc.2 + a) `mod` 65521) in
  let '(a, b) :=
    foldl step (previous_key `mod` 65536, previous_key ≫ 16) bytes in
  b * 65536 + a.

(** A compressor that stores: a two byte header, the bytes as they are
    and their checksum, most significant byte first; it asks for the size
    it needs when the buffer is smaller. *)
Definition storing_compress (uncompressed : list Z)
    (level : compression_level_t) (capacity : Z) : compress_result :=
  let checksum := adler32 uncompressed 1 in
  let out :=
    [120; 1] ++ uncompressed
    ++ reverse (endian_little_revert_32bit checksum) in
  if Z.of_nat (length out) <=? capacity
  then CompressOk out
  else CompressFailed (Z.of_nat (length out)).

(** A chunk cache whose resize gives both buffers [size] bytes in place:
    the compressed buffer cleared, the data buffer extended by zeroes. *)
Definition resize_in_place (chunk_cache : libewf_chunk_cache_t) (m : memory)
    (size : Z) : option (libewf_chunk_cache_t * memory) :=
  match ChunkCache.compressed chunk_cache, ChunkCache.data chunk_cache with
  | Some compressed, Some data =>
      let content := default [] (m !! data) in
      Some (chunk_cache,
            <[compressed := replicate (Z.to_nat size) 0]>
              (<[data := content
                         ++ replicate (Z.to_nat size - length content) 0]> m))
  | _, _ => None
  end.

Definition storing_env : ChunkProcessorEnv :=
  {| libewf_compress := storing_compress;
     libewf_chunk_cache_resize := resize_in_place;
     ewf_crc_calculate := adler32;
     host_big_endian := false |}.

(** Media values of chunks of [size] bytes, of unknown total size. *)
Definition media_of_chunk_size (size : Z) : libewf_media_values_t :=
  {| MediaValues.media_size := 0;
     MediaValues.chunk_size := size;
     MediaValues.amount_of_chunks := 0 |}.

(** Media values of one chunk of 64 KiB. *)
Definition media_of_one_chunk : libewf_media_values_t :=
  {| MediaValues.media_size := 65536;
     MediaValues.chunk_size := 65536;
     MediaValues.amount_of_chunks := 1 |}.

(** A memory of three buffers: block 1, a buffer of the caller that holds
    [chunk]; block 2, the 16 bytes of the compressed buffer of the chunk
    cache; block 3, the data buffer of the chunk cache that holds
    [cached]. *)
Definition example_memory (chunk cached : list Z) : memory :=
  <[1%nat := chunk]> (<[2%nat := replicate 16 0]> (<[3%nat := cached]> ∅)).

Definition example_chunk_cache : libewf_chunk_cache_t :=
  {| ChunkCache.compressed := Some 2%nat; ChunkCache.data := Some 3%nat |}.

(** An EnCase5 image of one primary segment file that holds chunk 0,
    and a write io handle whose write has been finalized. *)
Definition example_io_handle : libewf_io_handle_t :=
  {| IoHandle.file_io_pool := Some 7%nat;
     IoHandle.compression_level := EWF_COMPRESSION_NONE;
     IoHandle.format := LIBEWF_FORMAT_ENCASE5;
     IoHandle.ewf_format := EWF_FORMAT_E01 |}.

Definition primary_segment_file : libewf_segment_file_handle_t :=
  {| SegmentFileHandle.file_type := LIBEWF_SEGMENT_FILE_TYPE_EWF;
     SegmentFileHandle.file_io_pool_entry := 1;
     SegmentFileHandle.section_list := None;
     SegmentFileHandle.amount_of_chunks := 0;
     SegmentFileHandle.write_open := 1 |}.

Definition offset_table_of_one_chunk : libewf_offset_table_t :=
  {| OffsetTable.amount_of_chunk_offsets := 1;
     OffsetTable.chunk_offset :=
       Some [ {| OffsetTable.segment_file_handle := Some primary_segment_file;
                 OffsetTable.file_offset := 1000 |} ] |}.

Definition segment_table_of_one_file : libewf_segment_table_t :=
  {| SegmentTable.segment_file_handle :=
       Some [None; Some primary_segment_file];
     SegmentTable.amount := 2 |}.

Definition finalized_write_io_handle : libewf_write_io_handle_t :=
  {| WriteIoHandle.maximum_segment_file_size := INT32_MAX;
     WriteIoHandle.segment_file_size := LIBEWF_DEFAULT_SEGMENT_FILE_SIZE;
     WriteIoHandle.remaining_segment_file_size := 0;
     WriteIoHandle.delta_segment_file_size := INT64_MAX;
     WriteIoHandle.maximum_section_amount_of_chunks :=
       EWF_MAXIMUM_OFFSETS_IN_TABLE;
     WriteIoHandle.maximum_amount_of_segments := 14971;
     WriteIoHandle.input_write_count := 65536;
     WriteIoHandle.write_count := 70000;
     WriteIoHandle.chunks_section_write_count := 0;
     WriteIoHandle.chunks_section_offset := 0;
     WriteIoHandle.amount_of_chunks := 1;
     WriteIoHandle.chunks_per_segment := 1;
     WriteIoHandle.chunks_per_chunks_section := 1;
     WriteIoHandle.segment_amount_of_chunks := 1;
     WriteIoHandle.section_amount_of_chunks := 1;
     WriteIoHandle.amount_of_table_offsets := 1;
     WriteIoHandle.table_offsets := Some 4%nat;
     WriteIoHandle.data_section := None;
     WriteIoHandle.chunks_section_number := 1;
     WriteIoHandle.unrestrict_offset_amount := 0;
     WriteIoHandle.create_chunks_section := 1;
     WriteIoHandle.write_finalized := 1 |}.

(** A write io handle set for segment files of 1000 bytes. *)
Definition write_io_handle_of_small_segment_files
  : libewf_write_io_handle_t :=
  {| WriteIoHandle.maximum_segment_file_size := INT32_MAX;
     WriteIoHandle.segment_file_size := 1000;
     WriteIoHandle.remaining_segment_file_size := 1000;
     WriteIoHandle.delta_segment_file_size := INT64_MAX;
     WriteIoHandle.maximum_section_amount_of_chunks :=
       EWF_MAXIMUM_OFFSETS_IN_TABLE;
     WriteIoHandle.maximum_amount_of_segments := 0;
     WriteIoHandle.input_write_count := 0;
     WriteIoHandle.write_count := 0;
     WriteIoHandle.chunks_section_write_count := 0;
     WriteIoHandle.chunks_section_offset := 0;
     WriteIoHandle.amount_of_chunks := 0;
     WriteIoHandle.chunks_per_segment := 0;
     WriteIoHandle.chunks_per_chunks_section := 0;
     WriteIoHandle.segment_amount_of_chunks := 0;
     WriteIoHandle.section_amount_of_chunks := 0;
     WriteIoHandle.amount_of_table_offsets := 0;
     WriteIoHandle.table_offsets := None;
     WriteIoHandle.data_section := None;
     WriteIoHandle.chunks_section_number := 0;
     WriteIoHandle.unrestrict_offset_amount := 0;
     WriteIoHandle.create_chunks_section := 0;
     WriteIoHandle.write_finalized := 0 |}.

(** One delta segment file that ends in a terminator at offset 500, in
    a delta segment table. *)
Definition terminator_descriptor : SectionList.libewf_list_element_t :=
  {| SectionList.value := Some {| SectionList.start_offset := 500 |} |}.

Definition delta_segment_file : libewf_segment_file_handle_t :=
  {| SegmentFileHandle.file_type := LIBEWF_SEGMENT_FILE_TYPE_DWF;
     SegmentFileHandle.file_io_pool_entry := 2;
     SegmentFileHandle.section_list :=
       Some {| SectionList.last := Some terminator_descriptor |};
     SegmentFileHandle.amount_of_chunks := 0;
     SegmentFileHandle.write_open := 1 |}.

Definition delta_segment_table_of_one_file : libewf_segment_table_t :=
  {| SegmentTable.segment_file_handle := Some [None; Some delta_segment_file];
     SegmentTable.amount := 2 |}.

(** A world in which every call succeeds: allocations give block 1, the
    file is at offset 1000, every write writes 100 bytes and a created
    segment file is an empty delta segment file on pool entry 2. *)
Definition created_segment_file : libewf_segment_file_handle_t :=
  {| SegmentFileHandle.file_type := LIBEWF_SEGMENT_FILE_TYPE_DWF;
     SegmentFileHandle.file_io_pool_entry := 2;
     SegmentFileHandle.section_list := None;
     SegmentFileHandle.amount_of_chunks := 0;
     SegmentFileHandle.write_open := 1 |}.

Definition obliging_world : world :=
  fun n X c =>
    match c in call X return X with
    | memory_allocate _ => Some 1%nat
    | memory_set destination _ _ => destination
    | memory_free _ => ()
    | memory_reallocate _ _ => Some 1%nat
    | libewf_offset_table_resize _ _ => 1
    | libewf_values_table_initialize => (1, Some 1%nat)
    | libewf_header_values_initialize _ => 1
    | libewf_header_sections_create _ _ _ _ => 1
    | libewf_segment_table_create_segment_file _ _ _ _ _ =>
        (1, Some created_segment_file)
    | libewf_segment_file_write_start _ _ _ _ _ _ data_section =>
        (100, data_section)
    | libbfio_pool_get_offset _ _ => (1, 1000)
    | libbfio_pool_seek_offset _ _ offset => offset
    | libewf_segment_file_write_chunks_section_start _ _ _ _ _ _ _ _ => 100
    | libewf_segment_file_write_chunks_data _ _ _ _ _ _ _ _ _ => 100
    | libewf_segment_file_write_chunks_correction _ _ _ _ _ _ _ _ _ => 100
    | libewf_segment_file_write_close _ _ _ _ _ _ _ _ _ _ data_section =>
        (100, data_section)
    | libewf_segment_file_write_delta_chunk _ _ _ _ _ _ _ _ _ => 100
    | libewf_segment_file_write_last_section _ _ _ => 100
    | libewf_list_remove_element _ _ => 1
    | libewf_section_list_values_free _ => 1
    end.

(** A world whose allocator has no memory left; [memory_set] answers its
    destination, as [memset] does. *)
Definition exhausted_world : world :=
  fun n X c =>
    match c in call X return X with
    | memory_allocate _ => None
    | memory_reallocate _ _ => None
    | other => obliging_world n _ other
    end.

(** The answer by which each collaborator reports that it failed; what
    it was handed a pointer to is left as it was. *)
Definition failure_answer {X : Type} (c : call X) : X :=
  match c in call X return X with
  | memory_allocate _ => None
  | memory_set _ _ _ => None
  | memory_free _ => ()
  | memory_reallocate _ _ => None
  | libewf_offset_table_resize _ _ => -1
  | libewf_values_table_initialize => (-1, None)
  | libewf_header_values_initialize _ => -1
  | libewf_header_sections_create _ _ _ _ => -1
  | libewf_segment_table_create_segment_file _ _ _ _ _ => (-1, None)
  | libewf_segment_file_write_start _ _ _ _ _ _ data_section =>
      (-1, data_section)
  | libbfio_pool_get_offset _ _ => (-1, 0)
  | libbfio_pool_seek_offset _ _ _ => -1
  | libewf_segment_file_write_chunks_section_start _ _ _ _ _ _ _ _ => -1
  | libewf_segment_file_write_chunks_data _ _ _ _ _ _ _ _ _ => -1
  | libewf_segment_file_write_chunks_correction _ _ _ _ _ _ _ _ _ => -1
  | libewf_segment_file_write_close _ _ _ _ _ _ _ _ _ _ data_section =>
      (-1, data_section)
  | libewf_segment_file_write_delta_chunk _ _ _ _ _ _ _ _ _ => -1
  | libewf_segment_file_write_last_section _ _ _ => -1
  | libewf_list_remove_element _ _ => -1
  | libewf_section_list_values_free _ => -1
  end.

(** The obliging world, but for its [n]-th call, which fails. *)
Definition world_failing_at (n : nat) : world :=
  fun k X c => if (k =? n)%nat then failure_answer c else obliging_world k X c.


(** A compressor that always fails and asks for nothing, with the chunk
    cache and the checksum of [storing_env]. *)
Definition refusing_env : ChunkProcessorEnv :=
  {| libewf_compress := fun _ _ _ => CompressFailed 0;
     libewf_chunk_cache_resize := fun _ _ _ => None;
     ewf_crc_calculate := adler32;
     host_big_endian := false |}.

(** ** Freeing the write io handle *)

(** [memory_free( p )] when [p] is not [NULL]: the blocks released. *)
Definition released (p : option nat) : list nat :=
  match p with
  | Some address => [address]
  | None => []
  end.

(** Frees the write io handle including elements.  Returns 1 if
    successful or -1 on error.  [write_io_handle] is the
    [libewf_write_io_handle_t **]: [None] when it is [NULL],
    [Some None] when [*write_io_handle] is [NULL] and
    [Some (Some (address, content))] when [*write_io_handle] is the
    structure [content] at [address].  The answer is the return value,
    the error set, the blocks handed to [memory_free] in order and the
    parameter as the call leaves it. *)
Definition libewf_write_io_handle_free
    (write_io_handle : option (option (nat * libewf_write_io_handle_t)))
  : Z * option liberror * list nat
    * option (option (nat * libewf_write_io_handle_t)) :=
  match write_io_handle with
  | None => (1, Some LIBERROR_ARGUMENT_ERROR_INVALID_VALUE, [], None)
  | Some None => (1, None, [], Some None)
  | Some (Some (address, content)) =>
      (1, None,
       released (WriteIoHandle.data_section content)
       ++ released (WriteIoHandle.table_offsets content)
       ++ [address],
       (* *write_io_handle = NULL *)
       Some None)
  end.

(** ** Properties of every run *)

(** Every state the program may stop in satisfies [P], whatever the
    calls answer. *)
Fixpoint stops_in {St A : Type} (P : St -> Prop) (p : program St A) : Prop :=
  match p with
  | Stop _ s => P s
  | Call _ k => forall x, stops_in P (k x)
  end.

(** A writer that stops in [P] when started in [P]. *)
Definition keeps {St A : Type} (P : St -> Prop) (m : writer St A) : Prop :=
  forall s, P s -> stops_in P (m s).

(** The settings of a write io handle, as opposed to the counters of a
    write: the fields the two chunk writers read and never assign. *)
Definition settings (h : libewf_write_io_handle_t)
  : Z * Z * Z * Z * Z * Z * Z :=
  (WriteIoHandle.maximum_segment_file_size h,
   WriteIoHandle.segment_file_size h,
   WriteIoHandle.delta_segment_file_size h,
   WriteIoHandle.maximum_section_amount_of_chunks h,
   WriteIoHandle.maximum_amount_of_segments h,
   WriteIoHandle.unrestrict_offset_amount h,
   WriteIoHandle.write_finalized h).

(** The errors of the domain [LIBERROR_ERROR_DOMAIN_ARGUMENTS]. *)
Definition argument_error (e : liberror) : bool :=
  match e with
  | LIBERROR_ARGUMENT_ERROR_INVALID_VALUE
  | LIBERROR_ARGUMENT_ERROR_VALUE_EXCEEDS_MAXIMUM
  | LIBERROR_ARGUMENT_ERROR_VALUE_TOO_LARGE
  | LIBERROR_ARGUMENT_ERROR_VALUE_ZERO_OR_LESS
  | LIBERROR_ARGUMENT_ERROR_VALUE_OUT_OF_RANGE
  | LIBERROR_ARGUMENT_ERROR_UNSUPPORTED_VALUE
  | LIBERROR_ARGUMENT_ERROR_CONFLICTING_VALUE => true
  | _ => false
  end.

(** The program never fails with an error of [E], whatever the calls
    answer. *)
Fixpoint never_fails_with {St A : Type} (E : liberror -> bool)
    (p : program St A) : Prop :=
  match p with
  | Stop (Failed (Some e)) _ => E e = false
  | Stop _ _ => True
  | Call _ k => forall x, never_fails_with E (k x)
  end.

(** The program fails with an error of [E] before its first call, if at
    all. *)
Definition fails_first {St A : Type} (E : liberror -> bool)
    (p : program St A) : Prop :=
  match p with
  | Stop _ _ => True
  | Call _ k => forall x, never_fails_with E (k x)
  end.

(** A writer that never fails with an error of [E]. *)
Definition no_failure {St A : Type} (E : liberror -> bool)
    (m : writer St A) : Prop :=
  forall s, never_fails_with E (m s).

(** A writer that fails with an error of [E] before its first call, if
    at all. *)
Definition failing_first {St A : Type} (E : liberror -> bool)
    (m : writer St A) : Prop :=
  forall s, fails_first E (m s).

(** A writer that makes no call and keeps the state. *)
Definition silent {St A : Type} (m : writer St A) : Prop :=
  forall s, exists r, m s = Stop r s.

(** An offset table whose chunk 0 is held by the delta segment file. *)
Definition offset_table_of_one_delta_chunk : libewf_offset_table_t :=
  {| OffsetTable.amount_of_chunk_offsets := 1;
     OffsetTable.chunk_offset :=
       Some [ {| OffsetTable.segment_file_handle := Some delta_segment_file;
                 OffsetTable.file_offset := 1000 |} ] |}.

(** A segment table, or a delta segment table, without segment files:
    only the unused entry 0. *)
Definition segment_table_without_files : libewf_segment_table_t :=
  {| SegmentTable.segment_file_handle := Some [None];
     SegmentTable.amount := 1 |}.


(** A write io handle in the middle of a write: one chunk of 64 KiB is
    in the first chunks section, which started at offset 500 of the
    first segment file. *)
Definition write_io_handle_in_section : libewf_write_io_handle_t :=
  {| WriteIoHandle.maximum_segment_file_size := INT32_MAX;
     WriteIoHandle.segment_file_size := LIBEWF_DEFAULT_SEGMENT_FILE_SIZE;
     WriteIoHandle.remaining_segment_file_size := 1000000;
     WriteIoHandle.delta_segment_file_size := INT64_MAX;
     WriteIoHandle.maximum_section_amount_of_chunks :=
       EWF_MAXIMUM_OFFSETS_IN_TABLE;
     WriteIoHandle.maximum_amount_of_segments := 14971;
     WriteIoHandle.input_write_count := 65536;
     WriteIoHandle.write_count := 70000;
     WriteIoHandle.chunks_section_write_count := 65540;
     WriteIoHandle.chunks_section_offset := 500;
     WriteIoHandle.amount_of_chunks := 1;
     WriteIoHandle.chunks_per_segment := 100;
     WriteIoHandle.chunks_per_chunks_section := 100;
     WriteIoHandle.segment_amount_of_chunks := 1;
     WriteIoHandle.section_amount_of_chunks := 1;
     WriteIoHandle.amount_of_table_offsets := 100;
     WriteIoHandle.table_offsets := Some 4%nat;
     WriteIoHandle.data_section := None;
     WriteIoHandle.chunks_section_number := 1;
     WriteIoHandle.unrestrict_offset_amount := 0;
     WriteIoHandle.create_chunks_section := 0;
     WriteIoHandle.write_finalized := 0 |}.

(** An offset table that holds no chunk yet. *)
Definition offset_table_without_chunks : libewf_offset_table_t :=
  {| OffsetTable.amount_of_chunk_offsets := 0;
     OffsetTable.chunk_offset := None |}.

(** Header sections whose header was created. *)
Definition example_header_sections : libewf_header_sections_t :=
  {| HeaderSections.header := Some 6%nat;
     HeaderSections.header2 := None;
     HeaderSections.xheader := None |}.

(** * Properties *)

(** ** Integer conversions *)

Ltac unfold_limits :=
  unfold is_uint8, is_uint16, is_uint32, is_uint64, is_int64, SSIZE_MAX,
    UINT8_MAX, UINT16_MAX, INT32_MAX, UINT32_MAX, INT64_MAX, INT64_MIN,
    UINT64_MAX, sizeof_ewf_section_t, sizeof_ewf_crc_t,
    sizeof_ewf_table_offset_t in *.

(** Turn the boolean tests of the hypotheses into propositions. *)
Ltac bool_to_prop :=
  repeat match goal with
  | H : context [_ && _ = true] |- _ => rewrite andb_true_iff in H
  | H : context [_ && _ = false] |- _ => rewrite andb_false_iff in H
  | H : context [_ || _ = true] |- _ => rewrite orb_true_iff in H
  | H : context [_ || _ = false] |- _ => rewrite orb_false_iff in H
  | H : context [negb _ = true] |- _ => rewrite negb_true_iff in H
  | H : context [negb _ = false] |- _ => rewrite negb_false_iff in H
  | H : context [bool_decide _ = true] |- _ => rewrite bool_decide_eq_true in H
  | H : context [bool_decide _ = false] |- _ =>
      rewrite bool_decide_eq_false in H
  | H : context [(_ =? _) = true] |- _ => rewrite Z.eqb_eq in H
  | H : context [(_ =? _) = false] |- _ => rewrite Z.eqb_neq in H
  | H : context [(_ <? _) = true] |- _ => rewrite Z.ltb_lt in H
  | H : context [(_ <? _) = false] |- _ => rewrite Z.ltb_ge in H
  | H : context [(_ <=? _) = true] |- _ => rewrite Z.leb_le in H
  | H : context [(_ <=? _) = false] |- _ => rewrite Z.leb_gt in H
  end.

Lemma u64_small x : 0 <= x <= UINT64_MAX -> u64 x = x.
Proof. unfold_limits. intros. apply Z.mod_small. lia. Qed.

Lemma u32_small x : 0 <= x <= UINT32_MAX -> u32 x = x.
Proof. unfold_limits. intros. apply Z.mod_small. lia. Qed.

Lemma u16_small x : 0 <= x <= UINT16_MAX -> u16 x = x.
Proof. unfold_limits. intros. apply Z.mod_small. lia. Qed.

Lemma s64_small x : INT64_MIN <= x <= INT64_MAX -> s64 x = x.
Proof.
  unfold_limits. intros. unfold s64, wrap_signed.
  rewrite Z.mod_small; lia.
Qed.

Lemma s64_u64 x : s64 (u64 x) = s64 x.
Proof.
  unfold s64, u64, wrap_signed, wrap_unsigned.
  by rewrite Zplus_mod_idemp_l.
Qed.

Lemma u64_sub_u64_l a b : u64 (u64 a - b) = u64 (a - b).
Proof. unfold u64, wrap_unsigned. by rewrite Zminus_mod_idemp_l. Qed.

Lemma u64_sub_u64_r a b : u64 (a - u64 b) = u64 (a - b).
Proof. unfold u64, wrap_unsigned. by rewrite Zminus_mod_idemp_r. Qed.

Lemma u64_add_u64_l a b : u64 (u64 a + b) = u64 (a + b).
Proof. unfold u64, wrap_unsigned. by rewrite Zplus_mod_idemp_l. Qed.

Lemma u64_mul_u64_l a b : u64 (u64 a * b) = u64 (a * b).
Proof. unfold u64, wrap_unsigned. by rewrite Zmult_mod_idemp_l. Qed.

(** Subtracting a [size_t] product from an [int64_t]: the wrap-arounds
    of the three conversions collapse into one. *)
Lemma sub_assign_mul a b c :
  sub_assign_int64_size_t a (mul_int64_size_t b c) = s64 (a - b * c).
Proof.
  unfold sub_assign_int64_size_t, mul_int64_size_t.
  by rewrite u64_sub_u64_l, u64_mul_u64_l, u64_sub_u64_r, s64_u64.
Qed.

Lemma sub_assign_small a b :
  INT64_MIN <= a - b <= INT64_MAX -> sub_assign_int64_size_t a b = a - b.
Proof.
  intros. unfold sub_assign_int64_size_t.
  by rewrite u64_sub_u64_l, s64_u64, s64_small.
Qed.

Lemma add_int64_in_range a b :
  INT64_MIN <= a + b <= INT64_MAX -> add_int64 a b = Returned (a + b).
Proof.
  intros. unfold add_int64, in_int64.
  by rewrite (proj2 (Z.leb_le _ _)), (proj2 (Z.leb_le _ _)) by lia.
Qed.

Lemma sub_int64_in_range a b :
  INT64_MIN <= a - b <= INT64_MAX -> sub_int64 a b = Returned (a - b).
Proof.
  intros. unfold sub_int64, in_int64.
  by rewrite (proj2 (Z.leb_le _ _)), (proj2 (Z.leb_le _ _)) by lia.
Qed.

Lemma mul_int64_in_range a b :
  INT64_MIN <= a * b <= INT64_MAX -> mul_int64 a b = Returned (a * b).
Proof.
  intros. unfold mul_int64, in_int64.
  by rewrite (proj2 (Z.leb_le _ _)), (proj2 (Z.leb_le _ _)) by lia.
Qed.

Lemma chunk_and_crc_size (m : libewf_media_values_t) :
  is_uint32 (MediaValues.chunk_size m) ->
  s64 (u64 (MediaValues.chunk_size m + sizeof_ewf_crc_t))
  = MediaValues.chunk_size m + sizeof_ewf_crc_t.
Proof.
  intros. rewrite s64_u64. apply s64_small. unfold_limits. lia.
Qed.

(** ** The capacity planner *)

(** C5, as amended: [libewf_write_io_handle_test_segment_file_full]
    returns 1 when all required chunks have been written, when all input
    has been consumed or, for EWF-S01 and EnCase1, when the segment holds
    [chunks_per_segment] chunks; for the other formats, and only for
    them, when less than a chunk and its CRC remain.  It returns 0 in
    every other case. *)
Theorem test_segment_file_full_decides
    (remaining_segment_file_size segment_amount_of_chunks : Z)
    (media_values : libewf_media_values_t)
    (input_write_count chunks_per_segment current_amount_of_chunks : Z)
    (format : format_t) (ewf_format : ewf_format_t) :
  is_uint32 (MediaValues.chunk_size media_values) ->
  (segment_file_full remaining_segment_file_size segment_amount_of_chunks
     media_values input_write_count chunks_per_segment
     current_amount_of_chunks format ewf_format ->
   libewf_write_io_handle_test_segment_file_full remaining_segment_file_size
     segment_amount_of_chunks (Some media_values) input_write_count
     chunks_per_segment current_amount_of_chunks format ewf_format
   = Returned 1)
  /\ (~ segment_file_full remaining_segment_file_size
          segment_amount_of_chunks media_values input_write_count
          chunks_per_segment current_amount_of_chunks format ewf_format ->
      libewf_write_io_handle_test_segment_file_full
        remaining_segment_file_size segment_amount_of_chunks
        (Some media_values) input_write_count chunks_per_segment
        current_amount_of_chunks format ewf_format
      = Returned 0).
Proof.
  intros Hsize.
  unfold libewf_write_io_handle_test_segment_file_full, segment_file_full.
  rewrite (chunk_and_crc_size _ Hsize).
  split; intros Hfull; repeat case_match; bool_to_prop;
    try reflexivity; exfalso; intuition lia.
Qed.

(** C5, witness: an EnCase5 segment file with 100 bytes left is full. *)
Lemma test_segment_file_full_decides_witness :
  libewf_write_io_handle_test_segment_file_full 100 3
    (Some (media_of_chunk_size 65536)) 196608 10 3 LIBEWF_FORMAT_ENCASE5
    EWF_FORMAT_E01
  = Returned 1.
Proof.
  apply (test_segment_file_full_decides 100 3 (media_of_chunk_size 65536) 196608 10 3
           LIBEWF_FORMAT_ENCASE5 EWF_FORMAT_E01).
  - unfold is_uint32, UINT32_MAX. simpl. lia.
  - unfold segment_file_full. right. right. right. split.
    + intros [H | H]; discriminate H.
    + simpl. unfold sizeof_ewf_crc_t. lia.
Defined.

(** C5, counterexample: an EWF-S01 segment that holds 3 of its 10 chunks
    is not full although no byte remains, where the specification has it
    full. *)
Lemma test_segment_file_full_counterexample :
  libewf_write_io_handle_test_segment_file_full 0 3
    (Some (media_of_chunk_size 65536)) 196608 10 3 LIBEWF_FORMAT_SMART EWF_FORMAT_S01
  = Returned 0
  /\ segment_file_full_as_specified 0 3 (media_of_chunk_size 65536) 196608 10 3
       LIBEWF_FORMAT_SMART EWF_FORMAT_S01.
Proof.
  split; [reflexivity |].
  unfold segment_file_full_as_specified. do 3 right.
  simpl. unfold sizeof_ewf_crc_t. lia.
Qed.

Lemma u32_INT32_MAX : u32 INT32_MAX = INT32_MAX.
Proof. reflexivity. Qed.

(** C6, as amended: with no chunks section open
    [libewf_write_io_handle_test_chunks_section_full] returns 0;
    otherwise it returns 1 exactly in the cases of [chunks_section_full],
    where the test for the remaining space applies to the formats other
    than EWF-S01 and EnCase1 only. *)
Theorem test_chunks_section_full_decides
    (chunks_section_offset remaining_segment_file_size : Z)
    (media_values : libewf_media_values_t)
    (input_write_count segment_file_offset
     maximum_section_amount_of_chunks section_amount_of_chunks
     current_amount_of_chunks chunks_per_chunks_section : Z)
    (format : format_t) (ewf_format : ewf_format_t)
    (unrestrict_offset_amount : Z) :
  is_uint32 (MediaValues.chunk_size media_values) ->
  0 < maximum_section_amount_of_chunks ->
  0 <= segment_file_offset <= INT64_MAX ->
  0 <= chunks_section_offset <= INT64_MAX ->
  let test :=
    libewf_write_io_handle_test_chunks_section_full chunks_section_offset
      remaining_segment_file_size (Some media_values) input_write_count
      segment_file_offset maximum_section_amount_of_chunks
      section_amount_of_chunks current_amount_of_chunks
      chunks_per_chunks_section format ewf_format unrestrict_offset_amount in
  let full :=
    chunks_section_full chunks_section_offset remaining_segment_file_size
      media_values input_write_count segment_file_offset
      maximum_section_amount_of_chunks section_amount_of_chunks
      current_amount_of_chunks chunks_per_chunks_section format ewf_format
      unrestrict_offset_amount in
  (chunks_section_offset = 0 -> test = Returned 0)
  /\ (chunks_section_offset <> 0 -> full -> test = Returned 1)
  /\ (chunks_section_offset <> 0 -> ~ full -> test = Returned 0).
Proof.
  intros Hsize Hmaximum Hsegment Hsection test full. subst test full.
  unfold libewf_write_io_handle_test_chunks_section_full, chunks_section_full.
  rewrite (chunk_and_crc_size _ Hsize), u32_INT32_MAX.
  rewrite sub_int64_in_range by (unfold_limits; lia).
  cbn [mbind outcome_bind].
  split; [| split]; intros; repeat case_match; bool_to_prop;
    try reflexivity; exfalso; unfold_limits; intuition lia.
Qed.

(** C6, witness: a chunks section of an EnCase5 segment that started at
    offset 1000 is full once fewer than 65540 bytes remain. *)
Lemma test_chunks_section_full_decides_witness :
  libewf_write_io_handle_test_chunks_section_full 1000 100
    (Some (media_of_chunk_size 65536)) 196608 197620 16375 3 3 0
    LIBEWF_FORMAT_ENCASE5 EWF_FORMAT_E01 0
  = Returned 1.
Proof.
  apply (test_chunks_section_full_decides 1000 100 (media_of_chunk_size 65536)
           196608 197620 16375 3 3 0 LIBEWF_FORMAT_ENCASE5 EWF_FORMAT_E01 0).
  - unfold is_uint32, UINT32_MAX. simpl. lia.
  - lia.
  - unfold INT64_MAX. lia.
  - unfold INT64_MAX. lia.
  - lia.
  - unfold chunks_section_full. do 6 right. split.
    + intros [H | H]; discriminate H.
    + simpl. unfold sizeof_ewf_crc_t. lia.
Defined.

(** C6, counterexample: the open chunks section of an EWF-S01 segment
    that holds 3 of its 10 chunks is not full although no byte remains,
    where the specification has it full. *)
Lemma test_chunks_section_full_counterexample :
  libewf_write_io_handle_test_chunks_section_full 1000 0
    (Some (media_of_chunk_size 65536)) 196608 197620 16375 3 3 10
    LIBEWF_FORMAT_SMART EWF_FORMAT_S01 0
  = Returned 0
  /\ chunks_section_full_as_specified 1000 0 (media_of_chunk_size 65536) 196608
       197620 16375 3 3 10 LIBEWF_FORMAT_SMART EWF_FORMAT_S01 0.
Proof.
  split; [reflexivity |].
  unfold chunks_section_full_as_specified. do 6 right.
  simpl. unfold sizeof_ewf_crc_t. lia.
Qed.

(** While [( chunks_section_number - 1 ) * maximum_section_amount_of_chunks]
    fits an [unsigned int],
    [libewf_write_io_handle_calculate_chunks_per_chunks_section] computes
    what the specification says: the error when no chunk remains, the
    clamped and saturated remainder otherwise. *)
Lemma calculate_chunks_per_chunks_section_in_range
    (chunks_per_chunks_section maximum_section_amount_of_chunks
     chunks_per_segment chunks_section_number unrestrict_offset_amount : Z) :
  is_uint32 maximum_section_amount_of_chunks ->
  0 < maximum_section_amount_of_chunks ->
  is_uint32 chunks_per_segment ->
  1 <= chunks_section_number <= UINT8_MAX ->
  (chunks_section_number - 1) * maximum_section_amount_of_chunks
  <= UINT32_MAX ->
  libewf_write_io_handle_calculate_chunks_per_chunks_section
    (Some chunks_per_chunks_section) maximum_section_amount_of_chunks
    chunks_per_segment chunks_section_number unrestrict_offset_amount
  = match chunks_per_chunks_section_estimate
            maximum_section_amount_of_chunks chunks_per_segment
            chunks_section_number unrestrict_offset_amount with
    | Some chunks => Returned (1, chunks)
    | None => Failed None
    end.
Proof.
  intros Hmaximum Hpositive Hsegment Hnumber Hproduct.
  unfold libewf_write_io_handle_calculate_chunks_per_chunks_section,
    chunks_per_chunks_section_estimate.
  rewrite (proj2 (Z.eqb_neq _ 0)) by lia.
  rewrite (proj2 (Z.eqb_neq chunks_section_number 0)) by lia.
  assert (Hremaining :
    (if 1 <? chunks_section_number
     then sub_int64 chunks_per_segment
            (u32 ((chunks_section_number - 1)
                  * maximum_section_amount_of_chunks))
     else mret chunks_per_segment)
    = Returned (chunks_per_segment
                - (chunks_section_number - 1)
                  * maximum_section_amount_of_chunks)).
  { destruct (Z.ltb_spec 1 chunks_section_number).
    - rewrite u32_small by (unfold_limits; nia).
      apply sub_int64_in_range. unfold_limits. nia.
    - unfold mret, outcome_ret. f_equal. nia. }
  rewrite Hremaining. cbn [mbind outcome_bind].
  destruct (Z.leb_spec
              (chunks_per_segment
               - (chunks_section_number - 1)
                 * maximum_section_amount_of_chunks) 0); [reflexivity |].
  unfold mret, outcome_ret. do 2 f_equal.
  repeat case_match; bool_to_prop; unfold_limits;
    rewrite u32_small by (unfold_limits; lia); lia.
Qed.

(** C4: the fourth chunks section of a segment estimated at 100 chunks,
    with at most 1 431 655 766 chunks in a section.  Three full sections
    hold 4 294 967 298 chunks, so the specification has the error; the
    code computes the product as an [unsigned int], gets 2, and reports 98
    chunks for the section. *)
Theorem calculate_chunks_per_chunks_section_wraps :
  libewf_write_io_handle_calculate_chunks_per_chunks_section (Some 0)
    1431655766 100 4 0
  = Returned (1, 98)
  /\ chunks_per_chunks_section_estimate 1431655766 100 4 0 = None.
Proof. split; reflexivity. Qed.

Lemma div_int64_positive a b :
  0 < b -> div_int64 a b = Returned (a `quot` b).
Proof.
  intros. unfold div_int64.
  rewrite (proj2 (Z.eqb_neq b 0)), (proj2 (Z.eqb_neq b (-1))) by lia.
  by rewrite andb_false_r.
Qed.

Lemma rem_int64_positive a b :
  0 < b -> rem_int64 a b = Returned (a `rem` b).
Proof.
  intros. unfold rem_int64.
  rewrite (proj2 (Z.eqb_neq b 0)), (proj2 (Z.eqb_neq b (-1))) by lia.
  by rewrite andb_false_r.
Qed.

(** Dividing a non-negative [int64_t] by a [size_t] is the division the
    specification means; a negative one is divided as the huge unsigned
    number it converts to. *)
Lemma div_assign_int64_size_t_nonnegative a b :
  0 <= a <= INT64_MAX -> 0 < b ->
  div_assign_int64_size_t a b = Returned (a `quot` b).
Proof.
  intros Ha Hb. unfold div_assign_int64_size_t, div_uint64.
  rewrite (proj2 (Z.eqb_neq b 0)) by lia.
  rewrite u64_small by (unfold_limits; lia).
  cbn [fmap outcome_fmap]. f_equal.
  rewrite Z.quot_div_nonneg by lia.
  apply s64_small. pose proof (Z.div_pos a b). 
  pose proof (Z.div_le_upper_bound a b a). unfold_limits. nia.
Qed.

Section ChunksPerSegmentInRange.

Variable chunks_per_segment : Z.
Variable remaining_segment_file_size maximum_section_amount_of_chunks : Z.
Variable segment_amount_of_chunks amount_of_chunks : Z.
Variable media_values : libewf_media_values_t.
Variable format : format_t.
Variable ewf_format : ewf_format_t.
Variable unrestrict_offset_amount : Z.

Hypothesis media_typed : media_values_typed media_values.
Hypothesis maximum_typed : is_uint32 maximum_section_amount_of_chunks.
Hypothesis maximum_positive : 0 < maximum_section_amount_of_chunks.
Hypothesis segment_typed : is_uint32 segment_amount_of_chunks.
Hypothesis amount_typed : is_uint32 amount_of_chunks.
Hypothesis remaining_in_range :
  0 <= remaining_segment_file_size <= INT64_MAX.
Hypothesis chunk_size_in_range :
  MediaValues.chunk_size media_values + 16 <= UINT32_MAX.

Local Abbreviation cost := (per_chunk_size media_values ewf_format).
Local Abbreviation chunks :=
  (maximum_chunks remaining_segment_file_size media_values ewf_format).
Local Abbreviation sections :=
  (required_sections remaining_segment_file_size
     maximum_section_amount_of_chunks media_values ewf_format
     unrestrict_offset_amount).
Local Abbreviation overhead :=
  (reserved_overhead remaining_segment_file_size
     maximum_section_amount_of_chunks media_values format ewf_format
     unrestrict_offset_amount).

Hypothesis overhead_in_range : overhead <= remaining_segment_file_size.

Lemma cost_positive : 4 <= cost <= UINT32_MAX.
Proof.
  destruct media_typed as (_ & Hsize & _).
  unfold per_chunk_size. case_decide; unfold_limits; lia.
Qed.

Lemma chunks_bounds : 0 <= chunks /\ 4 * chunks <= remaining_segment_file_size.
Proof.
  pose proof cost_positive as Hcost.
  unfold maximum_chunks.
  rewrite Z.quot_div_nonneg by lia.
  pose proof (Z.div_pos remaining_segment_file_size cost).
  pose proof (Z.mul_div_le remaining_segment_file_size cost). nia.
Qed.

Lemma sections_bounds : 0 <= sections <= UINT32_MAX.
Proof.
  pose proof chunks_bounds as [Hchunks _].
  unfold required_sections.
  destruct (unrestrict_offset_amount =? 0); [| unfold_limits; lia].
  pose proof (Z.rem_bound_pos chunks maximum_section_amount_of_chunks).
  unfold_limits. lia.
Qed.

(** Within the range of its arithmetic,
    [libewf_write_io_handle_calculate_chunks_per_segment] returns 1 and
    stores the estimate of the specification. *)
Lemma calculate_chunks_per_segment_in_range :
  libewf_write_io_handle_calculate_chunks_per_segment
    (Some chunks_per_segment) remaining_segment_file_size
    maximum_section_amount_of_chunks segment_amount_of_chunks
    amount_of_chunks (Some media_values) format ewf_format
    unrestrict_offset_amount
  = Returned
      (1, u32 (chunks_per_segment_estimate remaining_segment_file_size
                 maximum_section_amount_of_chunks segment_amount_of_chunks
                 amount_of_chunks media_values format ewf_format
                 unrestrict_offset_amount)).
Proof.
  pose proof cost_positive as Hcost.
  pose proof chunks_bounds as [Hchunks Hchunks4].
  pose proof sections_bounds as Hsections.
  destruct media_typed as (Hmedia & Hsize & Hamount).
  unfold libewf_write_io_handle_calculate_chunks_per_segment.
  rewrite (proj2 (Z.eqb_neq maximum_section_amount_of_chunks 0)) by lia.
  rewrite (s64_small remaining_segment_file_size) by (unfold_limits; lia).
  (* the maximum amount of chunks *)
  assert (Hfirst :
    (if decide (ewf_format = EWF_FORMAT_S01)
     then div_int64 remaining_segment_file_size
            (u32 (MediaValues.chunk_size media_values + 16))
     else div_assign_int64_size_t remaining_segment_file_size
            (u64 (MediaValues.chunk_size media_values + sizeof_ewf_crc_t)))
    = Returned chunks).
  { unfold maximum_chunks, per_chunk_size in *.
    case_decide.
    - rewrite u32_small by (unfold_limits; lia).
      apply div_int64_positive. unfold_limits. lia.
    - rewrite u64_small by (unfold_limits; lia).
      apply div_assign_int64_size_t_nonnegative; unfold_limits; lia. }
  rewrite Hfirst. cbn [mbind outcome_bind].
  (* the required chunk sections *)
  assert (Hsecond :
    (if unrestrict_offset_amount =? 0
     then rem_int64 chunks maximum_section_amount_of_chunks
     else mret 1)
    = Returned sections).
  { unfold required_sections.
    destruct (unrestrict_offset_amount =? 0);
      [by apply rem_int64_positive | reflexivity]. }
  rewrite Hsecond. cbn [mbind outcome_bind].
  (* the space left after the section starts and the table offsets *)
  assert (Hthird :
    (if decide (ewf_format = EWF_FORMAT_S01)
     then
       mret (sub_assign_int64_size_t
               (sub_assign_int64_size_t remaining_segment_file_size
                  (mul_int64_size_t sections sizeof_ewf_section_t))
               (mul_int64_size_t chunks sizeof_ewf_table_offset_t))
     else if decide (format = LIBEWF_FORMAT_ENCASE1)
     then
       mret (sub_assign_int64_size_t
               (sub_assign_int64_size_t remaining_segment_file_size
                  (mul_int64_size_t sections
                     (u64 (sizeof_ewf_section_t + sizeof_ewf_crc_t))))
               (mul_int64_size_t chunks sizeof_ewf_table_offset_t))
     else
       twice ← mul_int64 2 chunks;
       mret (sub_assign_int64_size_t
               (sub_assign_int64_size_t remaining_segment_file_size
                  (mul_int64_size_t sections
                     (u64 (u64 (3 * sizeof_ewf_section_t)
                           + u64 (2 * sizeof_ewf_crc_t)))))
               (mul_int64_size_t twice sizeof_ewf_table_offset_t)))
    = Returned (remaining_segment_file_size - overhead)).
  { pose proof overhead_in_range as Hoverhead.
    unfold reserved_overhead in *.
    change (u64 (sizeof_ewf_section_t + sizeof_ewf_crc_t)) with 80.
    change (u64 (u64 (3 * sizeof_ewf_section_t) + u64 (2 * sizeof_ewf_crc_t)))
      with 236.
    repeat case_decide.
    - rewrite !sub_assign_mul. unfold mret, outcome_ret. f_equal.
      rewrite (s64_small (_ - sections * _)) by (unfold_limits; lia).
      rewrite s64_small by (unfold_limits; lia). unfold_limits. lia.
    - rewrite !sub_assign_mul. unfold mret, outcome_ret. f_equal.
      rewrite (s64_small (_ - sections * _)) by (unfold_limits; lia).
      rewrite s64_small by (unfold_limits; lia). unfold_limits. lia.
    - rewrite mul_int64_in_range by (unfold_limits; lia).
      cbn [mbind outcome_bind].
      rewrite !sub_assign_mul. unfold mret, outcome_ret. f_equal.
      rewrite (s64_small (_ - sections * _)) by (unfold_limits; lia).
      rewrite s64_small by (unfold_limits; lia). unfold_limits. lia. }
  rewrite Hthird. cbn [mbind outcome_bind].
  (* the amount of chunks within this segment file *)
  set (estimate := (remaining_segment_file_size - overhead) `quot` cost).
  assert (Hestimate : 0 <= estimate /\ 4 * estimate <= remaining_segment_file_size).
  { pose proof overhead_in_range. subst estimate.
    assert (0 <= overhead).
    { unfold reserved_overhead.
      repeat case_decide; unfold_limits; lia. }
    rewrite Z.quot_div_nonneg by lia.
    pose proof (Z.div_pos (remaining_segment_file_size - overhead) cost).
    pose proof (Z.mul_div_le (remaining_segment_file_size - overhead) cost).
    nia. }
  assert (Hfourth :
    (if decide (ewf_format = EWF_FORMAT_S01)
     then div_int64 (remaining_segment_file_size - overhead)
            (u32 (MediaValues.chunk_size media_values + 16))
     else div_assign_int64_size_t (remaining_segment_file_size - overhead)
            (u64 (MediaValues.chunk_size media_values + sizeof_ewf_crc_t)))
    = Returned estimate).
  { pose proof overhead_in_range.
    assert (0 <= overhead).
    { unfold reserved_overhead.
      repeat case_decide; unfold_limits; lia. }
    subst estimate. unfold per_chunk_size in *. case_decide.
    - rewrite u32_small by (unfold_limits; lia).
      apply div_int64_positive. unfold_limits. lia.
    - rewrite u64_small by (unfold_limits; lia).
      apply div_assign_int64_size_t_nonnegative; unfold_limits; lia. }
  rewrite Hfourth. cbn [mbind outcome_bind].
  unfold chunks_per_segment_estimate.
  fold estimate.
  (* the clamp, the chunks already in the segment and the fail safe *)
  rewrite sub_int64_in_range by (unfold_limits; lia).
  destruct (0 <? MediaValues.media_size media_values);
    cbn [mbind outcome_bind mret outcome_ret];
    destruct (0 <? segment_amount_of_chunks) eqn:Hsegment; bool_to_prop;
    try rewrite add_int64_in_range
      by (repeat case_match; bool_to_prop; unfold_limits; lia);
    cbn [mbind outcome_bind mret outcome_ret]; do 3 f_equal;
    repeat case_match; bool_to_prop; unfold_limits; lia.
Qed.

End ChunksPerSegmentInRange.

(** C3: (1) an EnCase5 segment file with 100 bytes left, 32 KiB chunks,
    5 chunks in the segment and the section cap lifted.  No further chunk
    fits, so the specification estimates the 5 chunks that are there.
    The code reserves 236 bytes, is left with -136 and divides that by the
    [size_t] 32772 as 2^64 - 136: the estimate saturates at 2^32 - 1.
    (2) An EWF-S01 segment file of chunks of 4 294 967 280 bytes:
    [chunk_size + 16] wraps to 0 and the code divides by it. *)
Theorem calculate_chunks_per_segment_out_of_range :
  let media_of_32k_chunks :=
    {| MediaValues.media_size := 0;
       MediaValues.chunk_size := 32768;
       MediaValues.amount_of_chunks := 0 |} in
  let media_of_huge_chunks :=
    {| MediaValues.media_size := 0;
       MediaValues.chunk_size := 4294967280;
       MediaValues.amount_of_chunks := 0 |} in
  libewf_write_io_handle_calculate_chunks_per_segment (Some 0) 100 16375 5 5
    (Some media_of_32k_chunks) LIBEWF_FORMAT_ENCASE5 EWF_FORMAT_E01 1
  = Returned (1, 4294967295)
  /\ chunks_per_segment_estimate 100 16375 5 5 media_of_32k_chunks
       LIBEWF_FORMAT_ENCASE5 EWF_FORMAT_E01 1 = 5
  /\ libewf_write_io_handle_calculate_chunks_per_segment (Some 0)
       1000000000 16375 0 0 (Some media_of_huge_chunks) LIBEWF_FORMAT_SMART
       EWF_FORMAT_S01 0
     = Undefined.
Proof. repeat split; reflexivity. Qed.

(** ** The chunk processor *)

Lemma bind_returned {A B : Type} (m : outcome A) (k : A -> outcome B) b :
  m ≫= k = Returned b -> exists a, m = Returned a /\ k a = Returned b.
Proof. destruct m as [a | |]; [eauto | discriminate | discriminate]. Qed.

Lemma reject_returned failing e u :
  reject failing e = Returned u -> failing = false.
Proof. by destruct failing. Qed.

(** Invert a successful run of a sequence of steps, one step at a time:
    each step returned something, a rejection did not fire, and a tuple
    that was returned is split into its components. *)
Ltac split_tuple a :=
  repeat match type of a with
  | (_ * _)%type => let b := fresh "b" in destruct a as [a b]
  end.

Ltac invert_step H :=
  match type of H with
  | _ ≫= _ = Returned _ =>
      let a := fresh "a" in
      let Hstep := fresh "Hstep" in
      apply bind_returned in H as (a & Hstep & H);
      try (apply reject_returned in Hstep);
      split_tuple a; cbn beta iota in H
  end.

Ltac invert_returned H := repeat invert_step H.

(** A step that ended with [mret a]: name what it returned. *)
Ltac returned_eq H :=
  unfold mret, outcome_ret in H;
  let E := fresh "E" in injection H as E; subst.

Lemma read_bytes_returned m p offset size bytes :
  read_bytes m p offset size = Returned bytes ->
  exists b content,
    p = Some b /\ m !! b = Some content
    /\ 0 <= offset /\ 0 <= size
    /\ offset + size <= Z.of_nat (length content)
    /\ bytes = take (Z.to_nat size) (drop (Z.to_nat offset) content).
Proof.
  unfold read_bytes. intros H. repeat case_match; try discriminate.
  bool_to_prop. returned_eq H.
  eexists _, _. repeat split; [done | lia ..].
Qed.



Section ChunkProcessorProperties.

Context `{env : ChunkProcessorEnv}.

Variable media_values : libewf_media_values_t.
Variable ewf_format : ewf_format_t.
Variable chunk_data_size : Z.

(** How [store_chunk] decides, and what it leaves in the locals. *)
Lemma store_chunk_decides m chunk_cache chunk_data compressed_chunk_data
    compressed_chunk_data_size r :
  store_chunk media_values ewf_format chunk_data_size 0
    (m, chunk_cache, chunk_data, compressed_chunk_data,
     compressed_chunk_data_size) = Returned r ->
  Processed.compressed_chunk_data_size r = compressed_chunk_data_size
  /\ Processed.compressed_chunk_data r = compressed_chunk_data
  /\ Processed.chunk_cache r = chunk_cache
  /\ ((stored_compressed ewf_format compressed_chunk_data_size
         (MediaValues.chunk_size media_values)
       /\ Processed.is_compressed r = 1
       /\ Processed.chunk_data r = compressed_chunk_data)
      \/ (~ stored_compressed ewf_format compressed_chunk_data_size
              (MediaValues.chunk_size media_values)
          /\ Processed.is_compressed r = 0
          /\ Processed.chunk_data r = chunk_data)).
Proof.
  unfold store_chunk, stored_compressed. intros H.
  apply bind_returned in H as (compressed & Hdecision & H).
  assert (Hcompressed :
    compressed = true
    <-> (ewf_format = EWF_FORMAT_S01
         \/ exists size, compressed_chunk_data_size = Some size
                         /\ 0 < size < MediaValues.chunk_size media_values)).
  { destruct (decide (ewf_format = EWF_FORMAT_S01)) as [Hformat | Hformat].
    - rewrite bool_decide_eq_true_2 in Hdecision by done.
      returned_eq Hdecision. naive_solver.
    - rewrite bool_decide_eq_false_2 in Hdecision by done.
      destruct compressed_chunk_data_size as [size |]; [| discriminate].
      returned_eq Hdecision. split.
      + intros Htest. bool_to_prop. right. exists size. split; [done | lia].
      + intros [? | (size' & [= <-] & ?)]; [done |].
        apply andb_true_iff. split; [apply Z.ltb_lt | apply Z.ltb_lt]; lia. }
  destruct compressed.
  - destruct compressed_chunk_data_size as [size |]; [| discriminate].
    apply bind_returned in H as (crc_bytes & _ & H).
    returned_eq H. cbn. repeat split. left. repeat split.
    by apply Hcompressed.
  - assert (Hraw : ~ (ewf_format = EWF_FORMAT_S01
                      \/ exists size, compressed_chunk_data_size = Some size
                                      /\ 0 < size
                                           < MediaValues.chunk_size media_values)).
    { intros Hstored. by apply Hcompressed in Hstored. }
    apply bind_returned in H as (chunk_bytes & _ & H).
    case_bool_decide.
    + apply bind_returned in H as (m' & _ & H). returned_eq H.
      cbn. repeat split. by right.
    + returned_eq H. cbn. repeat split. by right.
Qed.


End ChunkProcessorProperties.

Section ChunkProcessorResults.

Context `{env : ChunkProcessorEnv}.

Variable m : memory.
Variable chunk_cache : option libewf_chunk_cache_t.
Variable media_values : libewf_media_values_t.
Variable compression_level : compression_level_t.
Variable compress_empty_block : Z.
Variable ewf_format : ewf_format_t.
Variable chunk_data : pointer.
Variable chunk_data_size : Z.
Variable compressed_chunk_data : pointer.
Variable compressed_chunk_data_size : option Z.
Variable is_compressed chunk_crc write_crc : option Z.

(** A successful call went through the three stages. *)
Lemma process_chunk_returned r :
  libewf_write_io_handle_process_chunk m chunk_cache (Some media_values)
    compression_level compress_empty_block ewf_format chunk_data
    chunk_data_size compressed_chunk_data compressed_chunk_data_size
    is_compressed chunk_crc write_crc = Returned r ->
  exists cache chunk_compression_level state,
    chunk_cache = Some cache
    /\ chunk_data_size <= MediaValues.chunk_size media_values
    /\ determine_compression_level m compression_level compress_empty_block
         chunk_data chunk_data_size = Returned chunk_compression_level
    /\ compress_chunk m cache ewf_format chunk_compression_level chunk_data
         chunk_data_size compressed_chunk_data compressed_chunk_data_size
       = Returned state
    /\ store_chunk media_values ewf_format chunk_data_size 0 state
       = Returned r.
Proof.
  unfold libewf_write_io_handle_process_chunk.
  destruct chunk_cache as [cache |]; [| discriminate].
  intros H. invert_returned H. bool_to_prop.
  eexists _, _, _. repeat split; [lia | done ..].
Qed.


(** How a successful call decides: it stores the chunk compressed
    ([is_compressed] is 1 and the output is taken from the compressed
    buffer) if and only if the format is EWF-S01 or
    [*compressed_chunk_data_size] is greater than 0 and smaller than the
    chunk size; otherwise it stores it raw ([is_compressed] is 0). *)
Theorem process_chunk_stores_compressed r :
  libewf_write_io_handle_process_chunk m chunk_cache (Some media_values)
    compression_level compress_empty_block ewf_format chunk_data
    chunk_data_size compressed_chunk_data compressed_chunk_data_size
    is_compressed chunk_crc write_crc = Returned r ->
  (Processed.is_compressed r = 1
   <-> stored_compressed ewf_format (Processed.compressed_chunk_data_size r)
         (MediaValues.chunk_size media_values))
  /\ (Processed.is_compressed r = 1 ->
      Processed.chunk_data r = Processed.compressed_chunk_data r)
  /\ (Processed.is_compressed r <> 1 -> Processed.is_compressed r = 0).
Proof.
  intros (cache & level & state & _ & _ & _ & _ & Hstore)%process_chunk_returned.
  destruct state as [[[[m' cache'] data'] compressed'] size'].
  apply store_chunk_decides in Hstore
    as (-> & -> & _ & [(? & Hflag & ?) | (? & Hflag & ?)]);
    rewrite Hflag; repeat split; done.
Qed.


End ChunkProcessorResults.

Section ChunkProcessorCompression.

Context `{env : ChunkProcessorEnv}.

(** A call of [libewf_compress] that returned 1 leaves the size of what
    the primitive produced in [*compressed_chunk_data_size]. *)
Lemma call_libewf_compress_succeeded m compressed_chunk_data capacity
    chunk_data chunk_data_size level result size m' :
  call_libewf_compress m compressed_chunk_data capacity chunk_data
    chunk_data_size level = Returned (result, size, m') ->
  result = 1 ->
  exists uncompressed out,
    libewf_compress uncompressed level capacity = CompressOk out
    /\ size = Z.of_nat (length out).
Proof.
  unfold call_libewf_compress. intros H ->.
  destruct compressed_chunk_data as [b |]; [| discriminate].
  apply bind_returned in H as (uncompressed & _ & H).
  destruct (libewf_compress uncompressed level capacity) as [out | size_after]
    eqn:Hcompress.
  - apply bind_returned in H as (m'' & _ & H). returned_eq H.
    by exists uncompressed, out.
  - discriminate.
Qed.

(** What the compression leaves in [*compressed_chunk_data_size]: the
    size of the compressed form when the chunk was compressed, and what
    the caller put there when it was not. *)
Lemma compress_chunk_size m cache ewf_format level chunk_data chunk_data_size
    compressed_chunk_data compressed_chunk_data_size m' cache' chunk_data'
    compressed_chunk_data' size' :
  compress_chunk m cache ewf_format level chunk_data chunk_data_size
    compressed_chunk_data compressed_chunk_data_size
  = Returned (m', cache', chunk_data', compressed_chunk_data', size') ->
  (ewf_format = EWF_FORMAT_S01 \/ level <> EWF_COMPRESSION_NONE ->
   exists uncompressed capacity out,
     libewf_compress uncompressed level capacity = CompressOk out
     /\ size' = Some (Z.of_nat (length out)))
  /\ (ewf_format <> EWF_FORMAT_S01 -> level = EWF_COMPRESSION_NONE ->
      size' = compressed_chunk_data_size /\ m' = m).
Proof.
  unfold compress_chunk. intros H.
  destruct (bool_decide (ewf_format = EWF_FORMAT_S01)
            || negb (bool_decide (level = EWF_COMPRESSION_NONE)))
    eqn:Hattempted.
  - split.
    + intros _.
      do 2 invert_step H.
      destruct compressed_chunk_data_size as [capacity |]; [| discriminate].
      invert_step H.
      apply bind_returned in H as (first & Hfirst & H).
      destruct first as [[result size] m1].
      apply bind_returned in H as (resized & Hresize & H).
      destruct resized as [[[[[result' size''] m''] cache''] data''] compressed''].
      invert_step H. returned_eq H.
      apply negb_false_iff, Z.eqb_eq in Hstep2.
      case_match eqn:Hretry; [| returned_eq Hresize].
      * destruct (libewf_chunk_cache_resize _ _ _) as [[cache2 m2] |];
          [| discriminate].
        apply bind_returned in Hresize as (second & Hsecond & Hresize).
        destruct second as [[result2 size2] m3]. returned_eq Hresize.
        destruct (call_libewf_compress_succeeded _ _ _ _ _ _ _ _ _ Hsecond
                    eq_refl) as (uncompressed & out & ? & ->).
        by eexists _, _, _.
      * destruct (call_libewf_compress_succeeded _ _ _ _ _ _ _ _ _ Hfirst
                    eq_refl) as (uncompressed & out & ? & ->).
        by eexists _, _, _.
    + intros Hformat ->.
      rewrite bool_decide_eq_false_2 in Hattempted by done.
      by rewrite bool_decide_eq_true_2 in Hattempted.
  - returned_eq H. split; [| done].
    apply orb_false_iff in Hattempted as [Hformat Hlevel].
    apply bool_decide_eq_false in Hformat.
    apply negb_false_iff, bool_decide_eq_true in Hlevel.
    intros [? | ?]; done.
Qed.

Variable m : memory.
Variable chunk_cache : option libewf_chunk_cache_t.
Variable media_values : libewf_media_values_t.
Variable compression_level : compression_level_t.
Variable compress_empty_block : Z.
Variable ewf_format : ewf_format_t.
Variable chunk_data : pointer.
Variable chunk_data_size : Z.
Variable compressed_chunk_data : pointer.
Variable compressed_chunk_data_size : option Z.
Variable is_compressed chunk_crc write_crc : option Z.

(** Where the chunk is compressed and its compressed form is not empty,
    the function decides as the specification does.  Where the chunk is
    not compressed, the function takes what the caller left in
    [*compressed_chunk_data_size], the capacity of the compressed buffer,
    for the size of a compressed form: it stores the chunk compressed when
    that capacity is above 0 and below the chunk size. *)
Lemma process_chunk_stores_compressed_in_range r level :
  libewf_write_io_handle_process_chunk m chunk_cache (Some media_values)
    compression_level compress_empty_block ewf_format chunk_data
    chunk_data_size compressed_chunk_data compressed_chunk_data_size
    is_compressed chunk_crc write_crc = Returned r ->
  determine_compression_level m compression_level compress_empty_block
    chunk_data chunk_data_size = Returned level ->
  (ewf_format = EWF_FORMAT_S01 \/ level <> EWF_COMPRESSION_NONE ->
   exists uncompressed capacity out,
     libewf_compress uncompressed level capacity = CompressOk out
     /\ Processed.compressed_chunk_data_size r = Some (Z.of_nat (length out))
     /\ (out <> [] ->
         Processed.is_compressed r = 1
         <-> stored_compressed_as_specified ewf_format
               (Some (Z.of_nat (length out)))
               (MediaValues.chunk_size media_values)))
  /\ (ewf_format <> EWF_FORMAT_S01 -> level = EWF_COMPRESSION_NONE ->
      Processed.compressed_chunk_data_size r = compressed_chunk_data_size
      /\ (Processed.is_compressed r = 1
          <-> exists capacity,
                compressed_chunk_data_size = Some capacity
                /\ 0 < capacity < MediaValues.chunk_size media_values)).
Proof.
  intros Hreturned Hlevel.
  pose proof (process_chunk_stores_compressed _ _ _ _ _ _ _ _ _ _ _ _ _ _
                Hreturned) as (Hdecides & _ & _).
  apply process_chunk_returned in Hreturned
    as (cache & level' & state & _ & _ & Hlevel' & Hcompress & Hstore).
  rewrite Hlevel in Hlevel'. injection Hlevel' as <-.
  destruct state as [[[[m' cache'] data'] compressed'] size'].
  pose proof (compress_chunk_size _ _ _ _ _ _ _ _ _ _ _ _ _ Hcompress)
    as [Hattempted Hskipped].
  pose proof (store_chunk_decides _ _ _ _ _ _ _ _ _ Hstore)
    as (Hsize & _ & _ & _).
  split.
  - intros Hcompressed.
    destruct (Hattempted Hcompressed) as (uncompressed & capacity & out & ? & ->).
    exists uncompressed, capacity, out. split; [done |]. split; [done |].
    intros Hout. rewrite Hdecides, Hsize.
    unfold stored_compressed, stored_compressed_as_specified.
    assert (0 < Z.of_nat (length out)) by (destruct out; [done | simpl; lia]).
    split; (intros [? | (size & [= <-] & ?)]; [by left | right]);
      eexists; (split; [done | lia]).
  - intros Hformat Hnone. destruct (Hskipped Hformat Hnone) as [-> ->].
    split; [done |]. rewrite Hdecides, Hsize. unfold stored_compressed.
    split; [intros [? | ?]; done | by right].
Qed.

End ChunkProcessorCompression.

(** C1: an EWF-E01 chunk of 64 bytes "A" in a buffer of the caller, at
    compression level none and without the compression of empty blocks,
    with a compressed buffer of 16 bytes.  The chunk is not compressed:
    the level stays none and, whatever the compression primitive would
    do, nothing is written to the compressed buffer.  The specification
    stores such a chunk raw.  The function finds the capacity 16 of the
    compressed buffer in [*compressed_chunk_data_size], takes it for a
    compressed size smaller than the chunk size and stores the chunk
    compressed: [is_compressed] is 1, the 16 bytes to write are those of
    the compressed buffer, and the CRC is read from its last 4 bytes. *)
Theorem process_chunk_takes_capacity_for_compressed_size
    (env : ChunkProcessorEnv) :
  let m := example_memory (replicate 64 65) [] in
  determine_compression_level m EWF_COMPRESSION_NONE 0 (Some 1%nat) 64
  = Returned EWF_COMPRESSION_NONE
  /\ (fun r =>
        (Processed.is_compressed r, Processed.chunk_data r,
         Processed.data_write_size r, Processed.chunk_crc r,
         Processed.chunk_memory r))
     <$> libewf_write_io_handle_process_chunk m (Some example_chunk_cache)
           (Some (media_of_chunk_size 64)) EWF_COMPRESSION_NONE 0
           EWF_FORMAT_E01 (Some 1%nat) 64 (Some 2%nat) (Some 16) (Some 0)
           (Some 0) (Some 0)
     = Returned (1, Some 2%nat, 16, 0, m)
  /\ ~ stored_compressed_as_specified EWF_FORMAT_E01 None
        (MediaValues.chunk_size (media_of_chunk_size 64)).
Proof.
  split; [reflexivity |]. split.
  - destruct env as [compress resize crc big_endian].
    by destruct big_endian.
  - intros [[=] | (size & [=] & _)].
Qed.


(** ** Empty blocks *)



Section EmptyBlocks.

Context `{env : ChunkProcessorEnv}.

Variable m : memory.
Variable chunk_cache : option libewf_chunk_cache_t.
Variable media_values : libewf_media_values_t.
Variable ewf_format : ewf_format_t.
Variable block_of_chunk : block.
Variable content : list Z.
Variable chunk_data_size : Z.
Variable compressed_chunk_data : pointer.
Variable compressed_chunk_data_size : option Z.
Variable is_compressed chunk_crc write_crc : option Z.

(** A chunk of one byte is never compressed, whatever the compressor,
    unless the format is EWF-S01: no compressed size lies between 0 and
    1. *)
Lemma chunk_of_one_byte_stays_raw compression_level compress_empty_block r :
  MediaValues.chunk_size media_values = 1 ->
  ewf_format <> EWF_FORMAT_S01 ->
  libewf_write_io_handle_process_chunk m chunk_cache (Some media_values)
    compression_level compress_empty_block ewf_format (Some block_of_chunk)
    chunk_data_size compressed_chunk_data compressed_chunk_data_size
    is_compressed chunk_crc write_crc = Returned r ->
  Processed.is_compressed r = 0.
Proof.
  intros Hone Hformat
    (cache & level & state & _ & _ & _ & _ & Hstore)%process_chunk_returned.
  destruct state as [[[[m' cache'] data'] compressed'] size'].
  apply store_chunk_decides in Hstore
    as (_ & _ & _ & [(Hstored & _) | (_ & Hflag & _)]); [| done].
  destruct Hstored as [? | (size & _ & ?)]; [done | lia].
Qed.


End EmptyBlocks.



(** ** Initialising the write io handle *)

(** Unfold the steps of a writer down to the calls it makes. *)
Ltac unfold_writer :=
  unfold with_write_io_handle, require, array_read, dereference,
    call_internal;
  unfold do_call, fail, fail_silently, lift, get, modify;
  unfold mbind, writer_bind, mret, writer_ret;
  cbn [then_program map_state run fst snd is_null].

(** C10: called with a valid parameter and [*write_io_handle] [NULL],
    [libewf_write_io_handle_initialize] never fails for insufficient
    memory: the test after [memory_allocate] reads the parameter.  When
    the allocation answers [NULL], the next thing the function does is
    the call of [memory_set] with the destination [NULL]; it then fails
    for the set, if [memory_set] answers [NULL], or writes through
    [NULL]. *)
Theorem initialize_ignores_failed_allocation (w : world) :
  let size := sizeof_libewf_write_io_handle_t in
  let initialize := libewf_write_io_handle_initialize (Some None) () in
  run_outcome w initialize <> Failed (Some LIBERROR_MEMORY_ERROR_INSUFFICIENT)
  /\ (w 0%nat _ (memory_allocate size) = None ->
      exists rest,
        run_trace w initialize
        = Event (memory_allocate size) None
          :: Event (memory_set None 0 size)
               (w 1%nat _ (memory_set None 0 size)) :: rest
        /\ (run_outcome w initialize
            = Failed (Some LIBERROR_MEMORY_ERROR_SET_FAILED)
            \/ run_outcome w initialize = Undefined)).
Proof.
  intros size initialize. subst initialize size.
  unfold run_outcome, run_trace, libewf_write_io_handle_initialize.
  unfold_writer.
  destruct (w 0%nat _ (memory_allocate _)) as [address |] eqn:Hallocated;
    destruct (w 1%nat _ (memory_set _ 0 _)) as [cleared |] eqn:Hcleared;
    cbn [then_program run fst snd is_null].
  - split; [discriminate | discriminate].
  - split; [discriminate | discriminate].
  - split; [discriminate |]. intros _. eexists. split; [reflexivity |].
    by right.
  - split; [discriminate |]. intros _. eexists. split; [reflexivity |].
    by left.
Qed.

(** C10, witness: with no memory left and a [memory_set] that answers
    its destination, the function calls [memory_set] on [NULL] and fails
    for the set. *)
Lemma initialize_ignores_failed_allocation_witness :
  exists rest,
    run_trace exhausted_world (libewf_write_io_handle_initialize (Some None) ())
    = Event (memory_allocate sizeof_libewf_write_io_handle_t) None
      :: Event (memory_set None 0 sizeof_libewf_write_io_handle_t) None
      :: rest
    /\ (run_outcome exhausted_world
          (libewf_write_io_handle_initialize (Some None) ())
        = Failed (Some LIBERROR_MEMORY_ERROR_SET_FAILED)
        \/ run_outcome exhausted_world
             (libewf_write_io_handle_initialize (Some None) ())
           = Undefined).
Proof.
  apply (proj2 (initialize_ignores_failed_allocation exhausted_world)).
  reflexivity.
Defined.

(** ** Writing a new chunk *)

Section WriteNewChunkRejections.

Variable write_io_handle : libewf_write_io_handle_t.
Variable io_handle : libewf_io_handle_t.
Variable media_values : libewf_media_values_t.
Variable offset_table : libewf_offset_table_t.
Variable segment_table : libewf_segment_table_t.
Variable segment_file_handles : list (option libewf_segment_file_handle_t).
Variable header_values : option nat.
Variable hash_values : option nat.
Variable header_sections : option libewf_header_sections_t.
Variable hash_sections sessions acquiry_errors : option nat.
Variable chunk : Z.
Variable chunk_buffer : pointer.
Variable chunk_size chunk_data_size is_compressed chunk_crc write_crc : Z.

Local Abbreviation write_new_chunk :=
  (libewf_write_io_handle_write_new_chunk (Some write_io_handle)
     (Some io_handle) (Some media_values) (Some offset_table)
     (Some segment_table) (Some header_values) hash_values header_sections
     hash_sections sessions acquiry_errors chunk chunk_buffer chunk_size
     chunk_data_size is_compressed chunk_crc write_crc).

Local Abbreviation resize :=
  (libewf_offset_table_resize offset_table
     (MediaValues.amount_of_chunks media_values)).

(** C8, as the code orders the tests: with every argument given and the
    segment file handles of the segment table present, a chunk that the
    offset table already holds a segment file handle for makes the
    function fail with "value already set", with no call made and
    [*write_io_handle] as it was, also when the write was finalized; for a
    chunk that is not set, a finalized write makes it return 0 with no
    call made; and for a chunk that is not set and a write that is not
    finalized, a chunk buffer, a chunk size within bounds, a media size
    other than 0 and at most the bytes of input written make it return 0
    with [*write_io_handle] as it was, after the resize of the offset
    table where that has fewer entries than the media has chunks, unless
    the resize fails. *)
Theorem write_new_chunk_rejects
    (Hhandles : SegmentTable.segment_file_handle segment_table
                = Some segment_file_handles) :
  (chunk_is_set offset_table chunk = Returned true ->
   write_new_chunk
   = Stop (Failed (Some LIBERROR_RUNTIME_ERROR_VALUE_ALREADY_SET))
       (Some write_io_handle))
  /\ (chunk_is_set offset_table chunk = Returned false ->
      WriteIoHandle.write_finalized write_io_handle = 1 ->
      write_new_chunk = Stop (Returned 0) (Some write_io_handle))
  /\ (chunk_is_set offset_table chunk = Returned false ->
      WriteIoHandle.write_finalized write_io_handle <> 1 ->
      chunk_buffer <> None ->
      0 < chunk_size <= SSIZE_MAX ->
      MediaValues.media_size media_values <> 0 ->
      s64 (MediaValues.media_size media_values)
      <= WriteIoHandle.input_write_count write_io_handle ->
      forall w : world,
        run w 0 write_new_chunk
        = if OffsetTable.amount_of_chunk_offsets offset_table
             <? MediaValues.amount_of_chunks media_values
          then
            let answer := w 0%nat _ resize in
            ([Event resize answer],
             if answer =? 1 then Returned 0
             else Failed (Some LIBERROR_RUNTIME_ERROR_RESIZE_FAILED),
             Some write_io_handle)
          else ([], Returned 0, Some write_io_handle)).
Proof.
  unfold libewf_write_io_handle_write_new_chunk. unfold_writer.
  rewrite Hhandles. unfold write_new_chunk_checked. unfold_writer.
  split; [| split].
  - intros ->. reflexivity.
  - intros -> ->. reflexivity.
  - intros -> Hopen Hbuffer Hsize Hmedia Hwritten w.
    cbn [then_program map_state].
    destruct (WriteIoHandle.write_finalized write_io_handle =? 1) eqn:Hfinal;
      [lia |].
    destruct chunk_buffer as [buffer |]; [| done].
    assert ((chunk_size =? 0) = false) as Hzero by lia.
    assert ((SSIZE_MAX <? chunk_size) = false) as Hmaximum by lia.
    assert (negb (MediaValues.media_size media_values =? 0)
            && (s64 (MediaValues.media_size media_values)
                <=? WriteIoHandle.input_write_count write_io_handle) = true)
      as Hdone.
    { apply andb_true_intro. split; [apply negb_true_iff |]; lia. }
    destruct (OffsetTable.amount_of_chunk_offsets offset_table
              <? MediaValues.amount_of_chunks media_values);
      cbn [then_program map_state run is_null].
    + destruct (w 0%nat Z resize =? 1); cbn [negb then_program map_state run];
        [| done].
      rewrite Hzero, Hmaximum, Hdone. reflexivity.
    + rewrite Hzero, Hmaximum, Hdone. reflexivity.
Qed.

End WriteNewChunkRejections.

Lemma write_new_chunk_rejects_witness :
  libewf_write_io_handle_write_new_chunk (Some finalized_write_io_handle)
    (Some example_io_handle) (Some media_of_one_chunk)
    (Some offset_table_of_one_chunk) (Some segment_table_of_one_file)
    (Some (Some 5%nat)) None None None None None 0 (Some 1%nat) 65536 65536 0
    0 1
  = Stop (Failed (Some LIBERROR_RUNTIME_ERROR_VALUE_ALREADY_SET))
      (Some finalized_write_io_handle)
  /\ libewf_write_io_handle_write_new_chunk (Some finalized_write_io_handle)
       (Some example_io_handle) (Some media_of_one_chunk)
       (Some offset_table_of_one_chunk) (Some segment_table_of_one_file)
       (Some (Some 5%nat)) None None None None None 1 (Some 1%nat) 65536
       65536 0 0 1
     = Stop (Returned 0) (Some finalized_write_io_handle)
  /\ run obliging_world 0
       (libewf_write_io_handle_write_new_chunk
          (Some (WriteIoHandle.set_input_write_count 65536
                   initial_write_io_handle))
          (Some example_io_handle) (Some media_of_one_chunk)
          (Some offset_table_of_one_chunk) (Some segment_table_of_one_file)
          (Some (Some 5%nat)) None None None None None 1 (Some 1%nat) 65536
          65536 0 0 1)
     = ([], Returned 0,
        Some (WriteIoHandle.set_input_write_count 65536
                initial_write_io_handle)).
Proof.
  split; [| split].
  - apply (write_new_chunk_rejects finalized_write_io_handle
             example_io_handle media_of_one_chunk offset_table_of_one_chunk
             segment_table_of_one_file [None; Some primary_segment_file]);
      reflexivity.
  - apply (write_new_chunk_rejects finalized_write_io_handle
             example_io_handle media_of_one_chunk offset_table_of_one_chunk
             segment_table_of_one_file [None; Some primary_segment_file]);
      reflexivity.
  - apply (write_new_chunk_rejects
             (WriteIoHandle.set_input_write_count 65536
                initial_write_io_handle)
             example_io_handle media_of_one_chunk offset_table_of_one_chunk
             segment_table_of_one_file [None; Some primary_segment_file]
             (Some 5%nat) None None None None None 1 (Some 1%nat) 65536
             65536 0 0 1 eq_refl);
      [reflexivity | discriminate | discriminate | by vm_compute
      | discriminate | by vm_compute].
Defined.

(** The write was finalized and the chunk is set: the function fails,
    it does not return 0. *)
Lemma write_new_chunk_rejects_counterexample :
  WriteIoHandle.write_finalized finalized_write_io_handle = 1
  /\ libewf_write_io_handle_write_new_chunk (Some finalized_write_io_handle)
       (Some example_io_handle) (Some media_of_one_chunk)
       (Some offset_table_of_one_chunk) (Some segment_table_of_one_file)
       (Some (Some 5%nat)) None None None None None 0 (Some 1%nat) 65536
       65536 0 0 1
     = Stop (Failed (Some LIBERROR_RUNTIME_ERROR_VALUE_ALREADY_SET))
         (Some finalized_write_io_handle).
Proof. split; reflexivity. Qed.

(** ** Writing an existing chunk: the delta append path *)

(** The run goes as expected: by cases on the answer to the next call of
    the run, or on the sum of the bytes written. *)
Ltac follow_expected w :=
  repeat (cbn [negb then_program map_state run Z.eqb fst snd];
          first
            [ reflexivity
            | match goal with
              | |- ?actual = _ =>
                  match actual with
                  | context [match ?x with _ => _ end] =>
                      match x with
                      | w _ _ _ => destruct x as [? ?]
                      | (_ =? -1) => destruct x
                      | negb (?result =? 1) => destruct (result =? 1)
                      | add_int64 _ _ => destruct x
                      end
                  end
              end ]).

Section DeltaAppendPath.

Variable sizeof_ewfx_delta_chunk_header_t : Z.
Variable write_io_handle : libewf_write_io_handle_t.
Variable io_handle : libewf_io_handle_t.
Variable media_values : libewf_media_values_t.
Variable offset_table : libewf_offset_table_t.
Variable delta_segment_table : libewf_segment_table_t.
Variable header_sections : option libewf_header_sections_t.
Variable chunk : Z.
Variable chunk_buffer : block.
Variable chunk_size chunk_data_size chunk_crc write_crc : Z.

(** The entry of the chunk in the offset table and the segment file that
    holds the chunk. *)
Variable chunk_offset : list OffsetTable.libewf_chunk_offset_t.
Variable entry : OffsetTable.libewf_chunk_offset_t.
Variable owner : libewf_segment_file_handle_t.
(** The last delta segment file, its section list and the descriptor of
    its last section, the terminator. *)
Variable delta_segment_file_handles
  : list (option libewf_segment_file_handle_t).
Variable segment_file_handle : libewf_segment_file_handle_t.
Variable section_list : SectionList.libewf_list_t.
Variable last_list_element : SectionList.libewf_list_element_t.
Variable last_values : SectionList.libewf_section_list_values_t.

Local Abbreviation segment_number :=
  (SegmentTable.amount delta_segment_table - 1).
Local Abbreviation last_section_start_offset :=
  (SectionList.start_offset last_values).
Local Abbreviation write_existing_chunk :=
  (libewf_write_io_handle_write_existing_chunk
     sizeof_ewfx_delta_chunk_header_t (Some write_io_handle) (Some io_handle)
     (Some media_values) (Some offset_table) (Some delta_segment_table)
     header_sections chunk (Some chunk_buffer) chunk_size chunk_data_size 0
     chunk_crc write_crc).

Hypothesis Hoffsets : OffsetTable.chunk_offset offset_table = Some chunk_offset.
Hypothesis Hchunk :
  0 <= chunk < OffsetTable.amount_of_chunk_offsets offset_table.
Hypothesis Hentry : chunk_offset !! Z.to_nat chunk = Some entry.
Hypothesis Howner : OffsetTable.segment_file_handle entry = Some owner.
Hypothesis Hprimary :
  SegmentFileHandle.file_type owner <> LIBEWF_SEGMENT_FILE_TYPE_DWF.
Hypothesis Hhandles :
  SegmentTable.segment_file_handle delta_segment_table
  = Some delta_segment_file_handles.
Hypothesis Hamount : 2 <= SegmentTable.amount delta_segment_table <= UINT16_MAX.
Hypothesis Hlast :
  delta_segment_file_handles !! Z.to_nat segment_number
  = Some (Some segment_file_handle).
Hypothesis Hlist :
  SegmentFileHandle.section_list segment_file_handle = Some section_list.
Hypothesis Hterminator : SectionList.last section_list = Some last_list_element.
Hypothesis Hvalues : SectionList.value last_list_element = Some last_values.
Hypothesis Hsize : 0 < chunk_size.
Hypothesis Hstart : 0 <= last_section_start_offset.
Hypothesis Hend :
  last_section_start_offset + chunk_size + sizeof_ewf_crc_t
  + sizeof_ewf_section_t <= INT64_MAX.
Hypothesis Hfile :
  0 <= WriteIoHandle.segment_file_size write_io_handle <= INT64_MAX.

Lemma delta_chunk_end_offset_in_range :
  delta_chunk_end_offset chunk_size last_section_start_offset
  = last_section_start_offset + chunk_size + sizeof_ewf_crc_t
    + sizeof_ewf_section_t.
Proof.
  unfold delta_chunk_end_offset.
  revert Hend. unfold sizeof_ewf_crc_t, sizeof_ewf_section_t. intros Hend'.
  assert (INT64_MAX < UINT64_MAX) by (unfold_limits; lia).
  rewrite (u64_small last_section_start_offset) by lia.
  rewrite (u64_small (_ + chunk_size)) by lia.
  rewrite (u64_small (_ + 4)) by lia.
  rewrite (u64_small (_ + 76)) by lia.
  apply s64_small. unfold_limits. lia.
Qed.

(** C9: on the delta append path (the chunk is held by a segment file
    that is not a delta segment file, and the delta segment table has a
    last delta segment file with a terminator in its section list), in
    every world the run of the function is the run expected: the offset
    is asked for and the start of the terminator sought when the file
    stands elsewhere; then, when the start of the terminator plus
    [chunk_size], the size of the CRC and the size of a section header
    exceeds [segment_file_size], a last section that is not the last of
    the image is written into the existing delta segment file, a new
    delta segment file is created, and its start, the delta chunk and a
    last section are written into the segment file that the creation
    answered; otherwise the descriptor of the terminator is removed from
    the section list and freed, and the delta chunk and a last section
    are written into the existing file.  The function fails at the first
    call that fails, with the error of that call and without a further
    call (but for the release of the descriptor, which comes before the
    failure of the release of its values is looked at); otherwise it
    returns the sum of the bytes written. *)
Theorem write_existing_chunk_appends_delta (w : world) :
  run w 0 write_existing_chunk
  = expected_delta_append w write_io_handle io_handle media_values
      offset_table delta_segment_table header_sections chunk
      (Some chunk_buffer) chunk_size chunk_crc write_crc segment_file_handle
      segment_number section_list last_list_element
      last_section_start_offset.
Proof.
  unfold libewf_write_io_handle_write_existing_chunk.
  unfold_writer. rewrite Hoffsets. unfold_writer. rewrite Hhandles.
  unfold_writer. unfold write_existing_chunk_checked. unfold_writer.
  assert ((OffsetTable.amount_of_chunk_offsets offset_table <=? chunk) = false)
    as -> by lia.
  assert ((chunk_size =? 0) = false) as -> by lia.
  assert ((SSIZE_MAX <? chunk_size) = false) as ->.
  { revert Hend. unfold sizeof_ewf_crc_t, sizeof_ewf_section_t. unfold_limits.
    lia. }
  cbn [then_program Z.eqb negb]. rewrite Hentry. cbn [then_program].
  rewrite Howner. cbn [then_program].
  rewrite (bool_decide_eq_false_2 _ Hprimary). cbn [negb].
  unfold append_to_delta_segment_files.
  rewrite (u16_small segment_number) by lia.
  assert (u16 (segment_number + 1) = segment_number + 1) as ->
    by (apply u16_small; lia).
  assert ((SegmentTable.amount delta_segment_table <? segment_number) = false)
    as -> by lia.
  assert ((segment_number =? 0) = false) as -> by lia.
  unfold_writer. cbn [negb]. rewrite Hlast. cbn [then_program].
  unfold reuse_last_delta_segment_file. unfold_writer.
  rewrite Hlist. cbn [then_program]. rewrite Hterminator. cbn [then_program].
  rewrite Hvalues. cbn [then_program map_state run].
  rewrite delta_chunk_end_offset_in_range.
  unfold expected_delta_append, expected_new_delta_segment_file,
    expected_delta_chunk, expect, counting, failing.
  rewrite ?Hvalues.
  destruct (w 0%nat _ (libbfio_pool_get_offset _ _))
    as [result segment_file_offset].
  cbn [fst snd].
  destruct (result =? 1); cbn [negb then_program map_state run];
    [| reflexivity].
  destruct (segment_file_offset =? last_section_start_offset);
    cbn [negb then_program map_state run Z.eqb];
    [| destruct (w 1%nat _ (libbfio_pool_seek_offset _ _ _) =? -1);
       cbn [then_program map_state run]; [reflexivity |]].
  all: rewrite (s64_small (WriteIoHandle.segment_file_size write_io_handle))
    by (unfold_limits; lia).
  all: destruct (WriteIoHandle.segment_file_size write_io_handle <? _).
  all: follow_expected w.

Qed.

End DeltaAppendPath.

(** C9, witness: chunk 0 of a primary segment file is written again
    when the last delta segment file ends in a terminator at offset 500
    and the file stands at offset 1000.  With segment files of 1000 bytes
    the chunk of 64 KiB does not fit: the existing file gets a last section
    "next" and the chunk goes into the delta segment file created.  When
    the creation fails, the run ends there.  With the default segment file
    size the chunk is written over the terminator. *)
Lemma write_existing_chunk_appends_delta_witness :
  run obliging_world 0
    (libewf_write_io_handle_write_existing_chunk 18
       (Some write_io_handle_of_small_segment_files)
       (Some example_io_handle) (Some media_of_one_chunk)
       (Some offset_table_of_one_chunk)
       (Some delta_segment_table_of_one_file) None 0 (Some 1%nat)
       65536 65536 0 0 1)
  = ([ Event (libbfio_pool_get_offset (Some 7%nat) 2) (1, 1000);
       Event (libbfio_pool_seek_offset (Some 7%nat) 2 500) 500;
       Event (libewf_segment_file_write_last_section (Some delta_segment_file)
                example_io_handle 0) 100;
       Event (libewf_segment_table_create_segment_file
                delta_segment_table_of_one_file 2 example_io_handle 0
                LIBEWF_SEGMENT_FILE_TYPE_DWF)
         (1, Some created_segment_file);
       Event (libewf_segment_file_write_start (Some created_segment_file)
                example_io_handle 2 LIBEWF_SEGMENT_FILE_TYPE_DWF
                media_of_one_chunk None None)
         (100, None);
       Event (libewf_segment_file_write_delta_chunk
                (Some created_segment_file) example_io_handle
                offset_table_of_one_chunk 0 (Some 1%nat) 65536 0 1 0) 100;
       Event (libewf_segment_file_write_last_section
                (Some created_segment_file) example_io_handle 1) 100 ],
     Returned 400, Some write_io_handle_of_small_segment_files)
  /\ run (world_failing_at 3) 0
       (libewf_write_io_handle_write_existing_chunk 18
          (Some write_io_handle_of_small_segment_files)
          (Some example_io_handle) (Some media_of_one_chunk)
          (Some offset_table_of_one_chunk)
          (Some delta_segment_table_of_one_file) None 0 (Some 1%nat)
          65536 65536 0 0 1)
     = ([ Event (libbfio_pool_get_offset (Some 7%nat) 2) (1, 1000);
          Event (libbfio_pool_seek_offset (Some 7%nat) 2 500) 500;
          Event (libewf_segment_file_write_last_section
                   (Some delta_segment_file) example_io_handle 0) 100;
          Event (libewf_segment_table_create_segment_file
                   delta_segment_table_of_one_file 2 example_io_handle 0
                   LIBEWF_SEGMENT_FILE_TYPE_DWF)
            (-1, None) ],
        Failed (Some LIBERROR_IO_ERROR_OPEN_FAILED),
        Some write_io_handle_of_small_segment_files)
  /\ run obliging_world 0
       (libewf_write_io_handle_write_existing_chunk 18
          (Some initial_write_io_handle) (Some example_io_handle)
          (Some media_of_one_chunk) (Some offset_table_of_one_chunk)
          (Some delta_segment_table_of_one_file) None 0 (Some 1%nat)
          65536 65536 0 0 1)
     = ([ Event (libbfio_pool_get_offset (Some 7%nat) 2) (1, 1000);
          Event (libbfio_pool_seek_offset (Some 7%nat) 2 500) 500;
          Event (libewf_list_remove_element
                   {| SectionList.last := Some terminator_descriptor |}
                   terminator_descriptor) 1;
          Event (libewf_section_list_values_free
                   (Some {| SectionList.start_offset := 500 |})) 1;
          Event (memory_free (list_element_object terminator_descriptor)) ();
          Event (libewf_segment_file_write_delta_chunk
                   (Some delta_segment_file) example_io_handle
                   offset_table_of_one_chunk 0 (Some 1%nat) 65536 0 1 0) 100;
          Event (libewf_segment_file_write_last_section
                   (Some delta_segment_file) example_io_handle 1) 100 ],
        Returned 200, Some initial_write_io_handle).
Proof.
  split; [| split].
  - apply (write_existing_chunk_appends_delta 18
             write_io_handle_of_small_segment_files example_io_handle
             media_of_one_chunk offset_table_of_one_chunk
             delta_segment_table_of_one_file None 0 1%nat 65536 65536 0 1
             [ {| OffsetTable.segment_file_handle :=
                    Some primary_segment_file;
                  OffsetTable.file_offset := 1000 |} ]
             {| OffsetTable.segment_file_handle := Some primary_segment_file;
                OffsetTable.file_offset := 1000 |}
             primary_segment_file [None; Some delta_segment_file]
             delta_segment_file
             {| SectionList.last := Some terminator_descriptor |}
             terminator_descriptor {| SectionList.start_offset := 500 |}
             eq_refl ltac:(by vm_compute) eq_refl eq_refl
             ltac:(discriminate) eq_refl ltac:(by vm_compute) eq_refl
             eq_refl eq_refl eq_refl ltac:(by vm_compute)
             ltac:(by vm_compute) ltac:(by vm_compute)
             ltac:(by vm_compute) obliging_world).
  - apply (write_existing_chunk_appends_delta 18
             write_io_handle_of_small_segment_files example_io_handle
             media_of_one_chunk offset_table_of_one_chunk
             delta_segment_table_of_one_file None 0 1%nat 65536 65536 0 1
             [ {| OffsetTable.segment_file_handle :=
                    Some primary_segment_file;
                  OffsetTable.file_offset := 1000 |} ]
             {| OffsetTable.segment_file_handle := Some primary_segment_file;
                OffsetTable.file_offset := 1000 |}
             primary_segment_file [None; Some delta_segment_file]
             delta_segment_file
             {| SectionList.last := Some terminator_descriptor |}
             terminator_descriptor {| SectionList.start_offset := 500 |}
             eq_refl ltac:(by vm_compute) eq_refl eq_refl
             ltac:(discriminate) eq_refl ltac:(by vm_compute) eq_refl
             eq_refl eq_refl eq_refl ltac:(by vm_compute)
             ltac:(by vm_compute) ltac:(by vm_compute)
             ltac:(by vm_compute) (world_failing_at 3)).
  - apply (write_existing_chunk_appends_delta 18 initial_write_io_handle
             example_io_handle media_of_one_chunk
             offset_table_of_one_chunk delta_segment_table_of_one_file
             None 0 1%nat 65536 65536 0 1
             [ {| OffsetTable.segment_file_handle :=
                    Some primary_segment_file;
                  OffsetTable.file_offset := 1000 |} ]
             {| OffsetTable.segment_file_handle := Some primary_segment_file;
                OffsetTable.file_offset := 1000 |}
             primary_segment_file [None; Some delta_segment_file]
             delta_segment_file
             {| SectionList.last := Some terminator_descriptor |}
             terminator_descriptor {| SectionList.start_offset := 500 |}
             eq_refl ltac:(by vm_compute) eq_refl eq_refl
             ltac:(discriminate) eq_refl ltac:(by vm_compute) eq_refl
             eq_refl eq_refl eq_refl ltac:(by vm_compute)
             ltac:(by vm_compute) ltac:(by vm_compute)
             ltac:(by vm_compute) obliging_world).
Defined.

(** * Further properties *)

(** ** The scan for empty blocks *)

(** Within the buffer the scan answers 0 or 1, and it answers 1 only if
    every byte it looked at equals the first. *)
Lemma test_empty_block_loop_decides buffer first steps : forall iterator,
  buffer !! 0%nat = Some first ->
  (iterator + steps <= length buffer)%nat ->
  (test_empty_block_loop buffer iterator steps = Returned 1
   /\ forall i, (iterator <= i < iterator + steps)%nat ->
        buffer !! i = Some first)
  \/ (test_empty_block_loop buffer iterator steps = Returned 0
      /\ exists i b, (iterator <= i < iterator + steps)%nat
           /\ buffer !! i = Some b /\ b <> first).
Proof.
  intros iterator Hfirst. revert iterator.
  induction steps as [| steps IH]; intros iterator Hlength.
  - left. split; [reflexivity | intros; lia].
  - cbn [test_empty_block_loop].
    destruct (lookup_lt_is_Some_2 buffer iterator) as [current Hcurrent];
      [lia |].
    rewrite Hfirst, Hcurrent.
    destruct (Z.eqb_spec first current) as [<- | Hdiffer].
    + destruct (IH (S iterator)) as [[-> Hall] | [-> Hsome]]; [lia | |].
      * left. split; [reflexivity |]. intros i Hi.
        destruct (decide (i = iterator)) as [-> |]; [done |].
        apply Hall. lia.
      * right. split; [reflexivity |].
        destruct Hsome as (i & b & Hi & Hb & Hdiffer).
        exists i, b. split; [lia | done].
    + right. split; [reflexivity |].
      exists iterator, current. repeat split; [lia .. | done |].
      congruence.
Qed.

(** X1: for a buffer of at least [size] bytes,
    [libewf_write_io_handle_test_empty_block] returns 1 exactly when
    every byte of the block equals the first and 0 exactly when one
    differs; it does not fail and reads nothing outside the block. *)
Theorem test_empty_block_decides (buffer : list Z) (size : Z) :
  0 <= size <= Z.of_nat (length buffer) -> size <= SSIZE_MAX ->
  (empty_block buffer size
   /\ libewf_write_io_handle_test_empty_block (Some buffer) size = Returned 1)
  \/ (~ empty_block buffer size
      /\ libewf_write_io_handle_test_empty_block (Some buffer) size
         = Returned 0).
Proof.
  intros Hsize Hmaximum.
  unfold libewf_write_io_handle_test_empty_block, empty_block.
  rewrite (proj2 (Z.ltb_ge _ _)) by lia.
  destruct (decide (size <= 1)) as [Hsmall | Hlarge].
  { replace (Z.to_nat (size - 1)) with 0%nat by lia.
    left. split; [intros; lia | reflexivity]. }
  destruct (lookup_lt_is_Some_2 buffer 0) as [first Hfirst]; [lia |].
  destruct (test_empty_block_loop_decides buffer first
              (Z.to_nat (size - 1)) 1 Hfirst)
    as [[-> Hall] | [-> Hsome]]; [lia | |].
  - left. split; [| reflexivity]. intros i b first' Hi Hb Hfirst'.
    rewrite Hall in Hb by lia. congruence.
  - right. split; [| reflexivity]. intros Hall.
    destruct Hsome as (i & b & Hi & Hb & Hdiffer).
    apply Hdiffer, (Hall i); [lia | done ..].
Qed.

Lemma test_empty_block_decides_witness :
  (empty_block [7; 7; 7; 7] 4
   /\ libewf_write_io_handle_test_empty_block (Some [7; 7; 7; 7]) 4
      = Returned 1)
  \/ (~ empty_block [7; 7; 7; 7] 4
      /\ libewf_write_io_handle_test_empty_block (Some [7; 7; 7; 7]) 4
         = Returned 0).
Proof.
  apply (test_empty_block_decides [7; 7; 7; 7] 4); by vm_compute.
Defined.

(** ** The capacity planner: bounds *)

(** X2: for arguments of their C types, a section number of at least 1
    and a maximum other than 0,
    [libewf_write_io_handle_calculate_chunks_per_chunks_section] either
    returns 1 with an amount of at least 1 and at most 2^31 - 1, at most
    [chunks_per_segment] and, unless the offset amount is unrestricted,
    at most the maximum of a section; or it returns -1 without setting
    an error.  For the first section it fails only when
    [chunks_per_segment] is 0. *)
Theorem calculate_chunks_per_chunks_section_bounds
    (chunks_per_chunks_section maximum_section_amount_of_chunks
     chunks_per_segment chunks_section_number unrestrict_offset_amount : Z) :
  is_uint32 maximum_section_amount_of_chunks ->
  0 < maximum_section_amount_of_chunks ->
  is_uint32 chunks_per_segment ->
  1 <= chunks_section_number <= UINT8_MAX ->
  match libewf_write_io_handle_calculate_chunks_per_chunks_section
          (Some chunks_per_chunks_section) maximum_section_amount_of_chunks
          chunks_per_segment chunks_section_number unrestrict_offset_amount
  with
  | Returned (result, amount) =>
      result = 1 /\ 1 <= amount <= INT32_MAX /\ amount <= chunks_per_segment
      /\ (unrestrict_offset_amount = 0 ->
          amount <= maximum_section_amount_of_chunks)
  | Failed e =>
      e = None /\ (chunks_section_number = 1 -> chunks_per_segment = 0)
  | Undefined => False
  end.
Proof.
  intros Hmaximum Hpositive Hsegment Hnumber.
  unfold libewf_write_io_handle_calculate_chunks_per_chunks_section.
  rewrite (proj2 (Z.eqb_neq _ 0)) by lia.
  rewrite (proj2 (Z.eqb_neq chunks_section_number 0)) by lia.
  pose proof (Z.mod_pos_bound
                ((chunks_section_number - 1) * maximum_section_amount_of_chunks)
                (2 ^ 32) eq_refl) as Hproduct.
  change (_ `mod` 2 ^ 32)
    with (u32 ((chunks_section_number - 1)
               * maximum_section_amount_of_chunks)) in Hproduct.
  change (2 ^ 32) with 4294967296 in Hproduct.
  generalize dependent (u32 ((chunks_section_number - 1)
                             * maximum_section_amount_of_chunks)).
  intros product Hproduct.
  assert (Hremaining :
    exists remaining,
      (if 1 <? chunks_section_number
       then sub_int64 chunks_per_segment product
       else mret chunks_per_segment) = Returned remaining
      /\ remaining <= chunks_per_segment
      /\ INT64_MIN <= remaining
      /\ (chunks_section_number = 1 -> remaining = chunks_per_segment)).
  { destruct (Z.ltb_spec 1 chunks_section_number).
    - exists (chunks_per_segment - product).
      split; [apply sub_int64_in_range |]; unfold_limits; intuition lia.
    - exists chunks_per_segment. split; [done |]. unfold_limits. intuition lia. }
  destruct Hremaining as (remaining & -> & Hle & Hge & Hfirst).
  cbn [mbind outcome_bind].
  unfold_limits.
  destruct (Z.leb_spec remaining 0); [split; [done | intuition lia] |].
  cbn [mret outcome_ret].
  split; [done |].
  destruct (unrestrict_offset_amount =? 0) eqn:Hrestricted; cbn [andb];
    repeat case_match; bool_to_prop; unfold_limits;
    rewrite u32_small by (unfold_limits; lia); try lia.
Qed.

Lemma calculate_chunks_per_chunks_section_bounds_witness :
  match libewf_write_io_handle_calculate_chunks_per_chunks_section
          (Some 0) 16375 40000 3 0
  with
  | Returned (result, amount) =>
      result = 1 /\ 1 <= amount <= INT32_MAX /\ amount <= 40000
      /\ (0 = 0 -> amount <= 16375)
  | Failed e => e = None /\ (3 = 1 -> 40000 = 0)
  | Undefined => False
  end.
Proof.
  apply (calculate_chunks_per_chunks_section_bounds 0 16375 40000 3 0);
    by vm_compute.
Defined.

(** Whatever the [int64_t] was, its quotient by a [size_t] of at least 4
    is not negative. *)
Lemma div_assign_int64_size_t_bounds a b :
  4 <= b ->
  exists q, div_assign_int64_size_t a b = Returned q /\ 0 <= q < 2 ^ 62.
Proof.
  intros Hb. unfold div_assign_int64_size_t, div_uint64.
  rewrite (proj2 (Z.eqb_neq b 0)) by lia.
  cbn [fmap outcome_fmap].
  pose proof (Z.mod_pos_bound a (2 ^ 64) eq_refl) as Ha.
  change (a `mod` 2 ^ 64) with (u64 a) in Ha.
  assert (0 <= u64 a / b < 2 ^ 62) as Hq.
  { split; [apply Z.div_pos; lia |].
    apply Z.div_lt_upper_bound; [lia |].
    change (2 ^ 64) with 18446744073709551616 in Ha.
    change (2 ^ 62) with 4611686018427387904. nia. }
  exists (u64 a / b). split; [| done].
  f_equal. apply s64_small.
  change (2 ^ 62) with 4611686018427387904 in Hq. unfold_limits. lia.
Qed.

Lemma u32_bounds x : 0 <= u32 x <= 4294967295.
Proof.
  pose proof (Z.mod_pos_bound x (2 ^ 32) eq_refl) as H.
  change (x `mod` 2 ^ 32) with (u32 x) in H.
  change (2 ^ 32) with 4294967296 in H. lia.
Qed.

(** X3: for the formats other than EWF-S01 and arguments of their C
    types, [libewf_write_io_handle_calculate_chunks_per_segment] returns
    1 for every remaining size.  When the media size is unknown the
    estimate is not below the chunks the segment file holds.  When the
    media size is known and not more chunks were written than the media
    has, the estimate is not below the chunks the segment file holds and
    at most these plus the chunks that remain to be written.  When more
    chunks were written than the media has, the estimate is the chunks
    the segment file holds less the chunks in excess, as a [uint32_t]: it
    is below the chunks held, and wraps around when the excess is the
    larger. *)
Theorem calculate_chunks_per_segment_bounds
    (chunks_per_segment remaining_segment_file_size
     maximum_section_amount_of_chunks segment_amount_of_chunks
     amount_of_chunks : Z)
    (media_values : libewf_media_values_t)
    (format : format_t) (ewf_format : ewf_format_t)
    (unrestrict_offset_amount : Z) :
  ewf_format <> EWF_FORMAT_S01 ->
  media_values_typed media_values ->
  is_uint64 remaining_segment_file_size ->
  is_uint32 maximum_section_amount_of_chunks ->
  0 < maximum_section_amount_of_chunks ->
  is_uint32 segment_amount_of_chunks ->
  is_uint32 amount_of_chunks ->
  exists estimate,
    libewf_write_io_handle_calculate_chunks_per_segment
      (Some chunks_per_segment) remaining_segment_file_size
      maximum_section_amount_of_chunks segment_amount_of_chunks
      amount_of_chunks (Some media_values) format ewf_format
      unrestrict_offset_amount
    = Returned (1, estimate)
    /\ is_uint32 estimate
    /\ (MediaValues.media_size media_values = 0 ->
        segment_amount_of_chunks <= estimate)
    /\ (0 < MediaValues.media_size media_values ->
        amount_of_chunks <= MediaValues.amount_of_chunks media_values ->
        segment_amount_of_chunks <= estimate
        <= MediaValues.amount_of_chunks media_values - amount_of_chunks
           + segment_amount_of_chunks)
    /\ (0 < MediaValues.media_size media_values ->
        MediaValues.amount_of_chunks media_values < amount_of_chunks ->
        estimate
        = u32 (segment_amount_of_chunks
               - (amount_of_chunks
                  - MediaValues.amount_of_chunks media_values))).
Proof.
  intros Hformat (Hmedia & Hsize & Hchunks) Hremaining Hmaximum Hpositive
    Hsegment Hamount.
  unfold libewf_write_io_handle_calculate_chunks_per_segment.
  rewrite (proj2 (Z.eqb_neq _ 0)) by lia.
  destruct (decide (ewf_format = EWF_FORMAT_S01)) as [| _]; [done |].
  assert (u64 (MediaValues.chunk_size media_values + sizeof_ewf_crc_t)
          = MediaValues.chunk_size media_values + 4) as ->.
  { apply u64_small. unfold_limits. lia. }
  destruct (div_assign_int64_size_t_bounds (s64 remaining_segment_file_size)
              (MediaValues.chunk_size media_values + 4))
    as (chunks & -> & Hchunks'); [unfold_limits; lia |].
  cbn [mbind outcome_bind].
  change (2 ^ 62) with 4611686018427387904 in Hchunks'.
  assert (exists sections,
    (if unrestrict_offset_amount =? 0
     then rem_int64 chunks maximum_section_amount_of_chunks
     else mret 1) = Returned sections) as (sections & ->).
  { destruct (unrestrict_offset_amount =? 0); [| by eexists].
    rewrite rem_int64_positive by lia. by eexists. }
  cbn [mbind outcome_bind].
  assert (exists reduced,
    (if decide (format = LIBEWF_FORMAT_ENCASE1)
     then
       mret (sub_assign_int64_size_t
               (sub_assign_int64_size_t (s64 remaining_segment_file_size)
                  (mul_int64_size_t sections
                     (u64 (sizeof_ewf_section_t + sizeof_ewf_crc_t))))
               (mul_int64_size_t chunks sizeof_ewf_table_offset_t))
     else
       twice ← mul_int64 2 chunks;
       mret (sub_assign_int64_size_t
               (sub_assign_int64_size_t (s64 remaining_segment_file_size)
                  (mul_int64_size_t sections
                     (u64 (u64 (3 * sizeof_ewf_section_t)
                           + u64 (2 * sizeof_ewf_crc_t)))))
               (mul_int64_size_t twice sizeof_ewf_table_offset_t)))
    = Returned reduced) as (reduced & ->).
  { destruct (decide (format = LIBEWF_FORMAT_ENCASE1)); [by eexists |].
    rewrite mul_int64_in_range by (unfold_limits; lia). by eexists. }
  cbn [mbind outcome_bind].
  destruct (div_assign_int64_size_t_bounds reduced
              (MediaValues.chunk_size media_values + 4))
    as (fitting & -> & Hfitting); [unfold_limits; lia |].
  cbn [mbind outcome_bind].
  change (2 ^ 62) with 4611686018427387904 in Hfitting.
  unfold_limits.
  rewrite sub_int64_in_range by (unfold_limits; lia).
  destruct (Z.ltb_spec 0 (MediaValues.media_size media_values)) as [Hknown | ?];
    cbn [mbind outcome_bind mret outcome_ret].
  - set (clamped :=
           if MediaValues.amount_of_chunks media_values - amount_of_chunks
              <? fitting
           then MediaValues.amount_of_chunks media_values - amount_of_chunks
           else fitting).
    assert (clamped <= MediaValues.amount_of_chunks media_values
                       - amount_of_chunks
            /\ clamped <= fitting
            /\ (amount_of_chunks <= MediaValues.amount_of_chunks media_values
                -> 0 <= clamped)
            /\ (MediaValues.amount_of_chunks media_values < amount_of_chunks
                -> clamped
                   = MediaValues.amount_of_chunks media_values
                     - amount_of_chunks))
      as (Hclamped & Hfit & Hsign & Hexcess).
    { subst clamped. case_match; bool_to_prop; lia. }
    assert (-4294967296 <= clamped) as Hlow.
    { subst clamped. case_match; bool_to_prop; lia. }
    clearbody clamped.
    destruct (Z.ltb_spec 0 segment_amount_of_chunks);
      [rewrite add_int64_in_range by (unfold_limits; lia) |];
      cbn [mbind outcome_bind mret outcome_ret];
      eexists; (split; [reflexivity |]);
      (split; [apply u32_bounds |]);
      (split; [intros; lia |]);
      (split;
         [ intros _ Hwritten; specialize (Hsign Hwritten);
           rewrite u32_small by (unfold_limits; case_match; bool_to_prop; lia);
           case_match; bool_to_prop; lia
         | intros _ Hmore; specialize (Hexcess Hmore);
           case_match; bool_to_prop; [lia | f_equal; lia] ]).
  - destruct (Z.ltb_spec 0 segment_amount_of_chunks);
      [rewrite add_int64_in_range by (unfold_limits; lia) |];
      cbn [mbind outcome_bind mret outcome_ret];
      eexists; (split; [reflexivity |]);
      (split; [apply u32_bounds |]);
      (split; [| split; intros; lia]); intros _;
      rewrite u32_small by (unfold_limits; case_match; bool_to_prop; lia);
      case_match; bool_to_prop; lia.
Qed.

(** X3, witness: an EnCase5 segment file with 1 000 000 bytes left for
    a media of one chunk of 64 KiB.  With no chunk written the estimate is
    the one chunk that remains.  With 5 chunks written and 5 in the
    segment file, 4 more than the media has, the estimate is 1. *)
Lemma calculate_chunks_per_segment_bounds_witness :
  (exists estimate,
     libewf_write_io_handle_calculate_chunks_per_segment
       (Some 0) 1000000 16375 0 0 (Some media_of_one_chunk)
       LIBEWF_FORMAT_ENCASE5 EWF_FORMAT_E01 1
     = Returned (1, estimate)
     /\ 0 <= estimate <= 1)
  /\ exists estimate,
       libewf_write_io_handle_calculate_chunks_per_segment
         (Some 0) 1000000 16375 5 5 (Some media_of_one_chunk)
         LIBEWF_FORMAT_ENCASE5 EWF_FORMAT_E01 1
       = Returned (1, estimate)
       /\ estimate = 1.
Proof.
  split.
  - destruct (calculate_chunks_per_segment_bounds 0 1000000 16375 0 0
                media_of_one_chunk LIBEWF_FORMAT_ENCASE5 EWF_FORMAT_E01 1)
      as (estimate & Hreturned & _ & _ & Hknown & _); try (by vm_compute).
    exists estimate. split; [exact Hreturned |].
    apply Hknown; by vm_compute.
  - destruct (calculate_chunks_per_segment_bounds 0 1000000 16375 5 5
                media_of_one_chunk LIBEWF_FORMAT_ENCASE5 EWF_FORMAT_E01 1)
      as (estimate & Hreturned & _ & _ & _ & Hexcess); try (by vm_compute).
    exists estimate. split; [exact Hreturned |].
    apply Hexcess; by vm_compute.
Defined.

(** X4: for the formats other than EWF-S01 and EnCase1, a segment file
    that [libewf_write_io_handle_test_segment_file_full] finds full has
    its open chunks section found full by
    [libewf_write_io_handle_test_chunks_section_full]: the test of the
    segment file, which the writer only makes once the chunks section is
    full, misses no full segment file. *)
Theorem full_segment_file_has_full_chunks_section
    (chunks_section_offset remaining_segment_file_size
     segment_amount_of_chunks : Z)
    (media_values : libewf_media_values_t)
    (input_write_count segment_file_offset
     maximum_section_amount_of_chunks section_amount_of_chunks
     current_amount_of_chunks chunks_per_segment
     chunks_per_chunks_section : Z)
    (format : format_t) (ewf_format : ewf_format_t)
    (unrestrict_offset_amount : Z) :
  ewf_format <> EWF_FORMAT_S01 ->
  format <> LIBEWF_FORMAT_ENCASE1 ->
  0 < chunks_section_offset <= INT64_MAX ->
  0 <= segment_file_offset <= INT64_MAX ->
  maximum_section_amount_of_chunks <> 0 ->
  libewf_write_io_handle_test_segment_file_full remaining_segment_file_size
    segment_amount_of_chunks (Some media_values) input_write_count
    chunks_per_segment current_amount_of_chunks format ewf_format
  = Returned 1 ->
  libewf_write_io_handle_test_chunks_section_full chunks_section_offset
    remaining_segment_file_size (Some media_values) input_write_count
    segment_file_offset maximum_section_amount_of_chunks
    section_amount_of_chunks current_amount_of_chunks
    chunks_per_chunks_section format ewf_format unrestrict_offset_amount
  = Returned 1.
Proof.
  intros Hformat Hencase Hsection Hoffset Hmaximum.
  unfold libewf_write_io_handle_test_segment_file_full,
    libewf_write_io_handle_test_chunks_section_full.
  rewrite (bool_decide_eq_false_2 _ Hformat),
    (bool_decide_eq_false_2 _ Hencase).
  rewrite (proj2 (Z.ltb_ge INT64_MAX segment_file_offset)) by lia.
  rewrite (proj2 (Z.eqb_neq maximum_section_amount_of_chunks 0)) by done.
  rewrite (proj2 (Z.eqb_neq chunks_section_offset 0)) by lia.
  rewrite sub_int64_in_range by (unfold_limits; lia).
  cbn [orb mbind outcome_bind].
  intros Hfull. repeat case_match; try done.
Qed.

Lemma full_segment_file_has_full_chunks_section_witness :
  libewf_write_io_handle_test_chunks_section_full 1000 100
    (Some (media_of_chunk_size 32768)) 98304 99500 16375 3 3 0
    LIBEWF_FORMAT_ENCASE5 EWF_FORMAT_E01 0
  = Returned 1.
Proof.
  apply (full_segment_file_has_full_chunks_section 1000 100 3
           (media_of_chunk_size 32768) 98304 99500 16375 3 3 10 0
           LIBEWF_FORMAT_ENCASE5 EWF_FORMAT_E01 0);
    by vm_compute.
Defined.

(** ** The chunk processor: what it leaves alone *)

(** X5: at compression level none, for a format other than EWF-S01 and
    without the compression of empty blocks,
    [libewf_write_io_handle_process_chunk] neither compresses nor resizes
    the chunk cache: whatever [libewf_compress] and
    [libewf_chunk_cache_resize] would do, the call gives the same. *)
Theorem process_chunk_level_none_skips_compression
    (env1 env2 : ChunkProcessorEnv) (m : memory)
    (chunk_cache : option libewf_chunk_cache_t)
    (media_values : option libewf_media_values_t)
    (compress_empty_block : Z) (ewf_format : ewf_format_t)
    (chunk_data : pointer) (chunk_data_size : Z)
    (compressed_chunk_data : pointer) (compressed_chunk_data_size : option Z)
    (is_compressed chunk_crc write_crc : option Z) :
  @ewf_crc_calculate env1 = @ewf_crc_calculate env2 ->
  @host_big_endian env1 = @host_big_endian env2 ->
  ewf_format <> EWF_FORMAT_S01 ->
  compress_empty_block <> 1 ->
  libewf_write_io_handle_process_chunk (env := env1) m chunk_cache
    media_values EWF_COMPRESSION_NONE compress_empty_block ewf_format
    chunk_data chunk_data_size compressed_chunk_data
    compressed_chunk_data_size is_compressed chunk_crc write_crc
  = libewf_write_io_handle_process_chunk (env := env2) m chunk_cache
      media_values EWF_COMPRESSION_NONE compress_empty_block ewf_format
      chunk_data chunk_data_size compressed_chunk_data
      compressed_chunk_data_size is_compressed chunk_crc write_crc.
Proof.
  intros Hcrc Hendian Hformat Hempty.
  unfold libewf_write_io_handle_process_chunk.
  destruct chunk_cache as [cache |], media_values as [media |];
    try reflexivity.
  repeat (destruct (reject _ _) as [[] | |];
          cbn [mbind outcome_bind]; try reflexivity).
  unfold determine_compression_level.
  rewrite (proj2 (Z.eqb_neq compress_empty_block 1)) by done.
  rewrite andb_false_r. cbn [mbind outcome_bind mret outcome_ret].
  unfold compress_chunk.
  rewrite (bool_decide_eq_false_2 _ Hformat).
  rewrite (bool_decide_eq_true_2 (EWF_COMPRESSION_NONE = EWF_COMPRESSION_NONE))
    by done.
  cbn [orb negb mbind outcome_bind mret outcome_ret].
  unfold store_chunk. rewrite Hcrc, Hendian. reflexivity.
Qed.

Lemma process_chunk_level_none_skips_compression_witness :
  libewf_write_io_handle_process_chunk (env := storing_env)
    (example_memory [1; 2; 3; 4] (replicate 8 0)) (Some example_chunk_cache)
    (Some (media_of_chunk_size 4)) EWF_COMPRESSION_NONE 0 EWF_FORMAT_E01
    (Some 1%nat) 4 (Some 2%nat) (Some 16) (Some 0) (Some 0) (Some 0)
  = libewf_write_io_handle_process_chunk (env := refusing_env)
      (example_memory [1; 2; 3; 4] (replicate 8 0)) (Some example_chunk_cache)
      (Some (media_of_chunk_size 4)) EWF_COMPRESSION_NONE 0 EWF_FORMAT_E01
      (Some 1%nat) 4 (Some 2%nat) (Some 16) (Some 0) (Some 0) (Some 0).
Proof.
  apply (process_chunk_level_none_skips_compression storing_env refusing_env);
    [reflexivity | reflexivity | discriminate | discriminate].
Defined.

Section ChunkProcessorSizes.

Context `{env : ChunkProcessorEnv}.

Variable m : memory.
Variable chunk_cache : option libewf_chunk_cache_t.
Variable media_values : libewf_media_values_t.
Variable compression_level : compression_level_t.
Variable compress_empty_block : Z.
Variable ewf_format : ewf_format_t.
Variable chunk_data : pointer.
Variable chunk_data_size : Z.
Variable compressed_chunk_data : pointer.
Variable compressed_chunk_data_size : option Z.
Variable is_compressed chunk_crc write_crc : option Z.

(** X6: for a format other than EWF-S01, the amount of bytes a
    successful call of [libewf_write_io_handle_process_chunk] returns is
    at most the chunk size and the size of the CRC together; for a chunk
    stored compressed it is at least the size of the CRC and less than
    the chunk size. *)
Theorem process_chunk_write_size_bounds r :
  is_uint32 (MediaValues.chunk_size media_values) ->
  0 <= chunk_data_size ->
  ewf_format <> EWF_FORMAT_S01 ->
  libewf_write_io_handle_process_chunk m chunk_cache (Some media_values)
    compression_level compress_empty_block ewf_format chunk_data
    chunk_data_size compressed_chunk_data compressed_chunk_data_size
    is_compressed chunk_crc write_crc = Returned r ->
  0 <= Processed.data_write_size r
  <= MediaValues.chunk_size media_values + sizeof_ewf_crc_t
  /\ (Processed.is_compressed r = 1 ->
      sizeof_ewf_crc_t <= Processed.data_write_size r
      < MediaValues.chunk_size media_values).
Proof.
  intros Hchunk Hsize Hformat
    (cache & level & state & _ & Hfits & _ & _ & Hstore)%process_chunk_returned.
  destruct state as [[[[m' cache'] data'] compressed'] size'].
  unfold store_chunk in Hstore.
  rewrite (bool_decide_eq_false_2 _ Hformat) in Hstore.
  destruct size' as [size |]; [| discriminate].
  cbn [mbind outcome_bind mret outcome_ret] in Hstore.
  unfold_limits.
  destruct ((0 <? size) && (size <? MediaValues.chunk_size media_values))
    eqn:Hsmaller.
  - destruct (Z.ltb_spec size 4); [discriminate |].
    invert_step Hstore. returned_eq Hstore. cbn. bool_to_prop.
    rewrite s64_small by (unfold_limits; lia). lia.
  - invert_step Hstore. case_bool_decide.
    + invert_step Hstore. returned_eq Hstore. cbn.
      rewrite s64_u64, s64_small by (unfold_limits; lia).
      split; [lia | discriminate].
    + returned_eq Hstore. cbn.
      rewrite s64_small by (unfold_limits; lia).
      split; [lia | discriminate].
Qed.

End ChunkProcessorSizes.

Lemma process_chunk_write_size_bounds_witness :
  exists r,
    libewf_write_io_handle_process_chunk (env := storing_env)
      (example_memory [] [1; 2; 3; 4; 0; 0; 0; 0])
      (Some example_chunk_cache) (Some (media_of_chunk_size 4))
      EWF_COMPRESSION_NONE 0 EWF_FORMAT_E01 (Some 3%nat) 4 (Some 2%nat)
      (Some 16) (Some 0) (Some 0) (Some 0) = Returned r
    /\ 0 <= Processed.data_write_size r
       <= MediaValues.chunk_size (media_of_chunk_size 4) + sizeof_ewf_crc_t.
Proof.
  eexists. split; [vm_compute; reflexivity |].
  eapply (process_chunk_write_size_bounds (env := storing_env)
            (example_memory [] [1; 2; 3; 4; 0; 0; 0; 0])
            (Some example_chunk_cache) (media_of_chunk_size 4)
            EWF_COMPRESSION_NONE 0 EWF_FORMAT_E01 (Some 3%nat) 4
            (Some 2%nat) (Some 16) (Some 0) (Some 0) (Some 0)).
  - by vm_compute.
  - lia.
  - discriminate.
  - vm_compute. reflexivity.
Defined.

Section ChunkProcessorFailures.

Context `{env : ChunkProcessorEnv}.

Variable m : memory.
Variable chunk_cache : libewf_chunk_cache_t.
Variable media_values : libewf_media_values_t.
Variable compression_level : compression_level_t.
Variable compress_empty_block : Z.
Variable ewf_format : ewf_format_t.
Variable block_of_chunk compressed_block : block.
Variable content : list Z.
Variable chunk_data_size capacity asked : Z.
Variable is_compressed chunk_crc write_crc : Z.

Local Abbreviation process_chunk :=
  (libewf_write_io_handle_process_chunk m (Some chunk_cache)
     (Some media_values) compression_level compress_empty_block ewf_format
     (Some block_of_chunk) chunk_data_size (Some compressed_block)
     (Some capacity) (Some is_compressed) (Some chunk_crc) (Some write_crc)).

(** X7: when [libewf_compress] fails on a chunk that is to be compressed
    (a compression level other than none), the call fails for the
    compression unless the compressed buffer is that of the chunk cache
    and [libewf_compress] asked for a size: then the chunk cache is
    resized to that size, and the call fails for the resize if that
    fails. *)
Theorem process_chunk_compress_failed :
  compression_level <> EWF_COMPRESSION_NONE ->
  is_uint32 (MediaValues.chunk_size media_values) ->
  m !! block_of_chunk = Some content ->
  0 <= chunk_data_size <= Z.of_nat (length content) ->
  chunk_data_size <= MediaValues.chunk_size media_values ->
  Some block_of_chunk <> ChunkCache.compressed chunk_cache ->
  block_of_chunk <> compressed_block ->
  capacity <= SSIZE_MAX ->
  libewf_compress (take (Z.to_nat chunk_data_size) content) compression_level
    capacity = CompressFailed asked ->
  (Some compressed_block <> ChunkCache.compressed chunk_cache \/ asked <= 0 ->
   process_chunk = Failed (Some LIBERROR_COMPRESSION_ERROR_COMPRESS_FAILED))
  /\ (Some compressed_block = ChunkCache.compressed chunk_cache ->
      0 < asked ->
      libewf_chunk_cache_resize chunk_cache m asked = None ->
      process_chunk = Failed (Some LIBERROR_RUNTIME_ERROR_RESIZE_FAILED)).
Proof.
  intros Hlevel Hchunk Hcontent Hsize Hfits Hdistinct Hbuffers Hcapacity
    Hcompress.
  unfold libewf_write_io_handle_process_chunk.
  rewrite (bool_decide_eq_false_2 (Some block_of_chunk = None)) by done.
  rewrite (bool_decide_eq_false_2 _ Hdistinct).
  rewrite (proj2 (Z.ltb_ge SSIZE_MAX chunk_data_size))
    by (unfold_limits; lia).
  rewrite (proj2 (Z.ltb_ge _ chunk_data_size)) by lia.
  rewrite !(bool_decide_eq_false_2 (Some _ = None)) by done.
  cbn [reject mbind outcome_bind].
  unfold determine_compression_level.
  rewrite (bool_decide_eq_false_2 _ Hlevel).
  cbn [andb mbind outcome_bind mret outcome_ret].
  unfold compress_chunk.
  rewrite (bool_decide_eq_false_2 _ Hlevel). rewrite orb_true_r.
  rewrite (bool_decide_eq_false_2 (Some compressed_block = None)) by done.
  rewrite (bool_decide_eq_false_2
             (Some block_of_chunk = Some compressed_block)) by congruence.
  rewrite (proj2 (Z.ltb_ge SSIZE_MAX capacity)) by done.
  cbn [reject mbind outcome_bind].
  unfold call_libewf_compress, read_bytes. rewrite Hcontent.
  rewrite !(proj2 (Z.leb_le _ _)) by lia.
  cbn [andb mbind outcome_bind mret outcome_ret].
  rewrite drop_0, Hcompress. cbn [mbind outcome_bind mret outcome_ret].
  change (-1 =? -1) with true. cbn [andb].
  split.
  - intros [Hforeign | Hnone].
    + rewrite (bool_decide_eq_false_2 _ Hforeign). reflexivity.
    + rewrite (proj2 (Z.ltb_ge 0 asked)) by done. rewrite andb_false_r.
      reflexivity.
  - intros Hcache Hasked Hresize.
    rewrite (bool_decide_eq_true_2 _ Hcache).
    rewrite (proj2 (Z.ltb_lt 0 asked)) by done. cbn [andb].
    rewrite Hresize. reflexivity.
Qed.

End ChunkProcessorFailures.

Lemma process_chunk_compress_failed_witness :
  libewf_write_io_handle_process_chunk (env := refusing_env)
    (example_memory [1; 2; 3; 4] (replicate 8 0)) (Some example_chunk_cache)
    (Some (media_of_chunk_size 4)) EWF_COMPRESSION_DEFAULT 0 EWF_FORMAT_E01
    (Some 1%nat) 4 (Some 2%nat) (Some 16) (Some 0) (Some 0) (Some 0)
  = Failed (Some LIBERROR_COMPRESSION_ERROR_COMPRESS_FAILED).
Proof.
  apply (process_chunk_compress_failed (env := refusing_env)
           (example_memory [1; 2; 3; 4] (replicate 8 0)) example_chunk_cache
           (media_of_chunk_size 4) EWF_COMPRESSION_DEFAULT 0 EWF_FORMAT_E01
           1%nat 2%nat [1; 2; 3; 4] 4 16 0 0 0 0);
    try discriminate; try (by vm_compute).
  right. lia.
Defined.

Section ChunkProcessorInPlace.

Context `{env : ChunkProcessorEnv}.

Variable m : memory.
Variable chunk_cache : libewf_chunk_cache_t.
Variable media_values : libewf_media_values_t.
Variable compress_empty_block : Z.
Variable ewf_format : ewf_format_t.
Variable data_block : block.
Variable content : list Z.
Variable chunk_data_size capacity : Z.
Variable compressed_chunk_data : pointer.
Variable is_compressed chunk_crc write_crc : Z.

Local Abbreviation process_chunk :=
  (libewf_write_io_handle_process_chunk m (Some chunk_cache)
     (Some media_values) EWF_COMPRESSION_NONE compress_empty_block ewf_format
     (Some data_block) chunk_data_size compressed_chunk_data (Some capacity)
     (Some is_compressed) (Some chunk_crc) (Some write_crc)).

Local Abbreviation crc :=
  (ewf_crc_calculate (take (Z.to_nat chunk_data_size) content) 1).

(** X17: a chunk that is written raw from the data buffer of the chunk
    cache gets its CRC stored behind its last byte, and the function does
    not know the size of the buffer: with room for the 4 bytes it returns
    and has changed these 4 bytes only; without, it stores them past the
    end of the buffer. *)
Theorem process_chunk_appends_crc_in_place :
  ewf_format <> EWF_FORMAT_S01 ->
  compress_empty_block <> 1 ->
  capacity = 0 \/ MediaValues.chunk_size media_values <= capacity ->
  is_uint32 (MediaValues.chunk_size media_values) ->
  ChunkCache.data chunk_cache = Some data_block ->
  ChunkCache.compressed chunk_cache <> Some data_block ->
  m !! data_block = Some content ->
  0 <= chunk_data_size <= MediaValues.chunk_size media_values ->
  chunk_data_size <= Z.of_nat (length content) ->
  (chunk_data_size + sizeof_ewf_crc_t <= Z.of_nat (length content) ->
   exists r,
     process_chunk = Returned r
     /\ Processed.chunk_memory r
        = <[data_block :=
              take (Z.to_nat chunk_data_size) content
              ++ endian_little_revert_32bit crc
              ++ drop (Z.to_nat chunk_data_size + 4) content]> m)
  /\ (Z.of_nat (length content) < chunk_data_size + sizeof_ewf_crc_t ->
      process_chunk = Undefined).
Proof.
  intros Hformat Hempty Hcapacity Hchunk Hdata Hcompressed Hcontent Hsize
    Hlength.
  unfold libewf_write_io_handle_process_chunk.
  rewrite (bool_decide_eq_false_2 (Some data_block = None)) by done.
  rewrite (bool_decide_eq_false_2
             (Some data_block = ChunkCache.compressed chunk_cache))
    by congruence.
  rewrite (proj2 (Z.ltb_ge SSIZE_MAX chunk_data_size))
    by (unfold_limits; lia).
  rewrite (proj2 (Z.ltb_ge _ chunk_data_size)) by lia.
  rewrite !(bool_decide_eq_false_2 (Some _ = None)) by done.
  cbn [reject mbind outcome_bind].
  unfold determine_compression_level.
  rewrite (proj2 (Z.eqb_neq compress_empty_block 1)) by done.
  rewrite andb_false_r. cbn [mbind outcome_bind mret outcome_ret].
  unfold compress_chunk.
  rewrite (bool_decide_eq_false_2 _ Hformat).
  rewrite (bool_decide_eq_true_2 (EWF_COMPRESSION_NONE = EWF_COMPRESSION_NONE))
    by done.
  cbn [orb negb mbind outcome_bind mret outcome_ret].
  unfold store_chunk.
  rewrite (bool_decide_eq_false_2 _ Hformat).
  cbn [mbind outcome_bind mret outcome_ret].
  assert ((0 <? capacity)
          && (capacity <? MediaValues.chunk_size media_values) = false)
    as ->.
  { destruct Hcapacity as [-> | ?]; [done |].
    rewrite (proj2 (Z.ltb_ge capacity _)) by lia. apply andb_false_r. }
  unfold read_bytes. rewrite Hcontent.
  rewrite !(proj2 (Z.leb_le _ _)) by lia.
  cbn [andb mbind outcome_bind]. rewrite drop_0.
  rewrite (bool_decide_eq_true_2
             (Some data_block = ChunkCache.data chunk_cache)) by done.
  unfold write_bytes. rewrite Hcontent.
  rewrite (proj2 (Z.leb_le 0 chunk_data_size)) by lia. cbn [andb].
  change (Z.of_nat (length (endian_little_revert_32bit crc))) with 4.
  unfold sizeof_ewf_crc_t.
  split; intros Hroom.
  - rewrite (proj2 (Z.leb_le _ _)) by lia.
    cbn [mbind outcome_bind mret outcome_ret].
    eexists. split; reflexivity.
  - rewrite (proj2 (Z.leb_gt _ _)) by lia. reflexivity.
Qed.

End ChunkProcessorInPlace.

Lemma process_chunk_appends_crc_in_place_witness :
  libewf_write_io_handle_process_chunk (env := storing_env)
    (example_memory [] [1; 2; 3; 4; 0; 0]) (Some example_chunk_cache)
    (Some (media_of_chunk_size 4)) EWF_COMPRESSION_NONE 0 EWF_FORMAT_E01
    (Some 3%nat) 4 (Some 2%nat) (Some 16) (Some 0) (Some 0) (Some 0)
  = Undefined.
Proof.
  apply (process_chunk_appends_crc_in_place (env := storing_env)
           (example_memory [] [1; 2; 3; 4; 0; 0]) example_chunk_cache
           (media_of_chunk_size 4) 0 EWF_FORMAT_E01 3%nat
           [1; 2; 3; 4; 0; 0] 4 16 (Some 2%nat) 0 0 0);
    try discriminate; try (by vm_compute).
  right. by vm_compute.
Defined.

(** ** The life of a write io handle *)

(** X8: a call of [libewf_write_io_handle_initialize] on a [NULL]
    handle that returns made two calls, the allocation and the
    [memory_set] of the block allocated, and hands back that block and
    the initial values; [libewf_write_io_handle_free] then releases this
    block and nothing else, returns 1 and leaves [NULL], and a second
    [libewf_write_io_handle_free] releases nothing. *)
Theorem initialize_then_free (w : world)
    (result : Z * option nat * option libewf_write_io_handle_t) :
  run_outcome w (libewf_write_io_handle_initialize (Some None) ())
  = Returned result ->
  exists address,
    result = (1, Some address, Some initial_write_io_handle)
    /\ run_trace w (libewf_write_io_handle_initialize (Some None) ())
       = [ Event (memory_allocate sizeof_libewf_write_io_handle_t)
             (Some address);
           Event (memory_set (Some address) 0 sizeof_libewf_write_io_handle_t)
             (w 1%nat _
                (memory_set (Some address) 0
                   sizeof_libewf_write_io_handle_t)) ]
    /\ libewf_write_io_handle_free
         (Some (Some (address, initial_write_io_handle)))
       = (1, None, [address], Some None)
    /\ libewf_write_io_handle_free (Some None) = (1, None, [], Some None).
Proof.
  unfold run_outcome, run_trace, libewf_write_io_handle_initialize.
  unfold_writer.
  destruct (w 0%nat _ (memory_allocate _)) as [address |];
    destruct (w 1%nat _ (memory_set _ 0 _)) as [cleared |] eqn:Hcleared;
    cbn [then_program run fst snd is_null]; try discriminate.
  intros [= <-]. exists address. rewrite Hcleared. done.
Qed.

Lemma initialize_then_free_witness :
  exists address,
    (1, Some 1%nat, Some initial_write_io_handle)
    = (1, Some address, Some initial_write_io_handle)
    /\ run_trace obliging_world
         (libewf_write_io_handle_initialize (Some None) ())
       = [ Event (memory_allocate sizeof_libewf_write_io_handle_t)
             (Some address);
           Event (memory_set (Some address) 0 sizeof_libewf_write_io_handle_t)
             (obliging_world 1%nat _
                (memory_set (Some address) 0
                   sizeof_libewf_write_io_handle_t)) ]
    /\ libewf_write_io_handle_free
         (Some (Some (address, initial_write_io_handle)))
       = (1, None, [address], Some None)
    /\ libewf_write_io_handle_free (Some None) = (1, None, [], Some None).
Proof.
  apply (initialize_then_free obliging_world). reflexivity.
Defined.

(** X9: [libewf_write_io_handle_free] returns 1 for every argument, also
    for the [NULL] it sets an error for; it releases the data section and
    the table offsets that are set, each once, and the structure last;
    and it leaves [NULL] behind, so that freeing again releases
    nothing. *)
Theorem free_returns_1
    (write_io_handle : option (option (nat * libewf_write_io_handle_t))) :
  let '(result, error, blocks, after) :=
    libewf_write_io_handle_free write_io_handle in
  result = 1
  /\ (error = None <-> write_io_handle <> None)
  /\ libewf_write_io_handle_free after = (1, error, [], after)
  /\ forall address content,
       write_io_handle = Some (Some (address, content)) ->
       last blocks = Some address
       /\ length blocks
          = (length (released (WriteIoHandle.data_section content))
             + length (released (WriteIoHandle.table_offsets content))
             + 1)%nat
       /\ (forall p, WriteIoHandle.data_section content = Some p ->
             p ∈ blocks)
       /\ (forall p, WriteIoHandle.table_offsets content = Some p ->
             p ∈ blocks).
Proof.
  destruct write_io_handle as [[[address content] |] |]; cbn.
  - do 3 (split; [done |]).
    intros ? ? [= <- <-]. split; [by rewrite !last_app |].
    split; [rewrite !length_app; cbn; lia |].
    split; intros p ->; set_solver.
  - do 3 (split; [done |]). discriminate.
  - split; [done |]. split; [split; [discriminate | done] |]. done.
Qed.

(** ** What the writers keep *)

Lemma stops_in_run {St A : Type} (P : St -> Prop) (p : program St A) w :
  stops_in P p -> forall n, P (run w n p).2.
Proof.
  induction p as [r s | X c k IH]; intros Hp n; cbn [run stops_in] in *.
  - done.
  - specialize (IH (w n X c) (Hp _) (S n)).
    by destruct (run w (S n) (k (w n X c))) as [[? ?] ?].
Qed.

Lemma stops_in_then {St A B : Type} (P : St -> Prop) (p : program St A)
    (k : A -> St -> program St B) :
  stops_in P p -> (forall a s, P s -> stops_in P (k a s)) ->
  stops_in P (then_program p k).
Proof.
  induction p as [[a | e |] s | X c continue IH]; intros Hp Hk;
    cbn [then_program stops_in] in *; auto.
Qed.

Lemma stops_in_map_state {St St' A : Type} (f : St -> St')
    (P : St -> Prop) (Q : St' -> Prop) (p : program St A) :
  (forall s, P s -> Q (f s)) -> stops_in P p -> stops_in Q (map_state f p).
Proof.
  intros Hf. induction p as [r s | X c k IH]; intros Hp;
    cbn [map_state stops_in] in *; auto.
Qed.

Section Keeps.

Context {St : Type} (P : St -> Prop).

Lemma keeps_ret {A} (a : A) : keeps P (mret a : writer St A).
Proof. by intros s Hs. Qed.

Lemma keeps_bind {A B} (m : writer St A) (k : A -> writer St B) :
  keeps P m -> (forall a, keeps P (k a)) -> keeps P (m ≫= k).
Proof.
  intros Hm Hk s Hs. apply stops_in_then; [by apply Hm |].
  intros a s' Hs'. by apply Hk.
Qed.

Lemma keeps_fail {A} e : keeps P (fail e : writer St A).
Proof. by intros s Hs. Qed.

Lemma keeps_fail_silently {A} : keeps P (fail_silently : writer St A).
Proof. by intros s Hs. Qed.

Lemma keeps_lift {A} (r : outcome A) : keeps P (lift r : writer St A).
Proof. by intros s Hs. Qed.

Lemma keeps_do_call {X} (c : call X) : keeps P (do_call c : writer St X).
Proof. by intros s Hs x. Qed.

Lemma keeps_get : keeps P (get : writer St St).
Proof. by intros s Hs. Qed.

Lemma keeps_modify (f : St -> St) :
  (forall s, P s -> P (f s)) -> keeps P (modify f).
Proof. intros Hf s Hs. by apply Hf. Qed.

Lemma keeps_require {A} (p : option A) e : keeps P (require p e : writer St A).
Proof. destruct p; [apply keeps_ret | apply keeps_fail]. Qed.

Lemma keeps_array_read {A} (array : list A) index :
  keeps P (array_read array index : writer St A).
Proof.
  unfold array_read. destruct (array !! _); [apply keeps_ret | apply keeps_lift].
Qed.

Lemma keeps_dereference {A} (p : option A) :
  keeps P (dereference p : writer St A).
Proof. destruct p; [apply keeps_ret | apply keeps_lift]. Qed.

Lemma keeps_call_internal {A} (r : outcome A) e :
  keeps P (call_internal r e : writer St A).
Proof.
  destruct r; [apply keeps_ret | apply keeps_fail | apply keeps_lift].
Qed.

End Keeps.

(** A writer keeps [P]: by its structure. *)
Ltac keeps_step :=
  lazymatch goal with
  | |- keeps _ (mbind _ _) => apply keeps_bind; [| intros ?]
  | |- keeps _ (mret _) => apply keeps_ret
  | |- keeps _ (fail _) => apply keeps_fail
  | |- keeps _ fail_silently => apply keeps_fail_silently
  | |- keeps _ (lift _) => apply keeps_lift
  | |- keeps _ (do_call _) => apply keeps_do_call
  | |- keeps _ get => apply keeps_get
  | |- keeps _ (require _ _) => apply keeps_require
  | |- keeps _ (array_read _ _) => apply keeps_array_read
  | |- keeps _ (dereference _) => apply keeps_dereference
  | |- keeps _ (call_internal _ _) => apply keeps_call_internal
  | |- keeps _ (modify _) => apply keeps_modify
  | |- keeps _ (if ?c then _ else _) => destruct c
  | |- keeps _ (match ?x with _ => _ end) => destruct x
  end.

Section WriteNewChunkKeeps.

Variable io_handle : libewf_io_handle_t.
Variable media_values : libewf_media_values_t.
Variable offset_table : libewf_offset_table_t.
Variable segment_table : libewf_segment_table_t.
Variable segment_file_handles : list (option libewf_segment_file_handle_t).
Variable header_values : option nat.
Variable hash_values : option nat.
Variable header_sections : option libewf_header_sections_t.
Variable hash_sections sessions acquiry_errors : option nat.
Variable chunk : Z.
Variable chunk_buffer : pointer.
Variable chunk_size chunk_data_size is_compressed chunk_crc write_crc : Z.

Variable kept : Z * Z * Z * Z * Z * Z * Z.

Local Abbreviation P := (fun h => settings h = kept).

Lemma write_new_chunk_checked_keeps_settings :
  keeps P
    (write_new_chunk_checked io_handle media_values offset_table
       segment_table segment_file_handles header_values hash_values
       header_sections hash_sections sessions acquiry_errors chunk
       chunk_buffer chunk_size chunk_data_size is_compressed chunk_crc
       write_crc).
Proof.
  unfold write_new_chunk_checked, open_segment_file, open_chunks_section,
    append_chunk_data, close_chunks_section_if_full,
    close_segment_file_if_full, grow_table_offsets, account_write,
    determine_chunks_per_segment.
  repeat keeps_step.
  all: intros [] Hkept; exact Hkept.
Qed.

End WriteNewChunkKeeps.

(** X10: whatever its arguments and whatever the calls it makes answer,
    [libewf_write_io_handle_write_new_chunk] leaves the settings of the
    write io handle as they were: the sizes of the segment files, the
    maxima of chunks and segments, the lifted restriction of the offset
    amount and the mark of a finalized write.  It updates counters only,
    and it never finalizes the write. *)
Theorem write_new_chunk_keeps_settings (w : world)
    (write_io_handle : libewf_write_io_handle_t)
    (io_handle : option libewf_io_handle_t)
    (media_values : option libewf_media_values_t)
    (offset_table : option libewf_offset_table_t)
    (segment_table : option libewf_segment_table_t)
    (header_values : option (option nat))
    (hash_values : option nat)
    (header_sections : option libewf_header_sections_t)
    (hash_sections sessions acquiry_errors : option nat)
    (chunk : Z) (chunk_buffer : pointer)
    (chunk_size chunk_data_size is_compressed chunk_crc write_crc : Z) :
  exists after,
    run_state w
      (libewf_write_io_handle_write_new_chunk (Some write_io_handle)
         io_handle media_values offset_table segment_table header_values
         hash_values header_sections hash_sections sessions acquiry_errors
         chunk chunk_buffer chunk_size chunk_data_size is_compressed
         chunk_crc write_crc)
    = Some after
    /\ settings after = settings write_io_handle.
Proof.
  unfold run_state.
  apply (stops_in_run
           (fun s => exists after,
              s = Some after /\ settings after = settings write_io_handle)).
  unfold libewf_write_io_handle_write_new_chunk, with_write_io_handle.
  apply (stops_in_map_state Some
           (fun h => settings h = settings write_io_handle)); [by eauto |].
  cut (keeps (fun h => settings h = settings write_io_handle)
         (io_handle ← require io_handle LIBERROR_ARGUMENT_ERROR_INVALID_VALUE;
          media_values ←
            require media_values LIBERROR_ARGUMENT_ERROR_INVALID_VALUE;
          offset_table ←
            require offset_table LIBERROR_ARGUMENT_ERROR_INVALID_VALUE;
          segment_table ←
            require segment_table LIBERROR_ARGUMENT_ERROR_INVALID_VALUE;
          segment_file_handles ←
            require (SegmentTable.segment_file_handle segment_table)
              LIBERROR_RUNTIME_ERROR_VALUE_MISSING;
          header_values ←
            require header_values LIBERROR_ARGUMENT_ERROR_INVALID_VALUE;
          write_new_chunk_checked io_handle media_values offset_table
            segment_table segment_file_handles header_values hash_values
            header_sections hash_sections sessions acquiry_errors chunk
            chunk_buffer chunk_size chunk_data_size is_compressed chunk_crc
            write_crc)); [by intros Hkeeps; apply Hkeeps |].
  repeat keeps_step.
  apply write_new_chunk_checked_keeps_settings.
Qed.

Section WriteExistingChunkKeeps.

Variable sizeof_ewfx_delta_chunk_header_t : Z.
Variable write_io_handle : libewf_write_io_handle_t.

Local Abbreviation but_data_section :=
  (fun h => exists data_section,
     h = WriteIoHandle.set_data_section data_section write_io_handle).

Lemma write_existing_chunk_checked_keeps io_handle media_values offset_table
    delta_segment_table delta_segment_file_handles header_sections chunk
    chunk_buffer chunk_size is_compressed chunk_crc write_crc chunk_offset :
  keeps but_data_section
    (write_existing_chunk_checked sizeof_ewfx_delta_chunk_header_t io_handle
       media_values offset_table delta_segment_table
       delta_segment_file_handles header_sections chunk chunk_buffer
       chunk_size is_compressed chunk_crc write_crc chunk_offset).
Proof.
  unfold write_existing_chunk_checked, append_to_delta_segment_files,
    reuse_last_delta_segment_file.
  repeat keeps_step.
  intros h [data_section ->]. eexists. by destruct write_io_handle.
Qed.

(** X11: whatever its arguments and whatever the calls it makes answer,
    [libewf_write_io_handle_write_existing_chunk] leaves the write io
    handle as it was but for [data_section], which
    [libewf_segment_file_write_start] may set when a new delta segment
    file is started: a chunk written again counts neither as input nor
    as a chunk of a segment file or of a section. *)
Theorem write_existing_chunk_keeps_counters (w : world)
    (io_handle : option libewf_io_handle_t)
    (media_values : option libewf_media_values_t)
    (offset_table : option libewf_offset_table_t)
    (delta_segment_table : option libewf_segment_table_t)
    (header_sections : option libewf_header_sections_t)
    (chunk : Z) (chunk_buffer : pointer)
    (chunk_size chunk_data_size is_compressed chunk_crc write_crc : Z) :
  exists data_section,
    run_state w
      (libewf_write_io_handle_write_existing_chunk
         sizeof_ewfx_delta_chunk_header_t (Some write_io_handle) io_handle
         media_values offset_table delta_segment_table header_sections chunk
         chunk_buffer chunk_size chunk_data_size is_compressed chunk_crc
         write_crc)
    = Some (WriteIoHandle.set_data_section data_section write_io_handle).
Proof.
  unfold run_state.
  apply (stops_in_run
           (fun s => exists data_section,
              s = Some (WriteIoHandle.set_data_section data_section
                          write_io_handle))).
  unfold libewf_write_io_handle_write_existing_chunk, with_write_io_handle.
  apply (stops_in_map_state Some but_data_section).
  { intros h [data_section ->]. by eexists. }
  cut (keeps but_data_section
         (io_handle ← require io_handle LIBERROR_ARGUMENT_ERROR_INVALID_VALUE;
          media_values ←
            require media_values LIBERROR_ARGUMENT_ERROR_INVALID_VALUE;
          offset_table ←
            require offset_table LIBERROR_ARGUMENT_ERROR_INVALID_VALUE;
          chunk_offset ←
            require (OffsetTable.chunk_offset offset_table)
              LIBERROR_RUNTIME_ERROR_VALUE_MISSING;
          delta_segment_table ←
            require delta_segment_table LIBERROR_ARGUMENT_ERROR_INVALID_VALUE;
          delta_segment_file_handles ←
            require (SegmentTable.segment_file_handle delta_segment_table)
              LIBERROR_RUNTIME_ERROR_VALUE_MISSING;
          write_existing_chunk_checked sizeof_ewfx_delta_chunk_header_t
            io_handle media_values offset_table delta_segment_table
            delta_segment_file_handles header_sections chunk chunk_buffer
            chunk_size is_compressed chunk_crc write_crc chunk_offset)).
  { intros Hkeeps. apply Hkeeps. exists (WriteIoHandle.data_section
                                            write_io_handle).
    by destruct write_io_handle. }
  repeat keeps_step.
  apply write_existing_chunk_checked_keeps.
Qed.

End WriteExistingChunkKeeps.

(** ** Errors of the arguments *)

Lemma never_fails_with_run {St A : Type} (E : liberror -> bool)
    (p : program St A) w :
  never_fails_with E p ->
  forall n e, (run w n p).1.2 = Failed (Some e) -> E e = false.
Proof.
  induction p as [r s | X c k IH]; intros Hp n e; cbn [run never_fails_with] in *.
  - simpl. intros ->. exact Hp.
  - specialize (IH (w n X c) (Hp _) (S n) e).
    by destruct (run w (S n) (k (w n X c))) as [[? ?] ?].
Qed.

Lemma fails_first_run {St A : Type} (E : liberror -> bool)
    (p : program St A) w e :
  fails_first E p ->
  (run w 0 p).1.2 = Failed (Some e) -> E e = true ->
  (run w 0 p).1.1 = [] /\ exists r s, p = Stop r s.
Proof.
  destruct p as [r s | X c k]; intros Hp Hfailed He.
  - split; [done | by eauto].
  - apply (never_fails_with_run E (Call c k) w) in Hfailed; [congruence |].
    exact Hp.
Qed.

Lemma never_fails_with_then {St A B : Type} (E : liberror -> bool)
    (p : program St A) (k : A -> St -> program St B) :
  never_fails_with E p -> (forall a s, never_fails_with E (k a s)) ->
  never_fails_with E (then_program p k).
Proof.
  induction p as [[a | [e |] |] s | X c continue IH]; intros Hp Hk;
    cbn [then_program never_fails_with] in *; auto.
Qed.

Lemma never_fails_with_map_state {St St' A : Type} (f : St -> St')
    (E : liberror -> bool) (p : program St A) :
  never_fails_with E p -> never_fails_with E (map_state f p).
Proof.
  induction p as [[a | [e |] |] s | X c k IH]; intros Hp;
    cbn [map_state never_fails_with] in *; auto.
Qed.

Lemma fails_first_map_state {St St' A : Type} (f : St -> St')
    (E : liberror -> bool) (p : program St A) :
  fails_first E p -> fails_first E (map_state f p).
Proof.
  destruct p as [r s | X c k]; cbn [map_state fails_first]; [done |].
  intros Hp x. by apply never_fails_with_map_state.
Qed.

Lemma fails_first_of_never {St A : Type} (E : liberror -> bool)
    (p : program St A) :
  never_fails_with E p -> fails_first E p.
Proof. destruct p; cbn; auto. Qed.

(** A step that makes no call, before a writer that fails first. *)
Lemma fails_first_then_stop {St A B : Type} (E : liberror -> bool)
    (r : outcome A) (s : St) (k : A -> St -> program St B) :
  (forall a, r = Returned a -> fails_first E (k a s)) ->
  fails_first E (then_program (Stop r s) k).
Proof. destruct r as [a | e |]; cbn [then_program]; [auto | done | done]. Qed.

Section NoFailure.

Context {St : Type} (E : liberror -> bool).

Lemma no_failure_ret {A} (a : A) : no_failure E (mret a : writer St A).
Proof. by intros s. Qed.

Lemma no_failure_bind {A B} (m : writer St A) (k : A -> writer St B) :
  no_failure E m -> (forall a, no_failure E (k a)) -> no_failure E (m ≫= k).
Proof.
  intros Hm Hk s. apply never_fails_with_then; [apply Hm |].
  intros a s'. apply Hk.
Qed.

Lemma no_failure_fail {A} e : E e = false -> no_failure E (fail e : writer St A).
Proof. by intros He s. Qed.

Lemma no_failure_lift {A} (r : outcome A) :
  (forall e, r <> Failed e) -> no_failure E (lift r : writer St A).
Proof.
  intros Hr s. cbn. destruct r as [a | [e |] |]; try done.
  by destruct (Hr (Some e)).
Qed.

Lemma no_failure_do_call {X} (c : call X) : no_failure E (do_call c : writer St X).
Proof. by intros s x. Qed.

Lemma no_failure_get : no_failure E (get : writer St St).
Proof. by intros s. Qed.

Lemma no_failure_modify (f : St -> St) : no_failure E (modify f).
Proof. by intros s. Qed.

Lemma no_failure_require {A} (p : option A) e :
  E e = false -> no_failure E (require p e : writer St A).
Proof. intros He. destruct p; [apply no_failure_ret | by apply no_failure_fail]. Qed.

Lemma no_failure_array_read {A} (array : list A) index :
  no_failure E (array_read array index : writer St A).
Proof. unfold array_read. by destruct (array !! _); intros s. Qed.

End NoFailure.

Lemma failing_first_bind {St A B : Type} (E : liberror -> bool)
    (m : writer St A) (k : A -> writer St B) :
  silent m -> (forall a, failing_first E (k a)) ->
  failing_first E (m ≫= k).
Proof.
  intros Hm Hk s. unfold mbind, writer_bind.
  destruct (Hm s) as [r ->]. apply fails_first_then_stop.
  intros a _. apply Hk.
Qed.

Lemma failing_first_of_no_failure {St A : Type} (E : liberror -> bool)
    (m : writer St A) :
  no_failure E m -> failing_first E m.
Proof. intros Hm s. apply fails_first_of_never, Hm. Qed.

Lemma add_int64_not_failed a b e : add_int64 a b <> Failed e.
Proof. unfold add_int64. by case_match. Qed.

(** A writer makes no call: a test, a look-up or a value. *)
Ltac silent_step :=
  intros ?; unfold require, array_read, fail, lift, mret, writer_ret;
  repeat case_match; eexists; reflexivity.

Ltac no_failure_step :=
  lazymatch goal with
  | |- no_failure _ (mbind _ _) => apply no_failure_bind; [| intros ?]
  | |- no_failure _ (mret _) => apply no_failure_ret
  | |- no_failure _ (fail _) => apply no_failure_fail; reflexivity
  | |- no_failure _ (lift (add_int64 _ _)) =>
      apply no_failure_lift; intros ?; apply add_int64_not_failed
  | |- no_failure _ (do_call _) => apply no_failure_do_call
  | |- no_failure _ get => apply no_failure_get
  | |- no_failure _ (modify _) => apply no_failure_modify
  | |- no_failure _ (require _ _) => apply no_failure_require; reflexivity
  | |- no_failure _ (array_read _ _) => apply no_failure_array_read
  | |- no_failure _ (if ?c then _ else _) => destruct c
  | |- no_failure _ (match ?x with _ => _ end) => destruct x
  end.

(** X12: [libewf_write_io_handle_write_existing_chunk] checks its
    arguments before it makes any call: whenever it fails with an error
    of the arguments domain, it has called nothing, whatever the
    arguments and whatever the calls would have answered. *)
Theorem write_existing_chunk_checks_arguments_first (w : world)
    (sizeof_ewfx_delta_chunk_header_t : Z)
    (write_io_handle : option libewf_write_io_handle_t)
    (io_handle : option libewf_io_handle_t)
    (media_values : option libewf_media_values_t)
    (offset_table : option libewf_offset_table_t)
    (delta_segment_table : option libewf_segment_table_t)
    (header_sections : option libewf_header_sections_t)
    (chunk : Z) (chunk_buffer : pointer)
    (chunk_size chunk_data_size is_compressed chunk_crc write_crc : Z)
    (e : liberror) :
  run_outcome w
    (libewf_write_io_handle_write_existing_chunk
       sizeof_ewfx_delta_chunk_header_t write_io_handle io_handle
       media_values offset_table delta_segment_table header_sections chunk
       chunk_buffer chunk_size chunk_data_size is_compressed chunk_crc
       write_crc)
  = Failed (Some e) ->
  argument_error e = true ->
  run_trace w
    (libewf_write_io_handle_write_existing_chunk
       sizeof_ewfx_delta_chunk_header_t write_io_handle io_handle
       media_values offset_table delta_segment_table header_sections chunk
       chunk_buffer chunk_size chunk_data_size is_compressed chunk_crc
       write_crc)
  = [].
Proof.
  intros Hfailed Hargument.
  refine (proj1 (fails_first_run argument_error _ w e _ Hfailed Hargument)).
  clear Hfailed.
  unfold libewf_write_io_handle_write_existing_chunk, with_write_io_handle.
  destruct write_io_handle as [content |]; [| done].
  apply fails_first_map_state.
  revert content.
  change (failing_first argument_error
    (io_handle ← require io_handle LIBERROR_ARGUMENT_ERROR_INVALID_VALUE;
     media_values ← require media_values LIBERROR_ARGUMENT_ERROR_INVALID_VALUE;
     offset_table ← require offset_table LIBERROR_ARGUMENT_ERROR_INVALID_VALUE;
     chunk_offset ←
       require (OffsetTable.chunk_offset offset_table)
         LIBERROR_RUNTIME_ERROR_VALUE_MISSING;
     delta_segment_table ←
       require delta_segment_table LIBERROR_ARGUMENT_ERROR_INVALID_VALUE;
     delta_segment_file_handles ←
       require (SegmentTable.segment_file_handle delta_segment_table)
         LIBERROR_RUNTIME_ERROR_VALUE_MISSING;
     write_existing_chunk_checked sizeof_ewfx_delta_chunk_header_t io_handle
       media_values offset_table delta_segment_table
       delta_segment_file_handles header_sections chunk chunk_buffer
       chunk_size is_compressed chunk_crc write_crc chunk_offset)).
  unfold write_existing_chunk_checked.
  repeat (apply failing_first_bind; [solve [silent_step] | intros ?]).
  apply failing_first_of_no_failure.
  unfold append_to_delta_segment_files, reuse_last_delta_segment_file.
  repeat no_failure_step.
Qed.

Lemma write_existing_chunk_checks_arguments_first_witness :
  run_trace obliging_world
    (libewf_write_io_handle_write_existing_chunk 18
       (Some initial_write_io_handle) (Some example_io_handle)
       (Some media_of_one_chunk) (Some offset_table_of_one_chunk)
       (Some delta_segment_table_of_one_file) None 0 (Some 1%nat) 65536 65536
       1 0 1)
  = [].
Proof.
  apply (write_existing_chunk_checks_arguments_first obliging_world 18
           (Some initial_write_io_handle) (Some example_io_handle)
           (Some media_of_one_chunk) (Some offset_table_of_one_chunk)
           (Some delta_segment_table_of_one_file) None 0 (Some 1%nat) 65536
           65536 1 0 1 LIBERROR_ARGUMENT_ERROR_CONFLICTING_VALUE);
    reflexivity.
Defined.

(** ** Writing an existing chunk: the other paths *)

Section DeltaOverwritePath.

Variable sizeof_ewfx_delta_chunk_header_t : Z.
Variable write_io_handle : libewf_write_io_handle_t.
Variable io_handle : libewf_io_handle_t.
Variable media_values : libewf_media_values_t.
Variable offset_table : libewf_offset_table_t.
Variable delta_segment_table : libewf_segment_table_t.
Variable header_sections : option libewf_header_sections_t.
Variable chunk : Z.
Variable chunk_buffer : block.
Variable chunk_size chunk_data_size chunk_crc write_crc : Z.
Variable chunk_offset : list OffsetTable.libewf_chunk_offset_t.
Variable entry : OffsetTable.libewf_chunk_offset_t.
Variable owner : libewf_segment_file_handle_t.
Variable delta_segment_file_handles
  : list (option libewf_segment_file_handle_t).

Local Abbreviation write_existing_chunk :=
  (libewf_write_io_handle_write_existing_chunk
     sizeof_ewfx_delta_chunk_header_t (Some write_io_handle) (Some io_handle)
     (Some media_values) (Some offset_table) (Some delta_segment_table)
     header_sections chunk (Some chunk_buffer) chunk_size chunk_data_size 0
     chunk_crc write_crc).

(** The start of the section of the delta chunk: the header of the delta
    chunk and the section header stand before the chunk data. *)
Local Abbreviation section_offset :=
  (sub_assign_int64_size_t
     (sub_assign_int64_size_t (OffsetTable.file_offset entry)
        sizeof_ewfx_delta_chunk_header_t)
     sizeof_ewf_section_t).

Local Abbreviation seek :=
  (libbfio_pool_seek_offset (IoHandle.file_io_pool io_handle)
     (SegmentFileHandle.file_io_pool_entry owner) section_offset).

Local Abbreviation write_delta_chunk :=
  (libewf_segment_file_write_delta_chunk (Some owner) io_handle offset_table
     chunk (Some chunk_buffer) chunk_size chunk_crc write_crc 1).

(** X13: a chunk that a delta segment file holds already is written
    over in place: the function seeks the start of the section of the
    delta chunk in that segment file and writes the delta chunk there,
    with no section appended; it writes no last section, creates no
    segment file and leaves the write io handle as it was.  It returns
    what the write of the delta chunk returned. *)
Theorem write_existing_chunk_overwrites_delta_chunk (w : world) :
  OffsetTable.chunk_offset offset_table = Some chunk_offset ->
  0 <= chunk < OffsetTable.amount_of_chunk_offsets offset_table ->
  chunk_offset !! Z.to_nat chunk = Some entry ->
  OffsetTable.segment_file_handle entry = Some owner ->
  SegmentFileHandle.file_type owner = LIBEWF_SEGMENT_FILE_TYPE_DWF ->
  SegmentTable.segment_file_handle delta_segment_table
  = Some delta_segment_file_handles ->
  0 < chunk_size <= SSIZE_MAX ->
  let sought := w 0%nat _ seek in
  let written := w 1%nat _ write_delta_chunk in
  run w 0 write_existing_chunk
  = if sought =? -1
    then ([Event seek sought],
          Failed (Some LIBERROR_IO_ERROR_SEEK_FAILED), Some write_io_handle)
    else ([Event seek sought; Event write_delta_chunk written],
          (if written =? -1
           then Failed (Some LIBERROR_IO_ERROR_WRITE_FAILED)
           else add_int64 0 written),
          Some write_io_handle).
Proof.
  intros Hoffsets Hchunk Hentry Howner Hdelta Hhandles Hsize sought written.
  subst sought written.
  unfold libewf_write_io_handle_write_existing_chunk.
  unfold_writer. rewrite Hoffsets. unfold_writer. rewrite Hhandles.
  unfold_writer. unfold write_existing_chunk_checked. unfold_writer.
  assert ((OffsetTable.amount_of_chunk_offsets offset_table <=? chunk) = false)
    as -> by lia.
  assert ((chunk_size =? 0) = false) as -> by lia.
  assert ((SSIZE_MAX <? chunk_size) = false) as -> by lia.
  cbn [then_program Z.eqb negb]. rewrite Hentry. cbn [then_program].
  rewrite Howner. cbn [then_program].
  rewrite (bool_decide_eq_true_2 _ Hdelta).
  cbn [negb then_program map_state run].
  destruct (w 0%nat Z seek =? -1); cbn [then_program map_state run];
    [reflexivity |].
  destruct (w 1%nat Z write_delta_chunk =? -1);
    cbn [then_program map_state run]; [reflexivity |].
  destruct (add_int64 0 (w 1%nat Z write_delta_chunk)) as [total | |];
    cbn [then_program map_state run Z.eqb]; reflexivity.
Qed.

End DeltaOverwritePath.

Lemma write_existing_chunk_overwrites_delta_chunk_witness :
  run obliging_world 0
    (libewf_write_io_handle_write_existing_chunk 18
       (Some initial_write_io_handle) (Some example_io_handle)
       (Some media_of_one_chunk) (Some offset_table_of_one_delta_chunk)
       (Some delta_segment_table_of_one_file) None 0 (Some 1%nat) 65536 65536
       0 0 1)
  = ([ Event (libbfio_pool_seek_offset (Some 7%nat) 2 906) 906;
       Event (libewf_segment_file_write_delta_chunk (Some delta_segment_file)
                example_io_handle offset_table_of_one_delta_chunk 0
                (Some 1%nat) 65536 0 1 1) 100 ],
     Returned 100, Some initial_write_io_handle).
Proof.
  apply (write_existing_chunk_overwrites_delta_chunk 18
           initial_write_io_handle example_io_handle media_of_one_chunk
           offset_table_of_one_delta_chunk delta_segment_table_of_one_file
           None 0 1%nat 65536 65536 0 1
           [ {| OffsetTable.segment_file_handle := Some delta_segment_file;
                OffsetTable.file_offset := 1000 |} ]
           {| OffsetTable.segment_file_handle := Some delta_segment_file;
              OffsetTable.file_offset := 1000 |}
           delta_segment_file [None; Some delta_segment_file]
           obliging_world);
    by vm_compute.
Defined.

Section FirstDeltaSegmentFilePath.

Variable sizeof_ewfx_delta_chunk_header_t : Z.
Variable write_io_handle : libewf_write_io_handle_t.
Variable io_handle : libewf_io_handle_t.
Variable media_values : libewf_media_values_t.
Variable offset_table : libewf_offset_table_t.
Variable delta_segment_table : libewf_segment_table_t.
Variable header_sections : option libewf_header_sections_t.
Variable chunk : Z.
Variable chunk_buffer : block.
Variable chunk_size chunk_data_size chunk_crc write_crc : Z.
Variable chunk_offset : list OffsetTable.libewf_chunk_offset_t.
Variable entry : OffsetTable.libewf_chunk_offset_t.
Variable owner : libewf_segment_file_handle_t.
Variable delta_segment_file_handles
  : list (option libewf_segment_file_handle_t).

Local Abbreviation write_existing_chunk :=
  (libewf_write_io_handle_write_existing_chunk
     sizeof_ewfx_delta_chunk_header_t (Some write_io_handle) (Some io_handle)
     (Some media_values) (Some offset_table) (Some delta_segment_table)
     header_sections chunk (Some chunk_buffer) chunk_size chunk_data_size 0
     chunk_crc write_crc).

(** X14: the first chunk written again, when the delta segment table
    holds no delta segment file yet: in every world the run of the
    function is the creation of delta segment file 1, then the write of
    its start, of the delta chunk with a section appended and of a last
    section "done", all three into the segment file that the creation
    answered; no offset is asked for and nothing is sought.  The function
    fails at the first call that fails, with the error of that call and
    without a further call; otherwise it returns the sum of the bytes
    written.  The write io handle is left as it was, but for the data
    section that the write of the start stored. *)
Theorem write_existing_chunk_starts_delta_segment_file (w : world) :
  OffsetTable.chunk_offset offset_table = Some chunk_offset ->
  0 <= chunk < OffsetTable.amount_of_chunk_offsets offset_table ->
  chunk_offset !! Z.to_nat chunk = Some entry ->
  OffsetTable.segment_file_handle entry = Some owner ->
  SegmentFileHandle.file_type owner <> LIBEWF_SEGMENT_FILE_TYPE_DWF ->
  SegmentTable.segment_file_handle delta_segment_table
  = Some delta_segment_file_handles ->
  SegmentTable.amount delta_segment_table = 1 ->
  0 < chunk_size <= SSIZE_MAX ->
  run w 0 write_existing_chunk
  = expected_new_delta_segment_file w write_io_handle io_handle media_values
      offset_table delta_segment_table header_sections chunk
      (Some chunk_buffer) chunk_size chunk_crc write_crc 0 1 0.
Proof.
  intros Hoffsets Hchunk Hentry Howner Hprimary Hhandles Hamount Hsize.
  unfold libewf_write_io_handle_write_existing_chunk.
  unfold_writer. rewrite Hoffsets. unfold_writer. rewrite Hhandles.
  unfold_writer. unfold write_existing_chunk_checked. unfold_writer.
  assert ((OffsetTable.amount_of_chunk_offsets offset_table <=? chunk) = false)
    as -> by lia.
  assert ((chunk_size =? 0) = false) as -> by lia.
  assert ((SSIZE_MAX <? chunk_size) = false) as -> by lia.
  cbn [then_program Z.eqb negb]. rewrite Hentry. cbn [then_program].
  rewrite Howner. cbn [then_program].
  rewrite (bool_decide_eq_false_2 _ Hprimary). cbn [negb].
  unfold append_to_delta_segment_files. rewrite Hamount.
  change (u16 (1 - 1)) with 0. change (u16 (0 + 1)) with 1.
  change (1 <? 0) with false. change (0 =? 0) with true.
  unfold_writer. cbn [negb then_program map_state run Z.eqb].
  unfold expected_new_delta_segment_file, expected_delta_chunk, expect,
    counting, failing.
  follow_expected w.
Qed.

End FirstDeltaSegmentFilePath.

(** X14, witness: chunk 0 of a primary segment file is written again
    with no delta segment file yet, in a world where every call succeeds
    and in one where the write of the start fails. *)
Lemma write_existing_chunk_starts_delta_segment_file_witness :
  run obliging_world 0
    (libewf_write_io_handle_write_existing_chunk 18
       (Some initial_write_io_handle) (Some example_io_handle)
       (Some media_of_one_chunk) (Some offset_table_of_one_chunk)
       (Some segment_table_without_files) None 0 (Some 1%nat)
       65536 65536 0 0 1)
  = ([ Event (libewf_segment_table_create_segment_file
                segment_table_without_files 1 example_io_handle 0
                LIBEWF_SEGMENT_FILE_TYPE_DWF)
         (1, Some created_segment_file);
       Event (libewf_segment_file_write_start (Some created_segment_file)
                example_io_handle 1 LIBEWF_SEGMENT_FILE_TYPE_DWF
                media_of_one_chunk None None)
         (100, None);
       Event (libewf_segment_file_write_delta_chunk
                (Some created_segment_file) example_io_handle
                offset_table_of_one_chunk 0 (Some 1%nat) 65536 0 1 0) 100;
       Event (libewf_segment_file_write_last_section
                (Some created_segment_file) example_io_handle 1) 100 ],
     Returned 300, Some initial_write_io_handle)
  /\ run (world_failing_at 1) 0
       (libewf_write_io_handle_write_existing_chunk 18
          (Some initial_write_io_handle) (Some example_io_handle)
          (Some media_of_one_chunk) (Some offset_table_of_one_chunk)
          (Some segment_table_without_files) None 0 (Some 1%nat)
          65536 65536 0 0 1)
     = ([ Event (libewf_segment_table_create_segment_file
                   segment_table_without_files 1 example_io_handle 0
                   LIBEWF_SEGMENT_FILE_TYPE_DWF)
            (1, Some created_segment_file);
          Event (libewf_segment_file_write_start (Some created_segment_file)
                   example_io_handle 1 LIBEWF_SEGMENT_FILE_TYPE_DWF
                   media_of_one_chunk None None)
            (-1, None) ],
        Failed (Some LIBERROR_IO_ERROR_WRITE_FAILED),
        Some initial_write_io_handle).
Proof.
  split.
  - apply (write_existing_chunk_starts_delta_segment_file 18
             initial_write_io_handle example_io_handle media_of_one_chunk
             offset_table_of_one_chunk segment_table_without_files
             None 0 1%nat 65536 65536 0 1
             [ {| OffsetTable.segment_file_handle :=
                    Some primary_segment_file;
                  OffsetTable.file_offset := 1000 |} ]
             {| OffsetTable.segment_file_handle := Some primary_segment_file;
                OffsetTable.file_offset := 1000 |}
             primary_segment_file [None] obliging_world
             eq_refl ltac:(by vm_compute) eq_refl eq_refl
             ltac:(discriminate) eq_refl eq_refl ltac:(by vm_compute)).
  - apply (write_existing_chunk_starts_delta_segment_file 18
             initial_write_io_handle example_io_handle media_of_one_chunk
             offset_table_of_one_chunk segment_table_without_files
             None 0 1%nat 65536 65536 0 1
             [ {| OffsetTable.segment_file_handle :=
                    Some primary_segment_file;
                  OffsetTable.file_offset := 1000 |} ]
             {| OffsetTable.segment_file_handle := Some primary_segment_file;
                OffsetTable.file_offset := 1000 |}
             primary_segment_file [None] (world_failing_at 1)
             eq_refl ltac:(by vm_compute) eq_refl eq_refl
             ltac:(discriminate) eq_refl eq_refl ltac:(by vm_compute)).
Defined.

(** ** Writing a new chunk: the counters *)

Section ChunkIntoOpenSection.

Variable write_io_handle : libewf_write_io_handle_t.
Variable io_handle : libewf_io_handle_t.
Variable media_values : libewf_media_values_t.
Variable offset_table : libewf_offset_table_t.
Variable segment_table : libewf_segment_table_t.
Variable segment_file_handles : list (option libewf_segment_file_handle_t).
Variable header_values : option nat.
Variable hash_values : option nat.
Variable header_sections : option libewf_header_sections_t.
Variable hash_sections sessions acquiry_errors : option nat.
Variable chunk : Z.
Variable chunk_buffer : block.
Variable chunk_size chunk_data_size is_compressed chunk_crc write_crc : Z.
(** The segment file that is written to, the bytes the write of the
    chunk data answers and the offset of the segment file after it. *)
Variable segment_file_handle : libewf_segment_file_handle_t.
Variable written segment_file_offset : Z.

Local Abbreviation write_new_chunk :=
  (libewf_write_io_handle_write_new_chunk (Some write_io_handle)
     (Some io_handle) (Some media_values) (Some offset_table)
     (Some segment_table) (Some header_values) hash_values header_sections
     hash_sections sessions acquiry_errors chunk (Some chunk_buffer)
     chunk_size chunk_data_size is_compressed chunk_crc write_crc).

Local Abbreviation write_chunks_data :=
  (libewf_segment_file_write_chunks_data (Some segment_file_handle) io_handle
     offset_table chunk (Some chunk_buffer) chunk_size is_compressed
     chunk_crc write_crc).

Local Abbreviation get_offset :=
  (libbfio_pool_get_offset (IoHandle.file_io_pool io_handle)
     (SegmentFileHandle.file_io_pool_entry segment_file_handle)).

(** The counters after the chunk. *)
Local Abbreviation input_written :=
  (add_assign_int64_size_t (WriteIoHandle.input_write_count write_io_handle)
     chunk_data_size).
Local Abbreviation remaining :=
  (sub_assign_int64_size_t
     (WriteIoHandle.remaining_segment_file_size write_io_handle - written)
     (u64 (2 * sizeof_ewf_table_offset_t))).
Local Abbreviation chunks_of_section :=
  (u32 (WriteIoHandle.section_amount_of_chunks write_io_handle + 1)).
Local Abbreviation chunks_written :=
  (u32 (WriteIoHandle.amount_of_chunks write_io_handle + 1)).

(** X15: a chunk that goes into the open chunks section of the open
    segment file, with room left after it: the function makes two calls,
    the write of the chunk data and the request for the offset, and
    returns the bytes written; the input count grows by the size of the
    chunk data, the write counts grow and the remaining size shrinks by
    the bytes written, the remaining size by the 8 bytes of two table
    offsets more, the three amounts of chunks grow by one, and nothing
    else in the write io handle changes. *)
Theorem write_new_chunk_counts_chunk (w : world) :
  chunk_is_set offset_table chunk = Returned false ->
  WriteIoHandle.write_finalized write_io_handle <> 1 ->
  MediaValues.amount_of_chunks media_values
  <= OffsetTable.amount_of_chunk_offsets offset_table ->
  0 < chunk_size <= SSIZE_MAX ->
  MediaValues.media_size media_values = 0
  \/ WriteIoHandle.input_write_count write_io_handle
     < s64 (MediaValues.media_size media_values) ->
  SegmentTable.segment_file_handle segment_table = Some segment_file_handles ->
  2 <= SegmentTable.amount segment_table <= UINT16_MAX ->
  segment_file_handles !! Z.to_nat (SegmentTable.amount segment_table - 1)
  = Some (Some segment_file_handle) ->
  SegmentFileHandle.write_open segment_file_handle <> 0 ->
  WriteIoHandle.create_chunks_section write_io_handle <> 1 ->
  w 0%nat _ write_chunks_data = written ->
  w 1%nat _ get_offset = (1, segment_file_offset) ->
  0 <= written <= INT64_MAX ->
  WriteIoHandle.write_count write_io_handle + written <= INT64_MAX ->
  INT64_MIN <= WriteIoHandle.write_count write_io_handle ->
  WriteIoHandle.chunks_section_write_count write_io_handle + written
  <= INT64_MAX ->
  INT64_MIN <= WriteIoHandle.chunks_section_write_count write_io_handle ->
  INT64_MIN
  <= WriteIoHandle.remaining_segment_file_size write_io_handle - written ->
  WriteIoHandle.remaining_segment_file_size write_io_handle <= INT64_MAX ->
  libewf_write_io_handle_test_chunks_section_full
    (WriteIoHandle.chunks_section_offset write_io_handle) remaining
    (Some media_values) input_written segment_file_offset
    (WriteIoHandle.maximum_section_amount_of_chunks write_io_handle)
    chunks_of_section chunks_written
    (WriteIoHandle.chunks_per_chunks_section write_io_handle)
    (IoHandle.format io_handle) (IoHandle.ewf_format io_handle)
    (WriteIoHandle.unrestrict_offset_amount write_io_handle)
  = Returned 0 ->
  run w 0 write_new_chunk
  = ([Event write_chunks_data written;
      Event get_offset (1, segment_file_offset)],
     Returned written,
     Some
       (WriteIoHandle.set_remaining_segment_file_size remaining
          (WriteIoHandle.set_amount_of_chunks chunks_written
             (WriteIoHandle.set_section_amount_of_chunks chunks_of_section
                (WriteIoHandle.set_segment_amount_of_chunks
                   (u32 (WriteIoHandle.segment_amount_of_chunks
                           write_io_handle + 1))
                   (WriteIoHandle.set_chunks_section_write_count
                      (WriteIoHandle.chunks_section_write_count
                         write_io_handle + written)
                      (WriteIoHandle.set_write_count
                         (WriteIoHandle.write_count write_io_handle + written)
                         (WriteIoHandle.set_input_write_count input_written
                            write_io_handle)))))))).
Proof.
  intros Hnot_set Hopen Htable Hsize Hinput Hhandles Hamount Hlast Hwrite_open
    Hsection Hwritten Hoffset Hpositive Hcount Hcount' Hsection_count
    Hsection_count' Hremaining Hremaining' Hnot_full.
  unfold libewf_write_io_handle_write_new_chunk. unfold_writer.
  rewrite Hhandles. unfold write_new_chunk_checked. unfold_writer.
  rewrite Hnot_set. cbn [then_program].
  rewrite (proj2 (Z.eqb_neq _ 1) Hopen).
  rewrite (proj2 (Z.ltb_ge _ _) Htable). cbn [then_program].
  assert ((chunk_size =? 0) = false) as -> by lia.
  assert ((SSIZE_MAX <? chunk_size) = false) as -> by lia.
  assert (negb (MediaValues.media_size media_values =? 0)
          && (s64 (MediaValues.media_size media_values)
              <=? WriteIoHandle.input_write_count write_io_handle) = false)
    as ->.
  { destruct Hinput as [-> | ?]; [done |].
    rewrite (proj2 (Z.leb_gt _ _)) by lia. apply andb_false_r. }
  rewrite (u16_small (SegmentTable.amount segment_table - 1))
    by (unfold_limits; lia).
  assert ((SegmentTable.amount segment_table
           <? SegmentTable.amount segment_table - 1) = false) as -> by lia.
  unfold open_segment_file. unfold_writer.
  assert ((SegmentTable.amount segment_table - 1 =? 0) = false) as -> by lia.
  rewrite Hlast. cbn [then_program].
  rewrite (proj2 (Z.eqb_neq _ 0) Hwrite_open). cbn [then_program].
  unfold open_chunks_section. unfold_writer.
  rewrite (proj2 (Z.eqb_neq _ 1) Hsection). cbn [then_program].
  unfold append_chunk_data. unfold_writer.
  cbn [then_program map_state run]. rewrite Hwritten.
  assert ((written <=? -1) = false) as -> by lia.
  cbn [then_program map_state run].
  rewrite (add_int64_in_range 0 written) by (unfold_limits; lia).
  cbn [then_program map_state run].
  rewrite (add_int64_in_range (WriteIoHandle.write_count write_io_handle))
    by (unfold_limits; lia).
  cbn [then_program map_state run].
  rewrite (add_int64_in_range
             (WriteIoHandle.chunks_section_write_count write_io_handle))
    by (unfold_limits; lia).
  cbn [then_program map_state run].
  rewrite (sub_int64_in_range
             (WriteIoHandle.remaining_segment_file_size write_io_handle))
    by (unfold_limits; lia).
  cbn [then_program map_state run]. rewrite Hoffset.
  change (1 =? 1) with true.
  cbn [then_program map_state run negb].
  unfold close_chunks_section_if_full. unfold_writer.
  match goal with
  | |- context [libewf_write_io_handle_test_chunks_section_full
                  ?a ?b ?c ?d ?e ?f ?g ?h ?i ?j ?k ?l] =>
      replace (libewf_write_io_handle_test_chunks_section_full
                 a b c d e f g h i j k l)
        with (Returned 0 : outcome Z) by (symmetry; exact Hnot_full)
  end.
  cbn [then_program map_state run Z.eqb].
  rewrite Z.add_0_l. reflexivity.
Qed.

End ChunkIntoOpenSection.

Lemma write_new_chunk_counts_chunk_witness :
  (run obliging_world 0
     (libewf_write_io_handle_write_new_chunk
        (Some write_io_handle_in_section) (Some example_io_handle)
        (Some (media_of_chunk_size 65536)) (Some offset_table_of_one_chunk)
        (Some segment_table_of_one_file) (Some (Some 5%nat)) None None None
        None None 1 (Some 1%nat) 65536 65536 0 0 1)).1.2
  = Returned 100
  /\ (fun h => (WriteIoHandle.input_write_count h,
                WriteIoHandle.remaining_segment_file_size h,
                WriteIoHandle.amount_of_chunks h))
     <$> (run obliging_world 0
            (libewf_write_io_handle_write_new_chunk
               (Some write_io_handle_in_section) (Some example_io_handle)
               (Some (media_of_chunk_size 65536))
               (Some offset_table_of_one_chunk)
               (Some segment_table_of_one_file) (Some (Some 5%nat)) None None
               None None None 1 (Some 1%nat) 65536 65536 0 0 1)).2
     = Some (131072, 999892, 2).
Proof.
  pose proof (write_new_chunk_counts_chunk write_io_handle_in_section
                example_io_handle (media_of_chunk_size 65536)
                offset_table_of_one_chunk segment_table_of_one_file
                [None; Some primary_segment_file] (Some 5%nat) None None None
                None None 1 1%nat 65536 65536 0 0 1 primary_segment_file 100
                1000 obliging_world) as Hrun.
  repeat match type of Hrun with
         | ?hypothesis -> _ =>
             let H := fresh in
             assert (H : hypothesis)
               by first [by vm_compute | left; reflexivity];
             specialize (Hrun H); clear H
         end.
  split.
  - exact (f_equal (fun x => x.1.2) Hrun).
  - exact (f_equal
             (fun x => (fun h => (WriteIoHandle.input_write_count h,
                                  WriteIoHandle.remaining_segment_file_size h,
                                  WriteIoHandle.amount_of_chunks h))
                       <$> x.2) Hrun).
Defined.

Section ChunkFillsSection.

Variable write_io_handle : libewf_write_io_handle_t.
Variable io_handle : libewf_io_handle_t.
Variable media_values : libewf_media_values_t.
Variable offset_table : libewf_offset_table_t.
Variable segment_table : libewf_segment_table_t.
Variable segment_file_handles : list (option libewf_segment_file_handle_t).
Variable header_values : option nat.
Variable hash_values : option nat.
Variable header_sections : option libewf_header_sections_t.
Variable hash_sections sessions acquiry_errors : option nat.
Variable chunk : Z.
Variable chunk_buffer : block.
Variable chunk_size chunk_data_size is_compressed chunk_crc write_crc : Z.
(** The segment file that is written to, the bytes the write of the
    chunk data answers and the offset of the segment file after it. *)
Variable segment_file_handle : libewf_segment_file_handle_t.
Variable written segment_file_offset corrected : Z.

Local Abbreviation write_new_chunk :=
  (libewf_write_io_handle_write_new_chunk (Some write_io_handle)
     (Some io_handle) (Some media_values) (Some offset_table)
     (Some segment_table) (Some header_values) hash_values header_sections
     hash_sections sessions acquiry_errors chunk (Some chunk_buffer)
     chunk_size chunk_data_size is_compressed chunk_crc write_crc).

Local Abbreviation write_chunks_data :=
  (libewf_segment_file_write_chunks_data (Some segment_file_handle) io_handle
     offset_table chunk (Some chunk_buffer) chunk_size is_compressed
     chunk_crc write_crc).

Local Abbreviation get_offset :=
  (libbfio_pool_get_offset (IoHandle.file_io_pool io_handle)
     (SegmentFileHandle.file_io_pool_entry segment_file_handle)).

(** The counters after the chunk. *)
Local Abbreviation input_written :=
  (add_assign_int64_size_t (WriteIoHandle.input_write_count write_io_handle)
     chunk_data_size).
Local Abbreviation remaining :=
  (sub_assign_int64_size_t
     (WriteIoHandle.remaining_segment_file_size write_io_handle - written)
     (u64 (2 * sizeof_ewf_table_offset_t))).
Local Abbreviation chunks_of_section :=
  (u32 (WriteIoHandle.section_amount_of_chunks write_io_handle + 1)).
Local Abbreviation chunks_written :=
  (u32 (WriteIoHandle.amount_of_chunks write_io_handle + 1)).

Local Abbreviation chunks_of_segment :=
  (u32 (WriteIoHandle.segment_amount_of_chunks write_io_handle + 1)).
Local Abbreviation section_written :=
  (WriteIoHandle.chunks_section_write_count write_io_handle + written).

Local Abbreviation write_chunks_correction :=
  (libewf_segment_file_write_chunks_correction (Some segment_file_handle)
     io_handle offset_table (WriteIoHandle.table_offsets write_io_handle)
     (WriteIoHandle.amount_of_table_offsets write_io_handle)
     (WriteIoHandle.chunks_section_offset write_io_handle)
     (u64 section_written) chunks_written chunks_of_section).

(** X18: a chunk that fills the open chunks section of a segment file
    that is not full: after the write of the chunk data and the request
    for the offset the function corrects the chunks section, handing over
    its offset, the bytes written to it and its amount of chunks; it
    returns the bytes of both writes, counts them in [write_count], and
    leaves [create_chunks_section] at 1 and [chunks_section_offset] at 0,
    so that the next chunk starts a new chunks section. *)
Theorem write_new_chunk_closes_full_section (w : world) :
  chunk_is_set offset_table chunk = Returned false ->
  WriteIoHandle.write_finalized write_io_handle <> 1 ->
  MediaValues.amount_of_chunks media_values
  <= OffsetTable.amount_of_chunk_offsets offset_table ->
  0 < chunk_size <= SSIZE_MAX ->
  MediaValues.media_size media_values = 0
  \/ WriteIoHandle.input_write_count write_io_handle
     < s64 (MediaValues.media_size media_values) ->
  SegmentTable.segment_file_handle segment_table = Some segment_file_handles ->
  2 <= SegmentTable.amount segment_table <= UINT16_MAX ->
  segment_file_handles !! Z.to_nat (SegmentTable.amount segment_table - 1)
  = Some (Some segment_file_handle) ->
  SegmentFileHandle.write_open segment_file_handle <> 0 ->
  WriteIoHandle.create_chunks_section write_io_handle <> 1 ->
  w 0%nat _ write_chunks_data = written ->
  w 1%nat _ get_offset = (1, segment_file_offset) ->
  w 2%nat _ write_chunks_correction = corrected ->
  0 <= written -> 0 <= corrected ->
  WriteIoHandle.write_count write_io_handle + written + corrected
  <= INT64_MAX ->
  0 <= WriteIoHandle.write_count write_io_handle ->
  section_written <= INT64_MAX ->
  INT64_MIN <= WriteIoHandle.chunks_section_write_count write_io_handle ->
  INT64_MIN
  <= WriteIoHandle.remaining_segment_file_size write_io_handle - written ->
  WriteIoHandle.remaining_segment_file_size write_io_handle <= INT64_MAX ->
  chunks_of_section
  <= WriteIoHandle.amount_of_table_offsets write_io_handle ->
  libewf_write_io_handle_test_chunks_section_full
    (WriteIoHandle.chunks_section_offset write_io_handle) remaining
    (Some media_values) input_written segment_file_offset
    (WriteIoHandle.maximum_section_amount_of_chunks write_io_handle)
    chunks_of_section chunks_written
    (WriteIoHandle.chunks_per_chunks_section write_io_handle)
    (IoHandle.format io_handle) (IoHandle.ewf_format io_handle)
    (WriteIoHandle.unrestrict_offset_amount write_io_handle)
  = Returned 1 ->
  libewf_write_io_handle_test_segment_file_full remaining chunks_of_segment
    (Some media_values) input_written
    (WriteIoHandle.chunks_per_segment write_io_handle) chunks_written
    (IoHandle.format io_handle) (IoHandle.ewf_format io_handle)
  = Returned 0 ->
  run w 0 write_new_chunk
  = ([Event write_chunks_data written;
      Event get_offset (1, segment_file_offset);
      Event write_chunks_correction corrected],
     Returned (written + corrected),
     Some
       (WriteIoHandle.set_chunks_section_offset 0
          (WriteIoHandle.set_create_chunks_section 1
             (WriteIoHandle.set_write_count
                (WriteIoHandle.write_count write_io_handle + written
                 + corrected)
                (WriteIoHandle.set_remaining_segment_file_size remaining
                   (WriteIoHandle.set_amount_of_chunks chunks_written
                      (WriteIoHandle.set_section_amount_of_chunks
                         chunks_of_section
                         (WriteIoHandle.set_segment_amount_of_chunks
                            chunks_of_segment
                            (WriteIoHandle.set_chunks_section_write_count
                               section_written
                               (WriteIoHandle.set_input_write_count
                                  input_written write_io_handle)))))))))).
Proof.
  intros Hnot_set Hopen Htable Hsize Hinput Hhandles Hamount Hlast Hwrite_open
    Hsection Hwritten Hoffset Hcorrected Hpositive Hpositive' Hcount Hcount'
    Hsection_count Hsection_count' Hremaining Hremaining' Hoffsets Hfull
    Hsegment.
  unfold libewf_write_io_handle_write_new_chunk. unfold_writer.
  rewrite Hhandles. unfold write_new_chunk_checked. unfold_writer.
  rewrite Hnot_set. cbn [then_program].
  rewrite (proj2 (Z.eqb_neq _ 1) Hopen).
  rewrite (proj2 (Z.ltb_ge _ _) Htable). cbn [then_program].
  assert ((chunk_size =? 0) = false) as -> by lia.
  assert ((SSIZE_MAX <? chunk_size) = false) as -> by lia.
  assert (negb (MediaValues.media_size media_values =? 0)
          && (s64 (MediaValues.media_size media_values)
              <=? WriteIoHandle.input_write_count write_io_handle) = false)
    as ->.
  { destruct Hinput as [-> | ?]; [done |].
    rewrite (proj2 (Z.leb_gt _ _)) by lia. apply andb_false_r. }
  rewrite (u16_small (SegmentTable.amount segment_table - 1))
    by (unfold_limits; lia).
  assert ((SegmentTable.amount segment_table
           <? SegmentTable.amount segment_table - 1) = false) as -> by lia.
  unfold open_segment_file. unfold_writer.
  assert ((SegmentTable.amount segment_table - 1 =? 0) = false) as -> by lia.
  rewrite Hlast. cbn [then_program].
  rewrite (proj2 (Z.eqb_neq _ 0) Hwrite_open). cbn [then_program].
  unfold open_chunks_section. unfold_writer.
  rewrite (proj2 (Z.eqb_neq _ 1) Hsection). cbn [then_program].
  unfold append_chunk_data. unfold_writer.
  cbn [then_program map_state run]. rewrite Hwritten.
  assert ((written <=? -1) = false) as -> by lia.
  cbn [then_program map_state run].
  rewrite (add_int64_in_range 0 written) by (unfold_limits; lia).
  cbn [then_program map_state run].
  rewrite (add_int64_in_range (WriteIoHandle.write_count write_io_handle))
    by (unfold_limits; lia).
  cbn [then_program map_state run].
  rewrite (add_int64_in_range
             (WriteIoHandle.chunks_section_write_count write_io_handle))
    by (unfold_limits; lia).
  cbn [then_program map_state run].
  rewrite (sub_int64_in_range
             (WriteIoHandle.remaining_segment_file_size write_io_handle))
    by (unfold_limits; lia).
  cbn [then_program map_state run]. rewrite Hoffset.
  change (1 =? 1) with true.
  cbn [then_program map_state run negb].
  unfold close_chunks_section_if_full. unfold_writer.
  match goal with
  | |- context [libewf_write_io_handle_test_chunks_section_full
                  ?a ?b ?c ?d ?e ?f ?g ?h ?i ?j ?k ?l] =>
      replace (libewf_write_io_handle_test_chunks_section_full
                 a b c d e f g h i j k l)
        with (Returned 1 : outcome Z) by (symmetry; exact Hfull)
  end.
  cbn [then_program map_state run Z.eqb Pos.eqb].
  unfold grow_table_offsets. unfold_writer.
  match goal with
  | |- context [?a <? ?b] =>
      replace (a <? b) with false
        by (symmetry; apply Z.ltb_ge; exact Hoffsets)
  end.
  cbn [then_program map_state run].
  match goal with
  | |- context [w 2%nat Z ?c] =>
      replace (w 2%nat Z c) with corrected by (symmetry; exact Hcorrected)
  end.
  assert ((corrected =? -1) = false) as -> by lia.
  cbn [then_program map_state run].
  rewrite Z.add_0_l.
  rewrite (add_int64_in_range written corrected) by (unfold_limits; lia).
  cbn [then_program map_state run].
  rewrite (add_int64_in_range
             (WriteIoHandle.write_count write_io_handle + written))
    by (unfold_limits; lia).
  unfold close_segment_file_if_full. unfold_writer.
  match goal with
  | |- context [libewf_write_io_handle_test_segment_file_full
                  ?a ?b ?c ?d ?e ?f ?g ?h] =>
      replace (libewf_write_io_handle_test_segment_file_full
                 a b c d e f g h)
        with (Returned 0 : outcome Z) by (symmetry; exact Hsegment)
  end.
  cbn [then_program map_state run Z.eqb andb]. reflexivity.
Qed.

End ChunkFillsSection.

Lemma write_new_chunk_closes_full_section_witness :
  (run obliging_world 0
     (libewf_write_io_handle_write_new_chunk
        (Some (WriteIoHandle.set_section_amount_of_chunks 16374
                 (WriteIoHandle.set_amount_of_table_offsets 16375
                    write_io_handle_in_section)))
        (Some example_io_handle) (Some (media_of_chunk_size 65536))
        (Some offset_table_of_one_chunk) (Some segment_table_of_one_file)
        (Some (Some 5%nat)) None None None None None 1 (Some 1%nat) 65536
        65536 0 0 1)).1.2
  = Returned 200
  /\ (fun h => (WriteIoHandle.create_chunks_section h,
                WriteIoHandle.chunks_section_offset h,
                WriteIoHandle.write_count h))
     <$> (run obliging_world 0
            (libewf_write_io_handle_write_new_chunk
               (Some (WriteIoHandle.set_section_amount_of_chunks 16374
                        (WriteIoHandle.set_amount_of_table_offsets 16375
                           write_io_handle_in_section)))
               (Some example_io_handle) (Some (media_of_chunk_size 65536))
               (Some offset_table_of_one_chunk)
               (Some segment_table_of_one_file) (Some (Some 5%nat)) None None
               None None None 1 (Some 1%nat) 65536 65536 0 0 1)).2
     = Some (1, 0, 70200).
Proof.
  pose proof (write_new_chunk_closes_full_section
                (WriteIoHandle.set_section_amount_of_chunks 16374
                   (WriteIoHandle.set_amount_of_table_offsets 16375
                      write_io_handle_in_section))
                example_io_handle (media_of_chunk_size 65536)
                offset_table_of_one_chunk segment_table_of_one_file
                [None; Some primary_segment_file] (Some 5%nat) None None None
                None None 1 1%nat 65536 65536 0 0 1 primary_segment_file 100
                1000 100 obliging_world) as Hrun.
  repeat match type of Hrun with
         | ?hypothesis -> _ =>
             let H := fresh in
             assert (H : hypothesis)
               by first [by vm_compute | left; reflexivity];
             specialize (Hrun H); clear H
         end.
  split.
  - exact (f_equal (fun x => x.1.2) Hrun).
  - exact (f_equal
             (fun x => (fun h => (WriteIoHandle.create_chunks_section h,
                                  WriteIoHandle.chunks_section_offset h,
                                  WriteIoHandle.write_count h))
                       <$> x.2) Hrun).
Defined.

Section WriteNewChunkLateChecks.

Variable write_io_handle : libewf_write_io_handle_t.
Variable io_handle : libewf_io_handle_t.
Variable media_values : libewf_media_values_t.
Variable offset_table : libewf_offset_table_t.
Variable segment_table : libewf_segment_table_t.
Variable segment_file_handles : list (option libewf_segment_file_handle_t).
Variable header_values : option nat.
Variable hash_values : option nat.
Variable header_sections : option libewf_header_sections_t.
Variable hash_sections sessions acquiry_errors : option nat.
Variable chunk : Z.
Variable chunk_buffer : pointer.
Variable chunk_size chunk_data_size is_compressed chunk_crc write_crc : Z.

Local Abbreviation write_new_chunk :=
  (libewf_write_io_handle_write_new_chunk (Some write_io_handle)
     (Some io_handle) (Some media_values) (Some offset_table)
     (Some segment_table) (Some header_values) hash_values header_sections
     hash_sections sessions acquiry_errors chunk chunk_buffer chunk_size
     chunk_data_size is_compressed chunk_crc write_crc).

Local Abbreviation resize :=
  (libewf_offset_table_resize offset_table
     (MediaValues.amount_of_chunks media_values)).

(** X16: [libewf_write_io_handle_write_new_chunk] checks the chunk
    buffer and the chunk size only after it has resized the offset
    table: for a chunk that is not set, a write that is not finalized and
    an offset table of fewer entries than the media has chunks, a [NULL]
    chunk buffer or a chunk size of 0 or beyond [SSIZE_MAX] makes the
    function fail with the error of that argument after the call of
    [libewf_offset_table_resize], and with the error of the resize if
    that failed. *)
Theorem write_new_chunk_resizes_before_checks (w : world) :
  SegmentTable.segment_file_handle segment_table = Some segment_file_handles ->
  chunk_is_set offset_table chunk = Returned false ->
  WriteIoHandle.write_finalized write_io_handle <> 1 ->
  OffsetTable.amount_of_chunk_offsets offset_table
  < MediaValues.amount_of_chunks media_values ->
  chunk_buffer = None \/ chunk_size = 0 \/ SSIZE_MAX < chunk_size ->
  let answer := w 0%nat _ resize in
  run w 0 write_new_chunk
  = ([Event resize answer],
     Failed
       (Some
          (if negb (answer =? 1) then LIBERROR_RUNTIME_ERROR_RESIZE_FAILED
           else if is_null chunk_buffer
           then LIBERROR_ARGUMENT_ERROR_INVALID_VALUE
           else if chunk_size =? 0
           then LIBERROR_ARGUMENT_ERROR_VALUE_ZERO_OR_LESS
           else LIBERROR_ARGUMENT_ERROR_VALUE_EXCEEDS_MAXIMUM)),
     Some write_io_handle).
Proof.
  intros Hhandles Hnot_set Hopen Htable Hargument answer. subst answer.
  unfold libewf_write_io_handle_write_new_chunk. unfold_writer.
  rewrite Hhandles. unfold write_new_chunk_checked. unfold_writer.
  rewrite Hnot_set. cbn [then_program].
  rewrite (proj2 (Z.eqb_neq _ 1) Hopen).
  rewrite (proj2 (Z.ltb_lt _ _) Htable).
  cbn [then_program map_state run].
  destruct (w 0%nat Z resize =? 1); cbn [negb then_program map_state run];
    [| reflexivity].
  destruct chunk_buffer as [buffer |]; cbn [is_null]; [| reflexivity].
  destruct (Z.eqb_spec chunk_size 0) as [| Hsize]; [reflexivity |].
  rewrite (proj2 (Z.ltb_lt SSIZE_MAX chunk_size)); [reflexivity |].
  by destruct Hargument as [| [|]].
Qed.

End WriteNewChunkLateChecks.

Lemma write_new_chunk_resizes_before_checks_witness :
  run obliging_world 0
    (libewf_write_io_handle_write_new_chunk (Some initial_write_io_handle)
       (Some example_io_handle) (Some media_of_one_chunk)
       (Some offset_table_without_chunks) (Some segment_table_of_one_file)
       (Some (Some 5%nat)) None None None None None 0 None 65536 65536 0 0 1)
  = ([Event (libewf_offset_table_resize offset_table_without_chunks 1) 1],
     Failed (Some LIBERROR_ARGUMENT_ERROR_INVALID_VALUE),
     Some initial_write_io_handle).
Proof.
  apply (write_new_chunk_resizes_before_checks initial_write_io_handle
           example_io_handle media_of_one_chunk offset_table_without_chunks
           segment_table_of_one_file [None; Some primary_segment_file]
           (Some 5%nat) None None None None None 0 None 65536 65536 0 0 1
           obliging_world);
    try (by vm_compute).
  by left.
Defined.

Section FirstSegmentFile.

Variable write_io_handle : libewf_write_io_handle_t.
Variable io_handle : libewf_io_handle_t.
Variable media_values : libewf_media_values_t.
Variable offset_table : libewf_offset_table_t.
Variable segment_table : libewf_segment_table_t.
Variable segment_file_handles : list (option libewf_segment_file_handle_t).
Variable header_values : option nat.
Variable hash_values : option nat.
Variable sections : libewf_header_sections_t.
Variable hash_sections sessions acquiry_errors : option nat.
Variable chunk : Z.
Variable chunk_buffer : block.
Variable chunk_size chunk_data_size is_compressed chunk_crc write_crc : Z.

Local Abbreviation write_new_chunk :=
  (libewf_write_io_handle_write_new_chunk (Some write_io_handle)
     (Some io_handle) (Some media_values) (Some offset_table)
     (Some segment_table) (Some header_values) hash_values (Some sections)
     hash_sections sessions acquiry_errors chunk (Some chunk_buffer)
     chunk_size chunk_data_size is_compressed chunk_crc write_crc).

Local Abbreviation resize :=
  (libewf_offset_table_resize offset_table
     (MediaValues.amount_of_chunks media_values)).

Local Abbreviation create_segment_file :=
  (libewf_segment_table_create_segment_file segment_table 1 io_handle
     (WriteIoHandle.maximum_amount_of_segments write_io_handle)
     LIBEWF_SEGMENT_FILE_TYPE_EWF).

(** The counters of the segment file and of its chunks sections start
    over. *)
Local Abbreviation reset :=
  (WriteIoHandle.set_segment_amount_of_chunks 0
     (WriteIoHandle.set_chunks_per_chunks_section 0
        (WriteIoHandle.set_chunks_section_number 0
           (WriteIoHandle.set_create_chunks_section 1 write_io_handle)))).

(** X19: a chunk that is not set, for a write that is not finalized and
    has input left, with a chunk buffer and a chunk size within
    [SSIZE_MAX], header sections that hold a header and a segment table
    without segment file.  When the offset table has fewer entries than
    the media has chunks the first call resizes it, and the function
    fails for the resize, with the write io handle as it was, when that
    fails.  The next call, the first when the offset table is not
    resized, creates segment file 1 of type EWF.  When that fails the
    function fails for the open, with nothing written and only the
    counters of the segment file reset; otherwise the call after it
    writes the start of the segment file that the creation answered. *)
Theorem write_new_chunk_creates_first_segment_file (w : world) :
  chunk_is_set offset_table chunk = Returned false ->
  WriteIoHandle.write_finalized write_io_handle <> 1 ->
  0 < chunk_size <= SSIZE_MAX ->
  MediaValues.media_size media_values = 0
  \/ WriteIoHandle.input_write_count write_io_handle
     < s64 (MediaValues.media_size media_values) ->
  SegmentTable.segment_file_handle segment_table = Some segment_file_handles ->
  SegmentTable.amount segment_table = 1 ->
  HeaderSections.header sections <> None ->
  let resized :=
    if OffsetTable.amount_of_chunk_offsets offset_table
       <? MediaValues.amount_of_chunks media_values
    then [Event resize (w 0%nat _ resize)] else [] in
  let n := length resized in
  let created := w n _ create_segment_file in
  let write_start :=
    libewf_segment_file_write_start created.2 io_handle 1
      LIBEWF_SEGMENT_FILE_TYPE_EWF media_values (Some sections)
      (WriteIoHandle.data_section write_io_handle) in
  (OffsetTable.amount_of_chunk_offsets offset_table
   < MediaValues.amount_of_chunks media_values ->
   w 0%nat _ resize <> 1 ->
   run w 0 write_new_chunk
   = (resized, Failed (Some LIBERROR_RUNTIME_ERROR_RESIZE_FAILED),
      Some write_io_handle))
  /\ (MediaValues.amount_of_chunks media_values
      <= OffsetTable.amount_of_chunk_offsets offset_table
      \/ w 0%nat _ resize = 1 ->
      (created.1 <> 1 ->
       run w 0 write_new_chunk
       = (resized ++ [Event create_segment_file created],
          Failed (Some LIBERROR_IO_ERROR_OPEN_FAILED), Some reset))
      /\ (created.1 = 1 ->
          exists rest,
            run_trace w write_new_chunk
            = resized
              ++ Event create_segment_file created
                 :: Event write_start (w (S n) _ write_start) :: rest)).
Proof.
  intros Hnot_set Hopen Hsize Hinput Hhandles Hamount Hheader
    resized n created write_start.
  subst resized n created write_start.
  unfold run_trace, libewf_write_io_handle_write_new_chunk. unfold_writer.
  rewrite Hhandles. unfold write_new_chunk_checked. unfold_writer.
  rewrite Hnot_set. cbn [then_program].
  rewrite (proj2 (Z.eqb_neq _ 1) Hopen).
  assert ((chunk_size =? 0) = false) as -> by lia.
  assert ((SSIZE_MAX <? chunk_size) = false) as -> by lia.
  assert (negb (MediaValues.media_size media_values =? 0)
          && (s64 (MediaValues.media_size media_values)
              <=? WriteIoHandle.input_write_count write_io_handle) = false)
    as ->.
  { destruct Hinput as [-> | ?]; [done |].
    rewrite (proj2 (Z.leb_gt _ _)) by lia. apply andb_false_r. }
  rewrite Hamount. change (u16 (1 - 1)) with 0. change (1 <? 0) with false.
  unfold open_segment_file. unfold_writer.
  change (0 =? 0) with true. change (u16 (0 + 1)) with 1.
  destruct (HeaderSections.header sections) as [header |]; [| done].
  cbn [is_null andb then_program map_state run].
  destruct (Z.ltb_spec (OffsetTable.amount_of_chunk_offsets offset_table)
              (MediaValues.amount_of_chunks media_values)) as [Hgrows | Hholds];
    cbn [then_program map_state run length app].
  - destruct (Z.eqb_spec (w 0%nat Z resize) 1) as [Hresized | Hresized];
      cbn [negb then_program map_state run].
    + split; [done |]. intros _.
      change (WriteIoHandle.maximum_amount_of_segments reset)
        with (WriteIoHandle.maximum_amount_of_segments write_io_handle).
      change (WriteIoHandle.data_section reset)
        with (WriteIoHandle.data_section write_io_handle).
      destruct (w 1%nat _ create_segment_file) as [result segment_file_handle].
      cbn [fst snd then_program map_state run].
      split.
      * intros Hfailed. rewrite (proj2 (Z.eqb_neq result 1) Hfailed).
        reflexivity.
      * intros ->. change (1 =? 1) with true.
        cbn [negb then_program map_state run].
        destruct (run w 3 _) as [[rest r] s]. by eexists.
    + split; [done |]. intros [? | ?]; [lia | done].
  - split; [lia |]. intros _.
    change (WriteIoHandle.maximum_amount_of_segments reset)
      with (WriteIoHandle.maximum_amount_of_segments write_io_handle).
    change (WriteIoHandle.data_section reset)
      with (WriteIoHandle.data_section write_io_handle).
    destruct (w 0%nat _ create_segment_file) as [result segment_file_handle].
    cbn [fst snd then_program map_state run].
    split.
    + intros Hfailed. rewrite (proj2 (Z.eqb_neq result 1) Hfailed).
      reflexivity.
    + intros ->. change (1 =? 1) with true.
      cbn [negb then_program map_state run].
      destruct (run w 2 _) as [[rest r] s]. by eexists.
Qed.

End FirstSegmentFile.

(** X19, witness: the first chunk of a media of one chunk, with an
    offset table without entries: the offset table is resized, segment
    file 1 created and its start written; in a world where the resize
    fails the run ends there. *)
Lemma write_new_chunk_creates_first_segment_file_witness :
  (exists rest,
     run_trace obliging_world
       (libewf_write_io_handle_write_new_chunk (Some initial_write_io_handle)
          (Some example_io_handle) (Some media_of_one_chunk)
          (Some offset_table_without_chunks)
          (Some segment_table_without_files) (Some (Some 5%nat)) None
          (Some example_header_sections) None None None 0 (Some 1%nat) 65536
          65536 0 0 1)
     = Event (libewf_offset_table_resize offset_table_without_chunks 1) 1
       :: Event (libewf_segment_table_create_segment_file
                   segment_table_without_files 1 example_io_handle 0
                   LIBEWF_SEGMENT_FILE_TYPE_EWF)
            (1, Some created_segment_file)
       :: Event (libewf_segment_file_write_start (Some created_segment_file)
                   example_io_handle 1 LIBEWF_SEGMENT_FILE_TYPE_EWF
                   media_of_one_chunk (Some example_header_sections) None)
            (100, None)
       :: rest)
  /\ run (world_failing_at 0) 0
       (libewf_write_io_handle_write_new_chunk (Some initial_write_io_handle)
          (Some example_io_handle) (Some media_of_one_chunk)
          (Some offset_table_without_chunks)
          (Some segment_table_without_files) (Some (Some 5%nat)) None
          (Some example_header_sections) None None None 0 (Some 1%nat) 65536
          65536 0 0 1)
     = ([Event (libewf_offset_table_resize offset_table_without_chunks 1)
           (-1)],
        Failed (Some LIBERROR_RUNTIME_ERROR_RESIZE_FAILED),
        Some initial_write_io_handle).
Proof.
  split.
  - apply (write_new_chunk_creates_first_segment_file initial_write_io_handle
             example_io_handle media_of_one_chunk
             offset_table_without_chunks segment_table_without_files [None]
             (Some 5%nat) None example_header_sections None None None 0 1%nat
             65536 65536 0 0 1 obliging_world);
      try (by vm_compute).
    + by right.
    + by right.
  - apply (write_new_chunk_creates_first_segment_file initial_write_io_handle
             example_io_handle media_of_one_chunk
             offset_table_without_chunks segment_table_without_files [None]
             (Some 5%nat) None example_header_sections None None None 0 1%nat
             65536 65536 0 0 1 (world_failing_at 0));
      try (by vm_compute).
    by right.
Defined.
